(** * Long-term memory, image generation and routing of the AI companion

    A shallow embedding of
    - [ai_companion/modules/memory/long_term/vector_store.py]
    - [ai_companion/modules/memory/long_term/memory_manager.py]
    - [ai_companion/modules/image/text_to_image.py]
    together with the properties the specification states about them.

    The Python code talks to three outside services: the Qdrant index, the
    sentence-transformer embedding model and the Groq chat model.  They are
    not part of the repository; here they live in an explicit [World] that
    every operation threads through, and each call to them may raise
    according to a script of faults carried by the world.  Python exceptions
    are an explicit [Raise] result; [try ... except] is [try_except]. *)

From Stdlib Require Import QArith Qabs Ascii String.
From stdpp Require Import gmap strings list fin_maps pretty sorting.

Local Open Scope string_scope.

(** ** Exceptions and results *)

Inductive exn : Type :=
  | ResponseHandlingException   (* qdrant_client.http.exceptions *)
  | AttributeError              (* [None.get], [None.items] *)
  | ValueError (msg : string)
  | HTTPError (msg : string)    (* httpx.HTTPError *)
  | TextToImageError (msg : string)
  | OtherException (msg : string).

Definition is_ResponseHandlingException (e : exn) : bool :=
  match e with ResponseHandlingException => true | _ => false end.

Definition is_HTTPError (e : exn) : bool :=
  match e with HTTPError _ => true | _ => false end.

(** [str(e)] *)
Definition exn_str (e : exn) : string :=
  match e with
  | ResponseHandlingException => "ResponseHandlingException"
  | AttributeError => "'NoneType' object has no attribute"
  | ValueError m | HTTPError m | TextToImageError m | OtherException m => m
  end.

Inductive result (A : Type) : Type :=
  | Ok (a : A)
  | Raise (e : exn).
Arguments Ok {A} a.
Arguments Raise {A} e.

Definition is_ok {A} (r : result A) : bool :=
  match r with Ok _ => true | Raise _ => false end.

(** ** The data of the vector store *)

(** An embedding, and the JSON payload / metadata dictionaries (string keys,
    string values: the code stores [text], [id] and [timestamp]).  Vector
    components and similarity scores are Python floats; they are rationals
    here, compared exactly. *)
Definition Vector : Type := list Q.
Abbreviation Dict := (gmap string string).

(** A stored point.  Its id is the key it is stored under; a point written by
    another client may carry no payload at all. *)
Record Point : Type := mkPoint {
  pt_vector : Vector;
  pt_payload : option Dict
}.

(** [qdrant_client.models.ScoredPoint]: one search hit. *)
Record ScoredPoint : Type := mkHit {
  hit_id : string;
  hit_score : Q;
  hit_payload : option Dict
}.

(** [@dataclass class Memory] *)
Record Memory : Type := mkMemory {
  text : string;
  metadata : Dict;
  score : option Q
}.

(** [Memory.id]: [self.metadata.get("id")] *)
Definition Memory_id (m : Memory) : option string := metadata m !! "id".

(** [class MemoryAnalysis(BaseModel)] *)
Record MemoryAnalysis : Type := mkAnalysis {
  is_important : bool;
  formatted_memory : option string
}.

(** A [langchain_core] message, as far as the memory manager looks at it. *)
Record BaseMessage : Type := mkMessage {
  type : string;
  content : string
}.

(** What [llm.ainvoke] may do: raise, hand back a [MemoryAnalysis], or hand
    back something that is not one. *)
Inductive LlmReply : Type :=
  | ReplyRaise (e : exn)
  | ReplyAnalysis (a : MemoryAnalysis)
  | ReplyOther.

(** ** The world outside the process *)

Inductive Event : Type :=
  | EvGetCollections
  | EvCreateCollection (name : string) (dim : nat)
  | EvUpsert (name : string) (point_id : string)
  | EvSearch (name : string) (limit : nat)
  | EvEncode (txt : string)
  | EvSleep (seconds : nat)
  | EvLlm (prompt : string)
  | EvUuid
  | EvNow.

Record World : Type := mkWorld {
  (** the Qdrant server: collection name to points keyed by point id *)
  collections : gmap string (gmap string Point);
  (** outcome of the coming calls to Qdrant and to the embedding model, one
      entry per call; [None] and an exhausted script mean success *)
  faults : list (option exn);
  (** the chat model behind [with_structured_output(MemoryAnalysis)] *)
  llm : string -> LlmReply;
  (** [uuid.uuid4()] and [datetime.now().isoformat()], by call number *)
  uuid_src : nat -> string;
  clock_src : nat -> string;
  tick : nat;
  (** every call made so far, oldest first *)
  trace : list Event
}.

Definition log_event (e : Event) (w : World) : World :=
  mkWorld (collections w) (faults w) (llm w) (uuid_src w) (clock_src w)
          (tick w) (trace w ++ [e]).

Definition set_faults (fs : list (option exn)) (w : World) : World :=
  mkWorld (collections w) fs (llm w) (uuid_src w) (clock_src w)
          (tick w) (trace w).

Definition set_collections (cs : gmap string (gmap string Point)) (w : World)
  : World :=
  mkWorld cs (faults w) (llm w) (uuid_src w) (clock_src w) (tick w) (trace w).

Definition bump_tick (w : World) : World :=
  mkWorld (collections w) (faults w) (llm w) (uuid_src w) (clock_src w)
          (S (tick w)) (trace w).

(** ** The monad of the embedding: state and exceptions *)

Definition M (A : Type) : Type := World -> result A * World.

Definition ret {A} (a : A) : M A := fun w => (Ok a, w).

Definition raise {A} (e : exn) : M A := fun w => (Raise e, w).

Definition bind {A B} (m : M A) (k : A -> M B) : M B :=
  fun w =>
    match m w with
    | (Ok a, w') => k a w'
    | (Raise e, w') => (Raise e, w')
    end.

(** [try: m  except Exception as e: h e].  What [m] did to the world before
    it raised stays done. *)
Definition try_except {A} (m : M A) (h : exn -> M A) : M A :=
  fun w =>
    match m w with
    | (Ok a, w') => (Ok a, w')
    | (Raise e, w') => h e w'
    end.

Declare Scope m_scope.
Delimit Scope m_scope with M.
Notation "x <- c1 ;; c2" := (bind c1 (fun x => c2))
  (at level 100, c1 at next level, right associativity) : m_scope.
Notation "c1 ;;; c2" := (bind c1 (fun _ => c2))
  (at level 100, right associativity) : m_scope.
Local Open Scope m_scope.

(** The next entry of the fault script. *)
Definition next_fault : M unit :=
  fun w =>
    match faults w with
    | [] => (Ok tt, w)
    | None :: fs => (Ok tt, set_faults fs w)
    | Some e :: fs => (Raise e, set_faults fs w)
    end.

Definition emit (e : Event) : M unit := fun w => (Ok tt, log_event e w).

(** [time.sleep(seconds)] *)
Definition time_sleep (seconds : nat) : M unit := emit (EvSleep seconds).

(** [str(uuid.uuid4())] *)
Definition uuid4 : M string :=
  fun w => (Ok (uuid_src w (tick w)), bump_tick (log_event EvUuid w)).

(** [datetime.now().isoformat()] *)
Definition datetime_now : M string :=
  fun w => (Ok (clock_src w (tick w)), bump_tick (log_event EvNow w)).

Section Companion.

(** ** What the code takes from outside the repository

    The embedding model ([SentenceTransformer.encode]), the similarity the
    index ranks by (cosine, [Distance.COSINE]), Python's [hash] on strings,
    the prompt template of [core/prompts.py] applied to a message
    ([MEMORY_ANALYSIS_PROMPT.format(message=...)]) and
    [settings.MEMORY_TOP_K]. *)
Variable encode : string -> Vector.
Variable cosine : Vector -> Vector -> Q.
Variable hash : string -> Z.
Variable MEMORY_ANALYSIS_PROMPT_format : string -> string.
Variable MEMORY_TOP_K : nat.

(** ** The Qdrant client

    Modelled from the spec: the vector index (section 4.4), reached through
    [qdrant_client], which is not part of the repository.  Points are keyed
    by id, [upsert] replaces the point stored under an id or adds it,
    [search] hands back the [limit] best points by descending score, and an
    operation on a collection that does not exist is an error.  Every call
    first consults the fault script of the world. *)

(** A hit carries the payload of its point, the empty dictionary for a point
    stored without one. *)
Definition to_hit (qvec : Vector) (kp : string * Point) : ScoredPoint :=
  mkHit (fst kp) (cosine qvec (pt_vector (snd kp)))
        (Some (default ∅ (pt_payload (snd kp)))).

(** Modelled from the spec: the ranking behind [search], by insertion of
    each hit in a list kept in descending order of score. *)
Fixpoint insert_hit (h : ScoredPoint) (l : list ScoredPoint)
  : list ScoredPoint :=
  match l with
  | [] => [h]
  | x :: r =>
      if Qle_bool (hit_score x) (hit_score h) then h :: x :: r
      else x :: insert_hit h r
  end.

Definition rank_hits (l : list ScoredPoint) : list ScoredPoint :=
  foldr insert_hit [] l.

Definition search_points (ps : gmap string Point) (qvec : Vector) (limit : nat)
  : list ScoredPoint :=
  take limit (rank_hits (to_hit qvec <$> map_to_list ps)).

(** Modelled from the spec: [client.get_collections().collections], as the
    list of the names. *)
Definition client_get_collections : M (list string) :=
  emit EvGetCollections ;;;
  next_fault ;;;
  fun w => (Ok (fst <$> map_to_list (collections w)), w).

(** Modelled from the spec:
    [client.create_collection(collection_name, vectors_config)]. *)
Definition client_create_collection (name : string) (dim : nat) : M unit :=
  emit (EvCreateCollection name dim) ;;;
  next_fault ;;;
  fun w =>
    match collections w !! name with
    | Some _ => (Raise (OtherException "collection already exists"), w)
    | None => (Ok tt, set_collections (<[name := ∅]> (collections w)) w)
    end.

(** Modelled from the spec: [client.upsert(collection_name, points=[point])]. *)
Definition client_upsert (name : string) (point_id : string) (p : Point)
  : M unit :=
  emit (EvUpsert name point_id) ;;;
  next_fault ;;;
  fun w =>
    match collections w !! name with
    | None => (Raise (OtherException "collection not found"), w)
    | Some ps =>
        (Ok tt,
         set_collections (<[name := <[point_id := p]> ps]> (collections w)) w)
    end.

(** Modelled from the spec:
    [client.search(collection_name, query_vector, limit)]. *)
Definition client_search (name : string) (qvec : Vector) (limit : nat)
  : M (list ScoredPoint) :=
  emit (EvSearch name limit) ;;;
  next_fault ;;;
  fun w =>
    match collections w !! name with
    | None => (Raise (OtherException "collection not found"), w)
    | Some ps => (Ok (search_points ps qvec limit), w)
    end.

(** [self.model.encode(text)] *)
Definition model_encode (txt : string) : M Vector :=
  emit (EvEncode txt) ;;;
  next_fault ;;;
  ret (encode txt).

(** [await self.llm.ainvoke(prompt)] *)
Definition llm_ainvoke (prompt : string) : M LlmReply :=
  emit (EvLlm prompt) ;;;
  fun w =>
    match llm w prompt with
    | ReplyRaise e => (Raise e, w)
    | r => (Ok r, w)
    end.

(** ** [vector_store.py]: [class VectorStore] *)

Definition COLLECTION_NAME : string := "long_term_memory".
Definition SIMILARITY_THRESHOLD : Q := 9 # 10.
Definition max_retries : nat := 3.

(** One turn of the [for attempt in range(1, max_retries + 1)] loop of
    [_collection_exists]: [Some b] is [return b], [None] falls through to the
    next attempt after the sleep. *)
Definition _collection_exists_attempt (attempt : nat) : M (option bool) :=
  try_except
    (cols <- client_get_collections ;;
     ret (Some (existsb (String.eqb COLLECTION_NAME) cols)))
    (fun e =>
       if is_ResponseHandlingException e
       then time_sleep (attempt * 2) ;;; ret None
       else ret (Some false)).

Fixpoint _collection_exists_loop (attempts : list nat) : M bool :=
  match attempts with
  | [] => ret false
  | attempt :: rest =>
      r <- _collection_exists_attempt attempt ;;
      match r with
      | Some b => ret b
      | None => _collection_exists_loop rest
      end
  end.

Definition _collection_exists : M bool :=
  _collection_exists_loop (seq 1 max_retries).

(** [_create_collection]: the [except] clause logs and re-raises. *)
Definition _create_collection : M unit :=
  try_except
    (sample_embedding <- model_encode "sample text" ;;
     client_create_collection COLLECTION_NAME (length sample_embedding))
    (fun e => raise e).

(** One element of the list comprehension that ends [search_memories].
    The [payload] of a [ScoredPoint] is optional in the client's types, and
    [hit.payload.get] on [None] is an [AttributeError]; the hits of a search
    all carry a dictionary (see [to_hit]). *)
Definition hit_to_memory (hit : ScoredPoint) : result Memory :=
  match hit_payload hit with
  | None => Raise AttributeError
  | Some payload =>
      Ok (mkMemory (default "" (payload !! "text"))
                   (delete "text" payload)
                   (Some (hit_score hit)))
  end.

Fixpoint hits_to_memories (hits : list ScoredPoint) : result (list Memory) :=
  match hits with
  | [] => Ok []
  | hit :: rest =>
      match hit_to_memory hit with
      | Raise e => Raise e
      | Ok m =>
          match hits_to_memories rest with
          | Raise e => Raise e
          | Ok ms => Ok (m :: ms)
          end
      end
  end.

Definition lift {A} (r : result A) : M A := fun w => (r, w).

Definition search_memories (query : string) (k : nat) : M (list Memory) :=
  ex <- _collection_exists ;;
  if negb ex then ret []
  else
    r <- try_except
           (qvec <- model_encode query ;;
            results <- client_search COLLECTION_NAME qvec k ;;
            ret (Some results))
           (fun _ => ret None) ;;
    match r with
    | None => ret []
    | Some results => lift (hits_to_memories results)
    end.

Definition find_similar_memory (txt : string) : M (option Memory) :=
  results <- search_memories txt 1 ;;
  match results with
  | r :: _ =>
      match score r with
      | Some s =>
          if Qle_bool SIMILARITY_THRESHOLD s then ret (Some r) else ret None
      | None => ret None
      end
  | [] => ret None
  end.

(** Truth value of an optional string: [None] and [""] are false. *)
Definition truthy (o : option string) : bool :=
  match o with
  | Some s => negb (String.eqb s "")
  | None => false
  end.

(** [metadata["id"] = similar_memory.id] under
    [if similar_memory and similar_memory.id] *)
Definition adopt_id (similar_memory : option Memory) (md : Dict) : Dict :=
  match similar_memory with
  | Some m =>
      if truthy (Memory_id m)
      then <["id" := default "" (Memory_id m)]> md
      else md
  | None => md
  end.

(** [metadata.get("id", str(abs(hash(text))))] *)
Definition point_id_of (txt : string) (md : Dict) : string :=
  default (pretty (Z.abs (hash txt))) (md !! "id").

(** [{"text": text, **metadata}]: a [text] key of the metadata wins. *)
Definition payload_of (txt : string) (md : Dict) : Dict :=
  md ∪ {["text" := txt]}.

(** [store_memory].  The Python method returns [None] and updates the
    caller's [metadata] dictionary in place; the embedding returns the
    dictionary as the call leaves it. *)
Definition store_memory (txt : string) (md : Dict) : M Dict :=
  ex <- _collection_exists ;;
  ready <- (if negb ex
            then try_except (_create_collection ;;; ret true)
                            (fun _ => ret false)
            else ret true) ;;
  if negb ready then ret md
  else
    similar_memory <- find_similar_memory txt ;;
    let md := adopt_id similar_memory md in
    embedding <- model_encode txt ;;
    let point_id := point_id_of txt md in
    let point := mkPoint embedding (Some (payload_of txt md)) in
    try_except (client_upsert COLLECTION_NAME point_id point)
               (fun _ => ret tt) ;;;
    ret md.

(** ** [memory_manager.py]: [class MemoryManager] *)

Definition not_important : MemoryAnalysis := mkAnalysis false None.

Definition _analyze_memory (message : string) : M MemoryAnalysis :=
  let prompt := MEMORY_ANALYSIS_PROMPT_format message in
  try_except
    (analysis <- llm_ainvoke prompt ;;
     match analysis with
     | ReplyAnalysis a => ret a
     | _ => ret not_important
     end)
    (fun _ => ret not_important).

Definition new_metadata (memory_id timestamp : string) : Dict :=
  <["id" := memory_id]> (<["timestamp" := timestamp]> ∅).

(** [extract_and_store_memories].  The manager reaches the store through
    [self.vector_store]; the two methods it calls there are parameters of
    the body. *)
Definition extract_and_store_memories_with
    (find_similar_memory : string -> M (option Memory))
    (store_memory : string -> Dict -> M Dict)
    (message : BaseMessage) : M unit :=
  if negb (String.eqb (type message) "human") then ret tt
  else
    let content := content message in
    if String.eqb content "" then ret tt
    else
      analysis <- _analyze_memory content ;;
      if is_important analysis && truthy (formatted_memory analysis) then
        let fact := default "" (formatted_memory analysis) in
        similar <- try_except (find_similar_memory fact)
                              (fun _ => ret None) ;;
        match similar with
        | Some _ => ret tt
        | None =>
            try_except
              (memory_id <- uuid4 ;;
               timestamp <- datetime_now ;;
               store_memory fact (new_metadata memory_id timestamp) ;;;
               ret tt)
              (fun _ => ret tt)
        end
      else ret tt.

(** The manager over the store of the repository:
    [self.vector_store = get_vector_store()]. *)
Definition extract_and_store_memories : BaseMessage -> M unit :=
  extract_and_store_memories_with find_similar_memory store_memory.

Definition get_relevant_memories (context : string) : M (list string) :=
  r <- try_except
         (memories <- search_memories context MEMORY_TOP_K ;;
          ret (Some memories))
         (fun _ => ret None) ;;
  match r with
  | None => ret []
  | Some memories => ret (text <$> memories)
  end.


(** ** [text_to_image.py]: [class TextToImage]

    The module keeps no state of its own.  Its collaborators (the Groq chains
    behind [with_structured_output], the Pollinations HTTP endpoint and the
    file system) are read from an environment, each answering with a result
    or an exception. *)

Record ScenarioPrompt : Type := mkScenario {
  narrative : string;
  image_prompt : string
}.

Record ImageEnv : Type := mkImageEnv {
  (** [chain.ainvoke({"prompt": prompt})], then [.content] *)
  enhance_chain : string -> result string;
  (** [chain.ainvoke({"chat_history": formatted_history})] *)
  scenario_chain : string -> result ScenarioPrompt;
  (** [client.get(url)], [raise_for_status()], then [.content] *)
  http_get : string -> result string;
  (** [os.makedirs] and writing the bytes to [output_path] *)
  write_file : string -> string -> result unit
}.

Definition rbind {A B} (r : result A) (k : A -> result B) : result B :=
  match r with Ok a => k a | Raise e => Raise e end.

Definition rtry {A} (r : result A) (h : exn -> result A) : result A :=
  match r with Ok a => Ok a | Raise e => h e end.

(** A Python [str] is a sequence of code points; a [string] here holds its
    UTF-8 bytes.  [str.isspace], and with it [str.strip], accepts the code
    points U+0009 to U+000D, U+001C to U+0020, U+0085, U+00A0, U+1680,
    U+2000 to U+200A, U+2028, U+2029, U+202F, U+205F and U+3000. *)

(** The white space of the ASCII range. *)
Definition is_space (c : ascii) : bool :=
  let n := nat_of_ascii c in
  ((9 <=? n)%nat && (n <=? 13)%nat) || ((28 <=? n)%nat && (n <=? 32)%nat).

Definition is_byte (n : nat) (c : ascii) : bool := Nat.eqb (nat_of_ascii c) n.

(** [after_space s k d] is [k] of what follows the white space code point at
    the head of [s], and [d] when [s] starts with none: one ASCII byte,
    [C2 85], [C2 A0], [E1 9A 80], [E2 80 80] to [E2 80 8A], [E2 80 A8],
    [E2 80 A9], [E2 80 AF], [E2 81 9F] or [E3 80 80]. *)
Definition after_space {A} (s : string) (k : string -> A) (d : A) : A :=
  match s with
  | String c r =>
      if is_space c then k r
      else if is_byte 194 c then
        match r with
        | String c1 r1 =>
            if is_byte 133 c1 || is_byte 160 c1 then k r1 else d
        | EmptyString => d
        end
      else if is_byte 225 c then
        match r with
        | String c1 (String c2 r2) =>
            if is_byte 154 c1 && is_byte 128 c2 then k r2 else d
        | _ => d
        end
      else if is_byte 226 c then
        match r with
        | String c1 (String c2 r2) =>
            if is_byte 128 c1
               && ((128 <=? nat_of_ascii c2)%nat && (nat_of_ascii c2 <=? 138)%nat
                   || is_byte 168 c2 || is_byte 169 c2 || is_byte 175 c2)
            then k r2
            else if is_byte 129 c1 && is_byte 159 c2 then k r2
            else d
        | _ => d
        end
      else if is_byte 227 c then
        match r with
        | String c1 (String c2 r2) =>
            if is_byte 128 c1 && is_byte 128 c2 then k r2 else d
        | _ => d
        end
      else d
  | EmptyString => d
  end.

(** [not s.strip()] *)
Fixpoint is_blank (s : string) : bool :=
  match s with
  | EmptyString => true
  | String _ _ => after_space s (fun r => is_blank r) false
  end.


Definition is_upper (c : ascii) : bool :=
  let n := nat_of_ascii c in (65 <=? n)%nat && (n <=? 90)%nat.
Definition is_lower (c : ascii) : bool :=
  let n := nat_of_ascii c in (97 <=? n)%nat && (n <=? 122)%nat.
Definition is_digit (c : ascii) : bool :=
  let n := nat_of_ascii c in (48 <=? n)%nat && (n <=? 57)%nat.
Definition to_upper (c : ascii) : ascii :=
  if is_lower c then ascii_of_nat (nat_of_ascii c - 32) else c.
Definition to_lower (c : ascii) : ascii :=
  if is_upper c then ascii_of_nat (nat_of_ascii c + 32) else c.

(** [str.title()] on the ASCII range. *)
Fixpoint title_from (previous_is_cased : bool) (s : string) : string :=
  match s with
  | EmptyString => EmptyString
  | String c r =>
      String (if previous_is_cased then to_lower c else to_upper c)
             (title_from (is_upper c || is_lower c) r)
  end.
Definition title (s : string) : string := title_from false s.

(** [sep.join(parts)] *)
Fixpoint join (sep : string) (parts : list string) : string :=
  match parts with
  | [] => ""
  | [p] => p
  | p :: rest => p ++ sep ++ join sep rest
  end.

Definition newline : string := String (ascii_of_nat 10) EmptyString.

(** [urllib.parse.quote(s)] with the default [safe="/"], byte by byte. *)
Definition hex_digit (n : nat) : ascii :=
  if (n <? 10)%nat then ascii_of_nat (48 + n) else ascii_of_nat (55 + n).

Definition quote_safe (c : ascii) : bool :=
  is_upper c || is_lower c || is_digit c
  || bool_decide (c = "_"%char) || bool_decide (c = "."%char)
  || bool_decide (c = "-"%char) || bool_decide (c = "~"%char)
  || bool_decide (c = "/"%char).

Fixpoint quote (s : string) : string :=
  match s with
  | EmptyString => EmptyString
  | String c r =>
      if quote_safe c then String c (quote r)
      else String "%"%char
             (String (hex_digit (nat_of_ascii c / 16))
                (String (hex_digit (nat_of_ascii c mod 16)) (quote r)))
  end.

Definition api_url : string := "https://image.pollinations.ai/prompt".

Definition enhance_fallback (prompt : string) : string :=
  prompt ++ ", high quality, detailed, professional, 4k".

Definition enhance_prompt (env : ImageEnv) (prompt : string) : result string :=
  rtry (enhance_chain env prompt)
       (fun _ => Ok (enhance_fallback prompt)).

Definition fallback_scenario : ScenarioPrompt :=
  mkScenario
    "I'm imagining a beautiful scene..."
    "beautiful landscape with mountains and sunset, digital art, high quality, detailed".

(** [chat_history[-5:]] *)
Definition last_five {A} (l : list A) : list A := drop (length l - 5) l.

Definition format_history (chat_history : list BaseMessage) : string :=
  join newline
       ((fun msg => title (type msg) ++ ": " ++ content msg)
          <$> last_five chat_history).

(** [create_scenario(chat_history=None)]: slicing [None] raises inside the
    [try], like every other failure there. *)
Definition create_scenario (env : ImageEnv)
    (chat_history : option (list BaseMessage)) : result ScenarioPrompt :=
  rtry (match chat_history with
        | None => Raise (OtherException "'NoneType' object is not subscriptable")
        | Some h => scenario_chain env (format_history h)
        end)
       (fun _ => Ok fallback_scenario).

Definition image_url (enhanced_prompt : string) : string :=
  api_url ++ "/" ++ quote enhanced_prompt
          ++ "?width=1024&height=768&model=flux&nologo=true".

Definition generate_image (env : ImageEnv) (prompt output_path : string)
  : result string :=
  if is_blank prompt then Raise (ValueError "Prompt cannot be empty")
  else
    rtry
      (rbind (enhance_prompt env prompt) (fun enhanced_prompt =>
       rbind (http_get env (image_url enhanced_prompt)) (fun image_data =>
       rbind (if String.eqb output_path "" then Ok tt
              else write_file env output_path image_data) (fun _ =>
       Ok image_data))))
      (fun e =>
         if is_HTTPError e
         then Raise (TextToImageError
                       ("Failed to generate image: HTTP error - " ++ exn_str e))
         else Raise (TextToImageError
                       ("Failed to generate image: " ++ exn_str e))).

(** What an image turn hands back to the transport. *)
Record ImageTurn : Type := mkImageTurn {
  response_text : string;
  turn_image_prompt : string;
  response_media : option string
}.

(** Modelled from the spec: the image branch of the session workflow
    (section 4.2, state GENERATING); the workflow graph and its nodes are not
    among the sources.  Scenario synthesis gives the narrative and the visual
    prompt, [generate_image] enhances the prompt and renders it.  On a
    failure of the renderer, which [generate_image] hands on as a
    [TextToImageError], the workflow substitutes its generic fallback visual
    prompt, [fallback_prompt], and the turn completes without an image.  The
    specification names no fallback for any other failure, which is handed
    on. *)
Definition image_turn (fallback_prompt : string) (env : ImageEnv)
    (history : list BaseMessage) (output_path : string) : result ImageTurn :=
  rbind (create_scenario env (Some history)) (fun scenario =>
  match generate_image env (image_prompt scenario) output_path with
  | Ok image_data =>
      Ok (mkImageTurn (narrative scenario) (image_prompt scenario)
                      (Some image_data))
  | Raise (TextToImageError _) =>
      Ok (mkImageTurn (narrative scenario) fallback_prompt None)
  | Raise e => Raise e
  end).

(** ** The modality router *)

Inductive Modality : Type := conversation | image | audio.

Definition USER_SENT_IMAGE : string := "[USER_SENT_IMAGE]".
Definition IMAGE_ANALYSIS : string := "[Image Analysis:".

(** [sub in s] *)
Fixpoint contains (sub s : string) : bool :=
  String.prefix sub s
  || match s with
     | EmptyString => false
     | String _ r => contains sub r
     end.

(** The most recent user turn of a history, oldest message first. *)
Definition latest_user_turn (history : list BaseMessage)
  : option BaseMessage :=
  head (filter (fun m => type m = "human") (reverse history)).

Definition parse_label (out : result string) : Modality :=
  match out with
  | Ok l =>
      if String.eqb l "image" then image
      else if String.eqb l "audio" then audio
      else conversation
  | Raise _ => conversation
  end.

Definition has_image_marker (m : BaseMessage) : bool :=
  contains USER_SENT_IMAGE (content m) || contains IMAGE_ANALYSIS (content m).

(** Modelled from the spec: the router's [classify] (section 4.1); the
    workflow node that calls the classifier chain is not among the sources,
    only its prompt ([ROUTER_PROMPT]) and the transports that write the
    markers are.  The override is looked at first; otherwise the classifier
    capability is asked and anything but one of the three labels, or a
    failure, counts as [conversation]. *)
Definition classify (classifier : list BaseMessage -> result string)
    (history : list BaseMessage) : Modality :=
  match latest_user_turn history with
  | Some m =>
      if has_image_marker m then conversation
      else parse_label (classifier history)
  | None => parse_label (classifier history)
  end.

(** [whatsapp_response.py], the image branch of the message handler: the
    content handed to the workflow for an image with caption [user_caption],
    [analysis] being what the vision model said or its failure. *)
Definition whatsapp_image_content (user_caption : string)
    (analysis : result string) : string :=
  let user_question :=
    if is_blank user_caption then "What is this?" else user_caption in
  let content := USER_SENT_IMAGE ++ " " ++ user_question in
  match analysis with
  | Ok description =>
      content ++ newline ++ newline ++ "[Image Analysis: " ++ description ++ "]"
  | Raise _ =>
      content ++ newline ++ newline ++ "[Image Analysis: Failed to analyze]"
  end.


(** ** [memory_manager.py], the rest of [class MemoryManager] *)

(** [format_memories_for_prompt] *)
Definition format_memories_for_prompt (memories : list string) : string :=
  match memories with
  | [] => ""
  | _ => join newline ((fun m => "- " ++ m) <$> memories)
  end.

(** ** Python exceptions by class

    The vision module and the transports raise and catch more classes than
    the memory subsystem does; [str(e)] is [exc_str]. *)

Inductive exc : Type :=
  | PyValueError (msg : string)
  | PyImageToTextError (msg : string)
  | PyHTTPStatusError (status : nat)
  | PyKeyError (key : string)
  | PyIndexError
  | PyTypeError
  | PyAttributeError
  | PyOSError (msg : string)
  | PyException (msg : string).

Definition exc_str (e : exc) : string :=
  match e with
  | PyValueError m | PyImageToTextError m | PyOSError m | PyException m => m
  | PyHTTPStatusError s => "HTTP status " ++ pretty s
  | PyKeyError k => "'" ++ k ++ "'"
  | PyIndexError => "list index out of range"
  | PyTypeError => "unsupported operand"
  | PyAttributeError => "object has no attribute"
  end.

Inductive outcome (A : Type) : Type :=
  | Done (a : A)
  | Fail (e : exc).
Arguments Done {A} a.
Arguments Fail {A} e.

Definition obind {A B} (r : outcome A) (k : A -> outcome B) : outcome B :=
  match r with Done a => k a | Fail e => Fail e end.

Definition otry {A} (r : outcome A) (h : exc -> outcome A) : outcome A :=
  match r with Done a => Done a | Fail e => h e end.

(** [s.lstrip()], [s.rstrip()], [s.strip()] *)
Fixpoint lstrip (s : string) : string :=
  after_space s (fun r => lstrip r) s.

Fixpoint rstrip (s : string) : string :=
  match s with
  | EmptyString => EmptyString
  | String c r => if is_blank s then EmptyString else String c (rstrip r)
  end.

Definition strip (s : string) : string := rstrip (lstrip s).

(** What follows the white space code point at the head of a string. *)
Definition space_tail (s : string) : option string := after_space s Some None.

(** ** [image_to_text.py]: [class ImageToText] *)

(** [image_data: Union[str, bytes]]: a file path or the bytes themselves. *)
Inductive ImageInput : Type :=
  | ImagePath (path : string)
  | ImageBytes (data : string).

(** What [analyze_image] reaches outside the module: the file system, the
    PIL block (open the bytes, bring them to RGB, shrink them to 1024 pixels
    on the longest side, save them as JPEG), [base64.b64encode] and the Groq
    vision completion, answering with the [message.content] of each
    choice. *)
Record VisionEnv : Type := mkVisionEnv {
  path_exists : string -> bool;
  read_image : string -> outcome string;
  to_jpeg : string -> outcome string;
  b64encode : string -> string;
  vision_chat : string -> string -> outcome (list (option string))
}.

Definition DEFAULT_VISION_PROMPT : string :=
  "Look at this image carefully and describe what you see in detail. Include:"
  ++ newline ++ "- What the main subject is (person, object, scene, etc.)"
  ++ newline ++ "- Physical characteristics (colors, clothing, expressions, etc.)"
  ++ newline ++ "- The setting or background"
  ++ newline ++ "- Any text or writing visible"
  ++ newline ++ "- The mood or atmosphere"
  ++ newline ++ "- Any other notable details"
  ++ newline ++ newline
  ++ "Provide a clear, descriptive response in a conversational tone.".

(** The bytes behind [image_data]. *)
Definition image_bytes_of (env : VisionEnv) (image_data : ImageInput)
  : outcome string :=
  match image_data with
  | ImagePath p =>
      if negb (path_exists env p)
      then Fail (PyValueError ("Image file not found: " ++ p))
      else read_image env p
  | ImageBytes b => Done b
  end.

(** The bytes that are sent: the JPEG when PIL gets through, the original
    bytes when it does not. *)
Definition processed_bytes (env : VisionEnv) (image_bytes : string) : string :=
  match to_jpeg env image_bytes with
  | Done b => b
  | Fail _ => image_bytes
  end.

Definition data_url (base64_image : string) : string :=
  "data:image/jpeg;base64," ++ base64_image.

Definition analyze_image (env : VisionEnv) (image_data : ImageInput)
    (prompt : string) : outcome string :=
  otry
    (obind (image_bytes_of env image_data) (fun image_bytes =>
     if String.eqb image_bytes ""
     then Fail (PyValueError "Image data cannot be empty")
     else
       let image_bytes := processed_bytes env image_bytes in
       let base64_image := b64encode env image_bytes in
       let prompt :=
         if String.eqb prompt "" then DEFAULT_VISION_PROMPT else prompt in
       obind (vision_chat env prompt (data_url base64_image)) (fun choices =>
       match choices with
       | [] =>
           Fail (PyImageToTextError
                   "No response received from the vision model")
       | content :: _ =>
           match content with
           | None => Fail (PyImageToTextError "Empty response from vision model")
           | Some description =>
               if String.eqb description "" || is_blank description
               then Fail (PyImageToTextError
                            "Empty response from vision model")
               else Done (strip description)
           end
       end)))
    (fun e =>
       Fail (PyImageToTextError ("Failed to analyze image: " ++ exc_str e))).

(** ** [whatsapp_response.py]: the verification handshake *)

(** [fastapi.Response(content=..., status_code=...)] *)
Record Response : Type := mkResponse {
  resp_content : option string;
  status_code : nat
}.

(** [a or b] on optional strings. *)
Definition or_else (a b : option string) : option string :=
  if truthy a then a else b.

(** [whatsapp_verification], from the query parameters of the request and
    the environment of the process. *)
Definition whatsapp_verification (params environ : gmap string string)
  : Response :=
  let mode := params !! "hub.mode" in
  let token := params !! "hub.verify_token" in
  let challenge := params !! "hub.challenge" in
  let verify_token :=
    or_else (environ !! "WHATSAPP_VERIFY_TOKEN")
            (environ !! "WEBHOOK_VERIFY_TOKEN") in
  if bool_decide (mode = Some "subscribe")
     && bool_decide (token = verify_token)
  then mkResponse challenge 200
  else mkResponse (Some "Verification token mismatch") 403.

(** ** [chainlit/app.py]: the content of a message with attachments *)

(** An element of a Chainlit message: an image, by the path of its file, or
    something else. *)
Inductive Element : Type :=
  | ImageElement (path : string)
  | OtherElement.

Definition CHAINLIT_DEFAULT_QUESTION : string :=
  "Please describe what you see in this image.".

(** One turn of the loop over [message.elements] in [on_message]: the
    content so far becomes the question about the image.  Reading the file
    is outside the [try]; the analysis is inside. *)
Definition chainlit_image_step (env : VisionEnv) (content path : string)
  : outcome string :=
  let user_question :=
    if is_blank content then CHAINLIT_DEFAULT_QUESTION else content in
  let content := USER_SENT_IMAGE ++ " " ++ user_question in
  obind (read_image env path) (fun image_bytes =>
  match analyze_image env (ImageBytes image_bytes)
          (if is_blank user_question
           then "Please describe what you see in this image in detail."
           else user_question) with
  | Done description =>
      Done (content ++ newline ++ newline
                    ++ "[Image Analysis: " ++ description ++ "]")
  | Fail _ =>
      Done (content ++ newline ++ newline
                    ++ "[Image Analysis: Failed to analyze the image]")
  end).

Fixpoint chainlit_content (env : VisionEnv) (content : string)
    (elements : list Element) : outcome string :=
  match elements with
  | [] => Done content
  | ImageElement path :: rest =>
      obind (chainlit_image_step env content path)
            (fun content => chainlit_content env content rest)
  | OtherElement :: rest => chainlit_content env content rest
  end.

(** ** [whatsapp_response.py]: the client and the webhook *)

(** A value of [request.json()] or [res.json()].  An object is the list of
    its fields; the first binding of a key is the value of the [dict]. *)
Local Unset Elimination Schemes.
Inductive json : Type :=
  | JNull
  | JBool (b : bool)
  | JNum (n : Z)
  | JStr (s : string)
  | JArr (items : list json)
  | JObj (fields : list (string * json)).
Local Set Elimination Schemes.

Fixpoint assoc (k : string) (fields : list (string * json)) : option json :=
  match fields with
  | [] => None
  | (k', v) :: rest => if String.eqb k k' then Some v else assoc k rest
  end.

(** [d[k] = v] *)
Fixpoint dict_set (k : string) (v : json) (fields : list (string * json))
  : list (string * json) :=
  match fields with
  | [] => [(k, v)]
  | (k', v') :: rest =>
      if String.eqb k k' then (k, v) :: rest
      else (k', v') :: dict_set k v rest
  end.

(** [bool(v)] *)
Definition py_bool (v : json) : bool :=
  match v with
  | JNull => false
  | JBool b => b
  | JNum n => negb (n =? 0)%Z
  | JStr s => negb (String.eqb s "")
  | JArr items => match items with [] => false | _ => true end
  | JObj fields => match fields with [] => false | _ => true end
  end.

(** [bool(v)] for the result of a [.get]: a missing key gives [None]. *)
Definition py_bool_opt (v : option json) : bool :=
  match v with Some v => py_bool v | None => false end.

(** [v.get(k)]: only a [dict] has the method. *)
Definition py_get (k : string) (v : json) : outcome (option json) :=
  match v with
  | JObj fields => Done (assoc k fields)
  | _ => Fail PyAttributeError
  end.

(** [v[k]] for a string [k] *)
Definition py_item (k : string) (v : json) : outcome json :=
  match v with
  | JObj fields =>
      match assoc k fields with
      | Some x => Done x
      | None => Fail (PyKeyError k)
      end
  | _ => Fail PyTypeError
  end.

(** The first code point of a string: its first byte and the continuation
    bytes behind it. *)
Definition is_continuation (c : ascii) : bool :=
  (128 <=? nat_of_ascii c)%nat && (nat_of_ascii c <? 192)%nat.

Fixpoint take_continuation (s : string) : string :=
  match s with
  | String c r =>
      if is_continuation c then String c (take_continuation r)
      else EmptyString
  | EmptyString => EmptyString
  end.

(** [v[0]] *)
Definition py_first (v : json) : outcome json :=
  match v with
  | JArr [] => Fail PyIndexError
  | JArr (x :: _) => Done x
  | JStr EmptyString => Fail PyIndexError
  | JStr (String c r) => Done (JStr (String c (take_continuation r)))
  | JObj _ => Fail (PyKeyError "0")
  | _ => Fail PyTypeError
  end.

(** [v == s] for a string [s] *)
Definition is_str (s : string) (v : json) : bool :=
  match v with JStr t => String.eqb t s | _ => false end.

(** [k in v] for a string [k] *)
Definition py_in (k : string) (v : json) : outcome bool :=
  match v with
  | JObj fields =>
      Done (match assoc k fields with Some _ => true | None => false end)
  | JArr items => Done (existsb (is_str k) items)
  | JStr s => Done (contains k s)
  | _ => Fail PyTypeError
  end.

(** An [httpx] response: the status, [res.json()] and [res.content]. *)
Record HttpResponse : Type := mkHttpResponse {
  res_status : nat;
  res_json : outcome json;
  res_content : string
}.

(** The three requests of the client: a JSON post, the multipart upload of
    one file with its form fields, and a get. *)
Inductive HttpRequest : Type :=
  | PostJson (url : string) (headers : list (string * string)) (body : json)
  | PostFiles (url : string) (headers : list (string * string))
              (file_name file_content file_mime : string)
              (data : list (string * string))
  | GetUrl (url : string) (headers : list (string * string)).

(** What the handler reads of [output_state.values]: the workflow, the
    contents of the messages, the bytes of the audio buffer and the path of
    the image. *)
Record OutputState : Type := mkOutputState {
  st_workflow : option string;
  st_messages : list string;
  st_audio_buffer : option string;
  st_image_path : option string
}.

(** The surroundings of the webhook.  [net_http n req] is the answer to
    [req] when [n] requests have gone out before it; [net_graph thread
    content] is the state of the thread after the graph has run on a human
    message with that content; [wire] and [invoked] record the requests and
    the runs of the graph, oldest first. *)
Record Net : Type := mkNet {
  net_environ : gmap string string;
  net_http : nat -> HttpRequest -> outcome HttpResponse;
  net_transcribe : string -> outcome string;
  net_vision : VisionEnv;
  net_graph : json -> json -> outcome OutputState;
  net_open : string -> outcome string;
  net_format : json -> string;
  wire : list HttpRequest;
  invoked : list (json * json)
}.

Definition sent (req : HttpRequest) (net : Net) : Net :=
  mkNet (net_environ net) (net_http net) (net_transcribe net) (net_vision net)
        (net_graph net) (net_open net) (net_format net)
        (wire net ++ [req])%list (invoked net).

Definition ran_graph (thread content : json) (net : Net) : Net :=
  mkNet (net_environ net) (net_http net) (net_transcribe net) (net_vision net)
        (net_graph net) (net_open net) (net_format net)
        (wire net) (invoked net ++ [(thread, content)])%list.

Definition T (A : Type) : Type := Net -> outcome A * Net.

Definition tret {A} (a : A) : T A := fun net => (Done a, net).

Definition tlift {A} (r : outcome A) : T A := fun net => (r, net).

Definition tbind {A B} (m : T A) (k : A -> T B) : T B :=
  fun net =>
    match m net with
    | (Done a, net') => k a net'
    | (Fail e, net') => (Fail e, net')
    end.

Declare Scope t_scope.
Delimit Scope t_scope with T.
Notation "x <- c1 ;; c2" := (tbind c1 (fun x => c2))
  (at level 100, c1 at next level, right associativity) : t_scope.
Notation "c1 ;;; c2" := (tbind c1 (fun _ => c2))
  (at level 100, right associativity) : t_scope.
Local Open Scope t_scope.

(** [client.post], [client.get] *)
Definition http_call (req : HttpRequest) : T HttpResponse :=
  fun net => (net_http net (length (wire net)) req, sent req net).

(** [res.raise_for_status()] *)
Definition raise_for_status (res : HttpResponse) : T unit :=
  if (200 <=? res_status res)%nat && (res_status res <? 300)%nat
  then tret tt
  else tlift (Fail (PyHTTPStatusError (res_status res))).

(** [f"{v}"] *)
Definition py_str (v : option string) : string := default "None" v.

Definition py_format (net : Net) (v : json) : string :=
  match v with JStr s => s | _ => net_format net v end.

(** [WhatsAppClient.__init__] *)
Definition client_token (net : Net) : option string :=
  or_else (net_environ net !! "WHATSAPP_TOKEN")
          (net_environ net !! "WHATSAPP_API_TOKEN").

Definition base_url (net : Net) : string :=
  "https://graph.facebook.com/v21.0/"
  ++ py_str (net_environ net !! "WHATSAPP_PHONE_NUMBER_ID").

Definition authorization (net : Net) : string * string :=
  ("Authorization", "Bearer " ++ py_str (client_token net)).

Definition client_headers (net : Net) : list (string * string) :=
  [authorization net; ("Content-Type", "application/json")].

(** [WhatsAppClient._post]: the status of the answer is logged, nothing
    more. *)
Definition _post (endpoint : string) (json_data : json) : T HttpResponse :=
  fun net =>
    http_call (PostJson (base_url net ++ "/" ++ endpoint)
                        (client_headers net) json_data) net.

Definition read_payload (message_id : json) : json :=
  JObj [("messaging_product", JStr "whatsapp");
        ("status", JStr "read");
        ("message_id", message_id)].

Definition mark_as_read (message_id : json) : T unit :=
  _post "messages" (read_payload message_id) ;;; tret tt.

Definition reaction_payload (to message_id : json) (emoji : string) : json :=
  JObj [("messaging_product", JStr "whatsapp");
        ("recipient_type", JStr "individual");
        ("to", to);
        ("type", JStr "reaction");
        ("reaction", JObj [("message_id", message_id);
                           ("emoji", JStr emoji)])].

Definition send_reaction (to message_id : json) (emoji : string) : T unit :=
  _post "messages" (reaction_payload to message_id emoji) ;;; tret tt.

(** [WhatsAppClient._upload_media] *)
Definition upload_request (net : Net) (content mime_type : string)
  : HttpRequest :=
  PostFiles (base_url net ++ "/media") [authorization net]
            "media_file" content mime_type
            [("messaging_product", "whatsapp"); ("type", mime_type)].

Definition _upload_media (content mime_type : string) : T json :=
  fun net =>
    (res <- http_call (upload_request net content mime_type) ;;
     raise_for_status res ;;;
     body <- tlift (res_json res) ;;
     tlift (py_item "id" body)) net.

(** [WhatsAppClient.send_message] *)
Definition message_payload (to : json) (msg_type : string) (part : json)
  : json :=
  JObj (dict_set msg_type part
          [("messaging_product", JStr "whatsapp");
           ("to", to);
           ("type", JStr msg_type)]).

Definition send_message (to : json) (content msg_type : string) : T unit :=
  if String.eqb msg_type "text" then
    _post "messages"
      (message_payload to msg_type (JObj [("body", JStr content)])) ;;;
    tret tt
  else if String.eqb msg_type "audio" || String.eqb msg_type "image" then
    let mime_type :=
      if String.eqb msg_type "audio" then "audio/mpeg" else "image/png" in
    media_id <- _upload_media content mime_type ;;
    _post "messages"
      (message_payload to msg_type (JObj [("id", media_id)])) ;;;
    tret tt
  else tret tt.

(** [WhatsAppClient.download_media] *)
Definition download_media (media_id : json) : T string :=
  fun net =>
    (meta_res <- http_call
                   (GetUrl ("https://graph.facebook.com/v21.0/"
                              ++ py_format net media_id)
                           (client_headers net)) ;;
     raise_for_status meta_res ;;;
     body <- tlift (res_json meta_res) ;;
     download_url <- tlift (py_get "url" body) ;;
     match download_url with
     | Some (JStr url) =>
         media_res <- http_call (GetUrl url (client_headers net)) ;;
         raise_for_status media_res ;;;
         tret (res_content media_res)
     | _ => tlift (Fail PyTypeError)
     end) net.

(** The first two steps of [whatsapp_message_handler]: the change the
    payload carries, or nothing when it has no entry or no changes. *)
Definition change_value_of (data : json) : outcome (option json) :=
  obind (py_get "entry" data) (fun entry =>
  if negb (py_bool_opt entry) then Done None else
  obind (obind (py_item "entry" data) py_first) (fun entry0 =>
  obind (py_get "changes" entry0) (fun changes =>
  if negb (py_bool_opt changes) then Done None else
  obind (obind (obind (py_item "changes" entry0) py_first)
               (py_item "value"))
        (fun change_value => Done (Some change_value))))).

(** Steps 5 to 7: the graph runs on the content and its answer goes out. *)
Definition respond (from_number message_id content : json) : T Response :=
  output_state <-
    (fun net => (net_graph net from_number content,
                 ran_graph from_number content net)) ;;
  let workflow := default "conversation" (st_workflow output_state) in
  response_text <-
    tlift (match last (st_messages output_state) with
           | Some m => Done m
           | None => Fail PyIndexError
           end) ;;
  (if String.eqb workflow "audio" then
     audio <- tlift (match st_audio_buffer output_state with
                     | Some b => Done b
                     | None => Fail (PyKeyError "audio_buffer")
                     end) ;;
     send_message from_number audio "audio"
   else if String.eqb workflow "image" then
     image_path <- tlift (match st_image_path output_state with
                          | Some p => Done p
                          | None => Fail (PyKeyError "image_path")
                          end) ;;
     image_data <- (fun net => (net_open net image_path, net)) ;;
     send_message from_number image_data "image" ;;;
     if negb (String.eqb response_text "")
     then send_message from_number response_text "text"
     else tret tt
   else send_message from_number response_text "text") ;;;
  send_reaction from_number message_id "✅" ;;;
  tret (mkResponse (Some "Processed") 200).

(** An exception as the other modules see it. *)
Definition as_result {A} (r : outcome A) : result A :=
  match r with
  | Done a => Ok a
  | Fail e => Raise (OtherException (exc_str e))
  end.

(** Step 4 for an image: the caption, the download, the analysis. *)
Definition image_content (message : json) : T json :=
  image <- tlift (py_get "image" message) ;;
  caption <- tlift (py_get "caption" (default (JObj []) image)) ;;
  user_caption <-
    tlift (match default (JStr "") caption with
           | JStr s => Done s
           | _ => Fail PyAttributeError
           end) ;;
  let user_question :=
    if is_blank user_caption then "What is this?" else user_caption in
  media_id <- tlift (obind (py_item "image" message) (py_item "id")) ;;
  image_bytes <- download_media media_id ;;
  fun net =>
    (Done (JStr (whatsapp_image_content user_caption
                   (as_result (analyze_image (net_vision net)
                                 (ImageBytes image_bytes) user_question)))),
     net).

(** Step 4 for a voice note: the download, the transcription. *)
Definition audio_content (message : json) : T json :=
  media_id <- tlift (obind (py_item "audio" message) (py_item "id")) ;;
  audio_bytes <- download_media media_id ;;
  content <- (fun net => (net_transcribe net audio_bytes, net)) ;;
  tret (JStr content).

(** Steps 3 to 7 for one message: the blue ticks, the reaction, the content,
    the answer. *)
Definition handle_message (message from_number message_id message_type : json)
  : T Response :=
  mark_as_read message_id ;;;
  let start_reaction :=
    if is_str "image" message_type then "👀"
    else if is_str "audio" message_type then "👂"
    else "🤔" in
  send_reaction from_number message_id start_reaction ;;;
  if is_str "audio" message_type then
    content <- audio_content message ;;
    respond from_number message_id content
  else if is_str "image" message_type then
    content <- image_content message ;;
    respond from_number message_id content
  else if is_str "text" message_type then
    content <- tlift (obind (py_item "text" message) (py_item "body")) ;;
    respond from_number message_id content
  else
    send_message from_number
      "Sorry, I can't handle this message type yet." "text" ;;;
    tret (mkResponse (Some "Unsupported type") 200).

(** Step 3, for a change that is not a status update: the first message,
    its sender, its id and its type. *)
Definition handle_messages (change_value : json) : T Response :=
  message <- tlift (obind (py_item "messages" change_value) py_first) ;;
  from_number <- tlift (py_item "from" message) ;;
  message_id <- tlift (py_item "id" message) ;;
  message_type <- tlift (py_item "type" message) ;;
  handle_message message from_number message_id message_type.

(** The body of the [try] of [whatsapp_message_handler]. *)
Definition handle_webhook (request_json : outcome json) : T Response :=
  data <- tlift request_json ;;
  change <- tlift (change_value_of data) ;;
  match change with
  | None => tret (mkResponse (Some "No changes") 200)
  | Some change_value =>
      has_statuses <- tlift (py_in "statuses" change_value) ;;
      if has_statuses
      then tret (mkResponse (Some "Status received") 200)
      else
        has_messages <- tlift (py_in "messages" change_value) ;;
        if has_messages then handle_messages change_value
        else tret (mkResponse (Some "No messages found") 200)
  end.

(** [whatsapp_message_handler] *)
Definition whatsapp_message_handler (request_json : outcome json)
  : Net -> Response * Net :=
  fun net =>
    match handle_webhook request_json net with
    | (Done response, net') => (response, net')
    | (Fail _, net') => (mkResponse (Some "Internal Error") 500, net')
    end.

Local Close Scope t_scope.

(** ** Vocabulary of the properties *)

(** What a run added to the trace. *)
Definition sleeps (evs : list Event) : list nat :=
  omap (fun e => match e with EvSleep n => Some n | _ => None end) evs.

Definition is_probe (e : Event) : bool :=
  match e with EvGetCollections => true | _ => false end.

Definition is_write (e : Event) : bool :=
  match e with
  | EvUpsert _ _ => true
  | EvCreateCollection _ _ => true
  | _ => false
  end.

Definition probes (evs : list Event) : nat :=
  length (List.filter is_probe evs).
Definition writes (evs : list Event) : nat :=
  length (List.filter is_write evs).

(** The delays before the retries: the sleeps that a later probe follows. *)
Fixpoint retry_delays (evs : list Event) : list nat :=
  match evs with
  | [] => []
  | EvSleep n :: rest =>
      if existsb is_probe rest then n :: retry_delays rest
      else retry_delays rest
  | _ :: rest => retry_delays rest
  end.

(** Delay before retry number [i] (from 0): [base * 2^i] for an exponential
    backoff, [step * (i + 1)] for a linear one. *)
Definition exponential_backoff (base : nat) (delays : list nat) : Prop :=
  forall i d, delays !! i = Some d -> d = base * 2 ^ i.

Definition linear_backoff (step : nat) (delays : list nat) : Prop :=
  forall i d, delays !! i = Some d -> d = step * (i + 1).

(** The answer of a probe that gets through. *)
Definition has_collection (w : World) : bool :=
  existsb (String.eqb COLLECTION_NAME) (fst <$> map_to_list (collections w)).

(** [w'] is [w] after some calls: the index and the sources of ids and time
    are untouched, [evs] was appended to the trace. *)
Definition only_logged (w w' : World) (evs : list Event) : Prop :=
  collections w' = collections w /\ llm w' = llm w
  /\ uuid_src w' = uuid_src w /\ clock_src w' = clock_src w
  /\ tick w' = tick w /\ trace w' = (trace w ++ evs)%list.

Definition is_upsert (e : Event) : bool :=
  match e with EvUpsert _ _ => true | _ => false end.

Definition upserts (evs : list Event) : nat :=
  length (List.filter is_upsert evs).

(** Several events at once, oldest first. *)
Definition log_events (evs : list Event) (w : World) : World :=
  foldl (fun w e => log_event e w) w evs.

(** The points of the memory collection. *)
Definition points (w : World) : option (gmap string Point) :=
  collections w !! COLLECTION_NAME.

Definition put_point (point_id : string) (p : Point) (w : World) : World :=
  set_collections
    (<[COLLECTION_NAME := <[point_id := p]> (default ∅ (points w))]>
       (collections w)) w.

(** What [find_similar_memory] finds among the points [ps] for a query
    vector when every call gets through. *)
Definition similar_of (ps : gmap string Point) (qvec : Vector)
  : result (option Memory) :=
  match hits_to_memories (search_points ps qvec 1) with
  | Raise e => Raise e
  | Ok [] => Ok None
  | Ok (r :: _) =>
      match score r with
      | Some s => if Qle_bool SIMILARITY_THRESHOLD s then Ok (Some r)
                  else Ok None
      | None => Ok None
      end
  end.

(** The point [store_memory] writes for [txt] under the metadata [md]. *)
Definition point_of (txt : string) (md : Dict) : Point :=
  mkPoint (encode txt) (Some (payload_of txt md)).

(** A payload that names an id names the id its point is stored under, as
    for every point [store_memory] writes. *)
Definition wf_store (ps : gmap string Point) : Prop :=
  forall k p pl i,
    ps !! k = Some p -> pt_payload p = Some pl -> pl !! "id" = Some i ->
    i = k.

(** Every point carries its own id, not empty, in its payload, as every point
    [store_memory] writes for metadata with an id. *)
Definition ids_present (ps : gmap string Point) : Prop :=
  forall k p,
    ps !! k = Some p ->
    exists pl, pt_payload p = Some pl /\ pl !! "id" = Some k /\ k <> "".

(** [a] is ranked no lower than [b]. *)
Definition outranks (a b : ScoredPoint) : Prop :=
  (hit_score b <= hit_score a)%Q.

(** Every point carries a payload, as every point [store_memory] writes. *)
Definition payloads_present (ps : gmap string Point) : Prop :=
  forall k p, ps !! k = Some p -> is_Some (pt_payload p).

(** The memory a hit with payload [pl] becomes in [search_memories]. *)
Definition memory_of (h : ScoredPoint) (pl : Dict) : Memory :=
  mkMemory (default "" (pl !! "text")) (delete "text" pl) (Some (hit_score h)).

(** The text a stored point carries, by point id. *)
Definition stored_text (w : World) (point_id : string) : option string :=
  ps ← points w; p ← ps !! point_id; pl ← pt_payload p; pl !! "text".

(** ** A small world for the examples

    A one-dimensional embedding (the length of the text), a similarity that
    loses a tenth per unit of distance, and a chat model that always extracts
    the same fact. *)
Definition demo_encode (s : string) : Vector :=
  [inject_Z (Z.of_nat (String.length s))].

Definition demo_cosine (a b : Vector) : Q :=
  match a, b with
  | [x], [y] => 1 - Qabs (x - y) * (1 # 10)
  | _, _ => 0
  end.

Definition demo_hash (s : string) : Z := - Z.of_nat (String.length s).

Definition demo_format (message : string) : string := "Message: " ++ message.

Definition demo_llm (reply : LlmReply) : string -> LlmReply := fun _ => reply.

Definition important (fact : string) : LlmReply :=
  ReplyAnalysis (mkAnalysis true (Some fact)).

Definition demo_world (cs : gmap string (gmap string Point))
    (fs : list (option exn)) (reply : LlmReply) : World :=
  mkWorld cs fs (demo_llm reply)
          (fun n => "uuid-" ++ pretty n) (fun n => "2026-01-0" ++ pretty n)
          0 [].

Definition demo_md (point_id : string) : Dict :=
  <["id" := point_id]> (<["timestamp" := "2025-12-31"]> ∅).

Definition demo_point (txt point_id : string) : Point :=
  mkPoint (demo_encode txt)
          (Some (<["text" := txt]> (demo_md point_id))).

(** The collection after "Studies at MIT" was stored under [id-1]. *)
Definition demo_store : gmap string Point :=
  {[ "id-1" := demo_point "Studies at MIT" "id-1" ]}.

(** A string given by its UTF-8 bytes. *)
Definition utf8 (bytes : list nat) : string :=
  foldr (fun n r => String (ascii_of_nat n) r) EmptyString bytes.

Definition demo_message : BaseMessage :=
  mkMessage "human" "please remember that I studied at MIT".

(** The text of a hit, as [get_relevant_memories] hands it back. *)
Definition hit_text (h : ScoredPoint) : string :=
  default "" (pl ← hit_payload h; pl !! "text").

Definition rhe : option exn := Some ResponseHandlingException.

(** Image environments: one whose renderer is down, one whose chains are. *)
Definition renderer_down : ImageEnv :=
  mkImageEnv (fun p => Ok (p ++ ", golden hour, 50mm"))
             (fun _ => Ok (mkScenario "watching the sunset" "sunset at a beach"))
             (fun _ => Raise (HTTPError "503 Service Unavailable"))
             (fun _ _ => Ok tt).

Definition chains_down : ImageEnv :=
  mkImageEnv (fun _ => Raise (OtherException "rate limit"))
             (fun _ => Raise (OtherException "rate limit"))
             (fun _ => Ok "PNG")
             (fun _ _ => Ok tt).

Definition demo_history : list BaseMessage :=
  [ mkMessage "human" "hey";
    mkMessage "ai" "yo, what's up";
    mkMessage "human"
      (whatsapp_image_content "what is this?"
         (Ok "a laptop screen showing an error"));
    mkMessage "ai" "looking at it" ].

(** No stored point is a near-duplicate of [txt]: the dedup search runs and
    finds nothing, or there is no collection yet. *)
Definition no_near_duplicate (w : World) (txt : string) : Prop :=
  forall ps, points w = Some ps -> similar_of ps (encode txt) = Ok None.

(** The generator behind [uuid4] never hands out the same id twice, and the
    ids it is still to hand out are not in use: no stored point carries one
    of them. *)
Definition uuid_unique (w : World) : Prop :=
  forall m n, uuid_src w m = uuid_src w n -> m = n.

Definition uuid_unused (w : World) : Prop :=
  forall ps n,
    points w = Some ps -> tick w <= n -> ps !! uuid_src w n = None.

(** ** Vocabulary of the footprints *)

(** The points of the memory collection, none when there is no collection. *)
Definition pts (w : World) : gmap string Point := default ∅ (points w).

Definition is_create (e : Event) : bool :=
  match e with EvCreateCollection _ _ => true | _ => false end.

Definition is_llm (e : Event) : bool :=
  match e with EvLlm _ => true | _ => false end.

Definition creates (evs : list Event) : nat :=
  length (List.filter is_create evs).

Definition llm_calls (evs : list Event) : nat :=
  length (List.filter is_llm evs).

(** The calls that only read: probes, sleeps, embeddings, searches. *)
Definition is_read (e : Event) : bool :=
  match e with
  | EvGetCollections | EvSleep _ | EvEncode _ | EvSearch _ _ => true
  | _ => false
  end.

(** [w'] is [w] after the calls [evs]: the trace grew by [evs], the chat
    model, the sources of ids and time and every collection but the memory
    collection are as they were. *)
Definition ran (w w' : World) (evs : list Event) : Prop :=
  trace w' = (trace w ++ evs)%list
  /\ llm w' = llm w /\ uuid_src w' = uuid_src w /\ clock_src w' = clock_src w
  /\ forall n, n <> COLLECTION_NAME -> collections w' !! n = collections w !! n.

(** [c in s], for one character. *)
Fixpoint has_char (c : ascii) (s : string) : bool :=
  match s with
  | EmptyString => false
  | String x r => Ascii.eqb x c || has_char c r
  end.

(** [s.split(c)], for a separator of one character. *)
Fixpoint split_on (c : ascii) (s : string) : list string :=
  match s with
  | EmptyString => [EmptyString]
  | String x r =>
      if Ascii.eqb x c then EmptyString :: split_on c r
      else match split_on c r with
           | h :: t => String x h :: t
           | [] => [String x EmptyString]
           end
  end.

Definition LF : ascii := ascii_of_nat 10.

Definition is_image_element (e : Element) : bool :=
  match e with ImageElement _ => true | OtherElement => false end.

(** A vision environment: one image file, no JPEG conversion, a model that
    answers with blanks around its text. *)
Definition demo_vision : VisionEnv :=
  mkVisionEnv
    (fun p => String.eqb p "cat.png")
    (fun p => if String.eqb p "cat.png" then Done "PNGDATA"
              else Fail (PyOSError "No such file or directory"))
    (fun _ => Fail (PyOSError "cannot identify image file"))
    (fun b => "b64:" ++ b)
    (fun _ _ => Done [Some "  a cat on a sofa "]).

(** Every request gets an HTTP answer, of whatever status. *)
Definition answers (net : Net) : Prop :=
  forall n req, exists res, net_http net n req = Done res.

(** A message post of the client. *)
Definition post_messages (net : Net) (body : json) : HttpRequest :=
  PostJson (base_url net ++ "/messages") (client_headers net) body.

Definition text_request (net : Net) (to : json) (content : string)
  : HttpRequest :=
  post_messages net
    (message_payload to "text" (JObj [("body", JStr content)])).

Definition media_request (net : Net) (to : json) (msg_type : string)
    (media_id : json) : HttpRequest :=
  post_messages net (message_payload to msg_type (JObj [("id", media_id)])).

Definition reaction_request (net : Net) (to message_id : json)
    (emoji : string) : HttpRequest :=
  post_messages net (reaction_payload to message_id emoji).

Definition read_request (net : Net) (message_id : json) : HttpRequest :=
  post_messages net (read_payload message_id).

(** The payload [data] carries [change_value] as the value of the first
    change of its first entry. *)
Definition carries (data change_value : json) : Prop :=
  exists dfields efields entries cfields changes,
    data = JObj dfields
    /\ assoc "entry" dfields = Some (JArr (JObj efields :: entries))
    /\ assoc "changes" efields = Some (JArr (JObj cfields :: changes))
    /\ assoc "value" cfields = Some change_value.

(** The payload announces a message with the fields [mfields], among them a
    sender, an id and a type, and is no status update. *)
Definition incoming (data : json) (mfields : list (string * json))
    (from_number message_id message_type : json) : Prop :=
  exists vfields more,
    carries data (JObj vfields)
    /\ assoc "statuses" vfields = None
    /\ assoc "messages" vfields = Some (JArr (JObj mfields :: more))
    /\ assoc "from" mfields = Some from_number
    /\ assoc "id" mfields = Some message_id
    /\ assoc "type" mfields = Some message_type.

(** A webhook payload as WhatsApp sends it. *)
Definition webhook_payload (change_value : json) : json :=
  JObj [("object", JStr "whatsapp_business_account");
        ("entry",
         JArr [JObj [("id", JStr "102290129340398");
                     ("changes",
                      JArr [JObj [("value", change_value);
                                  ("field", JStr "messages")]])]])].

(** A server that answers every request with the same status and body. *)
Definition demo_net (status : nat) (body : outcome json)
    (state : outcome OutputState) : Net :=
  mkNet (<["WHATSAPP_TOKEN" := "tok"]>
           (<["WHATSAPP_PHONE_NUMBER_ID" := "555"]> ∅))
        (fun _ _ => Done (mkHttpResponse status body "BYTES"))
        (fun _ => Done "hello there")
        demo_vision
        (fun _ _ => state)
        (fun _ => Done "PNG")
        (fun _ => "?")
        [] [].

Definition demo_text_message : list (string * json) :=
  [("from", JStr "4915100000000");
   ("id", JStr "wamid.1");
   ("type", JStr "text");
   ("text", JObj [("body", JStr "hi")])].

Definition demo_change (mfields : list (string * json)) : json :=
  JObj [("messaging_product", JStr "whatsapp");
        ("messages", JArr [JObj mfields])].

Definition success (res : HttpResponse) : Prop :=
  200 <= res_status res < 300.

Definition media_url (media_id : string) : string :=
  "https://graph.facebook.com/v21.0/" ++ media_id.

(** The Graph API serves the media [media_id]: its metadata name [url], and
    [url] gives [bytes]. *)
Definition serves (net : Net) (media_id url bytes : string) : Prop :=
  forall n,
    (exists meta,
       net_http net n (GetUrl (media_url media_id) (client_headers net))
       = Done meta
       /\ success meta
       /\ obind (res_json meta) (py_get "url") = Done (Some (JStr url)))
    /\ (exists media,
          net_http net n (GetUrl url (client_headers net)) = Done media
          /\ success media
          /\ res_content media = bytes).

(** WhatsApp takes every upload and files it under [media_id]. *)
Definition accepts_uploads (net : Net) (media_id : json) : Prop :=
  forall n content mime_type,
    exists res,
      net_http net n (upload_request net content mime_type) = Done res
      /\ success res
      /\ obind (res_json res) (py_item "id") = Done media_id.

(** WhatsApp refuses every upload with [status]. *)
Definition refuses_uploads (net : Net) (status : nat) : Prop :=
  forall n content mime_type,
    exists res,
      net_http net n (upload_request net content mime_type) = Done res
      /\ res_status res = status.

(** The caption of an image message: the string under [caption], or the
    empty string when there is none. *)
Definition caption_is (ifields : list (string * json)) (caption : string)
  : Prop :=
  (assoc "caption" ifields = None /\ caption = "")
  \/ assoc "caption" ifields = Some (JStr caption).

(** From [net] to [net'] the requests [reqs] went out and the graph ran on
    [runs]; the surroundings are otherwise the same. *)
Definition same_oracles (net net' : Net) : Prop :=
  net_environ net' = net_environ net
  /\ net_http net' = net_http net
  /\ net_transcribe net' = net_transcribe net
  /\ net_vision net' = net_vision net
  /\ net_graph net' = net_graph net
  /\ net_open net' = net_open net
  /\ net_format net' = net_format net.

Definition grew (net net' : Net) (reqs : list HttpRequest)
    (runs : list (json * json)) : Prop :=
  same_oracles net net'
  /\ wire net' = (wire net ++ reqs)%list
  /\ invoked net' = (invoked net ++ runs)%list.

Definition PROCESSED : Response := mkResponse (Some "Processed") 200.

Definition demo_image_message : list (string * json) :=
  [("from", JStr "4915100000000");
   ("id", JStr "wamid.2");
   ("type", JStr "image");
   ("image", JObj [("id", JStr "media-1");
                   ("mime_type", JStr "image/jpeg")])].

Definition demo_voice_message : list (string * json) :=
  [("from", JStr "4915100000000");
   ("id", JStr "wamid.3");
   ("type", JStr "audio");
   ("audio", JObj [("id", JStr "media-2")])].

Definition demo_sticker_message : list (string * json) :=
  [("from", JStr "4915100000000");
   ("id", JStr "wamid.4");
   ("type", JStr "sticker")].

Definition demo_state (workflow : option string) : OutputState :=
  mkOutputState workflow ["hi"; "hey, what's up"] (Some "MP3")
                (Some "generated/image.png").

(** The answer of the Graph API to an upload and to a metadata request. *)
Definition demo_media_json : json :=
  JObj [("id", JStr "media-9"); ("url", JStr "https://lookaside.example/m")].

(** * Properties *)

(** ** Running the monad *)

Lemma bind_Ok {A B} (m : M A) (k : A -> M B) w a w' :
  m w = (Ok a, w') -> bind m k w = k a w'.
Proof. intros H. unfold bind. now rewrite H. Qed.

Lemma bind_Raise {A B} (m : M A) (k : A -> M B) w e w' :
  m w = (Raise e, w') -> bind m k w = (Raise e, w').
Proof. intros H. unfold bind. now rewrite H. Qed.

Lemma try_except_Ok {A} (m : M A) h w a w' :
  m w = (Ok a, w') -> try_except m h w = (Ok a, w').
Proof. intros H. unfold try_except. now rewrite H. Qed.

Lemma try_except_Raise {A} (m : M A) h w e w' :
  m w = (Raise e, w') -> try_except m h w = h e w'.
Proof. intros H. unfold try_except. now rewrite H. Qed.

(** A [try] whose handler returns a value never lets an exception out. *)
Lemma try_except_ret_total {A} (m : M A) (a : A) w :
  exists x w', try_except m (fun _ => ret a) w = (Ok x, w').
Proof.
  unfold try_except, ret. destruct (m w) as [[x|e] w']; eauto.
Qed.

(** ** The memory manager on messages it does not analyse *)

Lemma _analyze_memory_total message w :
  exists a w', _analyze_memory message w = (Ok a, w').
Proof.
  cbv [_analyze_memory try_except bind llm_ainvoke emit ret].
  match goal with |- context [llm ?x ?y] => destruct (llm x y) as [e|a|] end;
    eauto.
Qed.

Lemma _analyze_memory_fail_open message w :
  (exists e, llm w (MEMORY_ANALYSIS_PROMPT_format message) = ReplyRaise e)
  \/ llm w (MEMORY_ANALYSIS_PROMPT_format message) = ReplyOther ->
  _analyze_memory message w
  = (Ok not_important,
     log_event (EvLlm (MEMORY_ANALYSIS_PROMPT_format message)) w).
Proof.
  intros H.
  cbv [_analyze_memory try_except bind llm_ainvoke emit ret].
  change (llm (log_event (EvLlm (MEMORY_ANALYSIS_PROMPT_format message)) w))
    with (llm w).
  destruct H as [[e ->] | ->]; reflexivity.
Qed.

(** No path through [extract_and_store_memories] ends in an exception. *)
Lemma extract_and_store_memories_total message w :
  exists w', extract_and_store_memories message w = (Ok tt, w').
Proof.
  unfold extract_and_store_memories, extract_and_store_memories_with.
  destruct (negb _); [unfold ret; eauto|].
  destruct (String.eqb _ _); [unfold ret; eauto|].
  destruct (_analyze_memory_total (content message) w) as (a & w1 & Ha).
  rewrite (bind_Ok _ _ _ _ _ Ha).
  destruct (_ && _); [|unfold ret; eauto].
  destruct (try_except_ret_total
              (find_similar_memory (default "" (formatted_memory a))) None w1)
    as (sim & w2 & Hs).
  rewrite (bind_Ok _ _ _ _ _ Hs).
  destruct sim as [m|]; [unfold ret; eauto|].
  match goal with |- context [try_except ?m _ w2] =>
    destruct (try_except_ret_total m tt w2) as ([] & w3 & H3)
  end.
  eauto.
Qed.

(** C3: a message that is not a human message, or a human message with empty
    content, makes [extract_and_store_memories] return at once: the result is
    a plain return and the world is the one it started from, so the classifier
    was not called and nothing was written to the index. *)
Theorem C3_skip_non_human_or_empty (message : BaseMessage) (w : World) :
  type message <> "human" \/ content message = "" ->
  extract_and_store_memories message w = (Ok tt, w).
Proof.
  intros H. unfold extract_and_store_memories, extract_and_store_memories_with.
  destruct (String.eqb_spec (type message) "human") as [Ht|Ht]; simpl.
  - destruct H as [H|H]; [contradiction|].
    rewrite H. reflexivity.
  - reflexivity.
Qed.

(** C4: when the classifier call raises, or hands back something that is not
    a [MemoryAnalysis], the analysis is [{is_important: false,
    formatted_memory: None}]; [extract_and_store_memories] then returns
    normally having done nothing but that one classifier call (no probe, no
    search, no write: the index is as it was).  And whatever the world does,
    [extract_and_store_memories] returns normally. *)
Theorem C4_analysis_failure_fails_open (message : BaseMessage) (w : World) :
  (exists e, llm w (MEMORY_ANALYSIS_PROMPT_format (content message))
             = ReplyRaise e)
  \/ llm w (MEMORY_ANALYSIS_PROMPT_format (content message)) = ReplyOther ->
  fst (_analyze_memory (content message) w) = Ok (mkAnalysis false None)
  /\ (exists w', extract_and_store_memories message w = (Ok tt, w')
              /\ collections w' = collections w
              /\ (trace w' = trace w
                  \/ trace w'
                     = (trace w
                        ++ [EvLlm (MEMORY_ANALYSIS_PROMPT_format
                                     (content message))])%list))
  /\ (forall message' w0, fst (extract_and_store_memories message' w0) = Ok tt).
Proof.
  intros H. split; [|split].
  - now rewrite (_analyze_memory_fail_open _ _ H).
  - unfold extract_and_store_memories, extract_and_store_memories_with.
    destruct (negb _); [exists w; unfold ret; auto|].
    destruct (String.eqb _ _); [exists w; unfold ret; auto|].
    rewrite (bind_Ok _ _ _ _ _ (_analyze_memory_fail_open _ _ H)).
    simpl. eexists. split; [reflexivity|]. simpl. auto.
  - intros message' w0.
    destruct (extract_and_store_memories_total message' w0) as (w' & ->).
    reflexivity.
Qed.


(** ** The collection probe *)

Lemma has_collection_iff w :
  has_collection w = true <-> is_Some (collections w !! COLLECTION_NAME).
Proof.
  unfold has_collection. rewrite existsb_exists. split.
  - intros (x & Hin & Heq). apply String.eqb_eq in Heq. subst x.
    apply list_elem_of_In, list_elem_of_fmap in Hin.
    destruct Hin as ([k v] & Hk & Hin). simpl in Hk. subst k.
    apply elem_of_map_to_list in Hin. eauto.
  - intros [ps Hps]. exists COLLECTION_NAME. split.
    + apply list_elem_of_In, list_elem_of_fmap.
      exists (COLLECTION_NAME, ps). split; [reflexivity|].
      now apply elem_of_map_to_list.
    + apply String.eqb_refl.
Qed.

Lemma _collection_exists_attempt_run attempt w :
  _collection_exists_attempt attempt w
  = match faults w with
    | [] => (Ok (Some (has_collection w)), log_event EvGetCollections w)
    | None :: fs =>
        (Ok (Some (has_collection w)),
         set_faults fs (log_event EvGetCollections w))
    | Some e :: fs =>
        if is_ResponseHandlingException e
        then (Ok None,
              log_event (EvSleep (attempt * 2))
                        (set_faults fs (log_event EvGetCollections w)))
        else (Ok (Some false), set_faults fs (log_event EvGetCollections w))
    end.
Proof.
  cbv [_collection_exists_attempt try_except bind client_get_collections
       emit next_fault ret time_sleep].
  change (faults (log_event EvGetCollections w)) with (faults w).
  destruct (faults w) as [|[e|] fs]; try reflexivity.
  destruct (is_ResponseHandlingException e); reflexivity.
Qed.


Ltac probe_attempt :=
  cbn [_collection_exists_loop]; unfold bind at 1;
  rewrite _collection_exists_attempt_run;
  cbn [faults log_event set_faults collections llm uuid_src clock_src tick
       trace].

Ltac probe_done :=
  cbn [ret];
  eexists _, _, _; split; [reflexivity|];
  split;
    [ unfold only_logged;
      cbn [faults log_event set_faults collections llm uuid_src clock_src
           tick trace];
      repeat split; rewrite <- ?app_assoc; reflexivity
    | cbn; repeat split;
      try lia; try (eexists; reflexivity); try discriminate;
      try (intros Hb; apply has_collection_iff in Hb; exact Hb) ].

(** The probe in full: it always answers, asks the server between one and
    three times, sleeps [2], [4], [6] seconds after the failed attempts, and
    says [true] only of a collection that is there. *)
Lemma _collection_exists_spec w :
  exists b w' evs,
    _collection_exists w = (Ok b, w')
    /\ only_logged w w' evs
    /\ 1 <= probes evs <= 3
    /\ writes evs = 0
    /\ sleeps evs `prefix_of` [2; 4; 6]
    /\ (length (sleeps evs) = 3 -> b = false)
    /\ (b = true -> is_Some (collections w !! COLLECTION_NAME)).
Proof.
  destruct w as [cs fs l u c t tr].
  unfold _collection_exists, max_retries. cbn [seq].
  probe_attempt.
  destruct fs as [|[e1|] fs]; [probe_done| |probe_done].
  destruct (is_ResponseHandlingException e1); [|probe_done].
  probe_attempt.
  destruct fs as [|[e2|] fs]; [probe_done| |probe_done].
  destruct (is_ResponseHandlingException e2); [|probe_done].
  probe_attempt.
  destruct fs as [|[e3|] fs]; [probe_done| |probe_done].
  destruct (is_ResponseHandlingException e3); probe_done.
Qed.


(** The probe retries after [2] and then [4] seconds, once fewer than it
    asks the server. *)
Lemma _collection_exists_retries w :
  exists b w' evs,
    _collection_exists w = (Ok b, w')
    /\ trace w' = (trace w ++ evs)%list
    /\ retry_delays evs `prefix_of` [2; 4]
    /\ S (length (retry_delays evs)) = probes evs.
Proof.
  destruct w as [cs fs l u c t tr].
  unfold _collection_exists, max_retries. cbn [seq].
  assert (Hdone : forall (b : bool) (w' : World) (evs : list Event),
             trace w' = (tr ++ evs)%list ->
             retry_delays evs `prefix_of` [2; 4] ->
             S (length (retry_delays evs)) = probes evs ->
             exists b0 w0 evs0,
               (Ok b, w') = (Ok b0, w0)
               /\ trace w0 = (tr ++ evs0)%list
               /\ retry_delays evs0 `prefix_of` [2; 4]
               /\ S (length (retry_delays evs0)) = probes evs0)
    by (intros b w' evs; eauto 8).
  assert (H1 : retry_delays [EvGetCollections] `prefix_of` [2; 4])
    by (now exists [2; 4]).
  assert (H2 : retry_delays [EvGetCollections; EvSleep 2; EvGetCollections]
               `prefix_of` [2; 4])
    by (now exists [4]).
  probe_attempt.
  destruct fs as [|[e1|] fs];
    [now apply (Hdone _ _ [EvGetCollections])|
    |now apply (Hdone _ _ [EvGetCollections])].
  destruct (is_ResponseHandlingException e1);
    [|now apply (Hdone _ _ [EvGetCollections])].
  probe_attempt.
  destruct fs as [|[e2|] fs];
    [apply (Hdone _ _ [EvGetCollections; EvSleep 2; EvGetCollections]);
       [cbn [trace log_event set_faults Nat.mul Nat.add];
        rewrite <- ?app_assoc; reflexivity|exact H2|reflexivity]
    |
    |apply (Hdone _ _ [EvGetCollections; EvSleep 2; EvGetCollections]);
       [cbn [trace log_event set_faults Nat.mul Nat.add];
        rewrite <- ?app_assoc; reflexivity|exact H2|reflexivity]].
  destruct (is_ResponseHandlingException e2);
    [|apply (Hdone _ _ [EvGetCollections; EvSleep 2; EvGetCollections]);
       [cbn [trace log_event set_faults Nat.mul Nat.add];
        rewrite <- ?app_assoc; reflexivity|exact H2|reflexivity]].
  probe_attempt.
  assert (H3 : forall last,
             last = [] \/ (exists n, last = [EvSleep n]) ->
             retry_delays ([EvGetCollections; EvSleep 2; EvGetCollections;
                            EvSleep 4; EvGetCollections] ++ last)
             `prefix_of` [2; 4]
             /\ S (length (retry_delays
                             ([EvGetCollections; EvSleep 2; EvGetCollections;
                               EvSleep 4; EvGetCollections] ++ last)))
                = probes ([EvGetCollections; EvSleep 2; EvGetCollections;
                           EvSleep 4; EvGetCollections] ++ last))
    by (intros last [->|[n ->]]; (split; [now exists []|reflexivity])).
  destruct fs as [|[e3|] fs].
  - destruct (H3 [] (or_introl eq_refl)) as [Ha Hb].
    eapply Hdone; [|exact Ha|exact Hb].
    cbn [trace log_event set_faults Nat.mul Nat.add].
    rewrite <- ?app_assoc. reflexivity.
  - destruct (is_ResponseHandlingException e3).
    + destruct (H3 [EvSleep 6] (or_intror (ex_intro _ 6 eq_refl))) as [Ha Hb].
      cbn [_collection_exists_loop ret].
      eapply Hdone; [|exact Ha|exact Hb].
      cbn [trace log_event set_faults Nat.mul Nat.add].
    rewrite <- ?app_assoc. reflexivity.
    + destruct (H3 [] (or_introl eq_refl)) as [Ha Hb].
      eapply Hdone; [|exact Ha|exact Hb].
      cbn [trace log_event set_faults Nat.mul Nat.add].
    rewrite <- ?app_assoc. reflexivity.
  - destruct (H3 [] (or_introl eq_refl)) as [Ha Hb].
    eapply Hdone; [|exact Ha|exact Hb].
    cbn [trace log_event set_faults Nat.mul Nat.add].
    rewrite <- ?app_assoc. reflexivity.
Qed.


(** ** Runs in which every call gets through *)

Lemma has_collection_Some w ps :
  points w = Some ps -> has_collection w = true.
Proof. intros H. apply has_collection_iff. unfold points in H. eauto. Qed.

Lemma has_collection_None w :
  points w = None -> has_collection w = false.
Proof.
  intros H. destruct (has_collection w) eqn:E; [|reflexivity].
  apply has_collection_iff in E. unfold points in H.
  rewrite H in E. now destruct E.
Qed.

Lemma next_fault_ok w : faults w = [] -> next_fault w = (Ok tt, w).
Proof. intros H. unfold next_fault. now rewrite H. Qed.

Lemma _collection_exists_ok w :
  faults w = [] ->
  _collection_exists w = (Ok (has_collection w), log_event EvGetCollections w).
Proof.
  intros H. unfold _collection_exists, max_retries.
  cbn [seq _collection_exists_loop]. unfold bind.
  rewrite _collection_exists_attempt_run, H. reflexivity.
Qed.

Lemma model_encode_ok txt w :
  faults w = [] ->
  model_encode txt w = (Ok (encode txt), log_event (EvEncode txt) w).
Proof.
  intros H. cbv [model_encode bind emit ret].
  now rewrite (next_fault_ok (log_event (EvEncode txt) w) H).
Qed.

Lemma client_search_ok qvec k w ps :
  faults w = [] -> points w = Some ps ->
  client_search COLLECTION_NAME qvec k w
  = (Ok (search_points ps qvec k), log_event (EvSearch COLLECTION_NAME k) w).
Proof.
  intros H Hps. cbv [client_search bind emit].
  rewrite (next_fault_ok (log_event (EvSearch COLLECTION_NAME k) w) H).
  change (collections (log_event (EvSearch COLLECTION_NAME k) w)
            !! COLLECTION_NAME) with (points w).
  now rewrite Hps.
Qed.

Lemma client_upsert_ok point_id p w ps :
  faults w = [] -> points w = Some ps ->
  client_upsert COLLECTION_NAME point_id p w
  = (Ok tt, put_point point_id p (log_event (EvUpsert COLLECTION_NAME point_id) w)).
Proof.
  intros H Hps. cbv [client_upsert bind emit].
  rewrite (next_fault_ok (log_event (EvUpsert COLLECTION_NAME point_id) w) H).
  unfold put_point.
  change (points (log_event (EvUpsert COLLECTION_NAME point_id) w))
    with (points w).
  change (collections (log_event (EvUpsert COLLECTION_NAME point_id) w)
            !! COLLECTION_NAME) with (points w).
  now rewrite Hps.
Qed.

Lemma search_memories_ok query k w ps :
  faults w = [] -> points w = Some ps ->
  search_memories query k w
  = (hits_to_memories (search_points ps (encode query) k),
     log_events [EvGetCollections; EvEncode query; EvSearch COLLECTION_NAME k]
                w).
Proof.
  intros H Hps. unfold search_memories.
  rewrite (bind_Ok _ _ _ _ _ (_collection_exists_ok w H)).
  rewrite (has_collection_Some w ps Hps). cbn [negb].
  erewrite bind_Ok.
  2:{ apply try_except_Ok.
      erewrite bind_Ok; [|apply model_encode_ok; exact H].
      erewrite bind_Ok; [|apply client_search_ok; [exact H|exact Hps]].
      reflexivity. }
  reflexivity.
Qed.

Lemma find_similar_memory_ok txt w ps :
  faults w = [] -> points w = Some ps ->
  find_similar_memory txt w
  = (similar_of ps (encode txt),
     log_events [EvGetCollections; EvEncode txt; EvSearch COLLECTION_NAME 1]
                w).
Proof.
  intros H Hps. unfold find_similar_memory, similar_of, bind.
  rewrite (search_memories_ok txt 1 w ps H Hps).
  destruct (hits_to_memories _) as [[|r rs]|e]; try reflexivity.
  destruct (score r) as [sc|]; try reflexivity.
  destruct (Qle_bool _ _); reflexivity.
Qed.


Lemma points_put_point point_id p w :
  points (put_point point_id p w)
  = Some (<[point_id := p]> (default ∅ (points w))).
Proof.
  unfold points, put_point. cbn [collections set_collections].
  apply lookup_insert_eq.
Qed.

Lemma store_memory_ok txt md w ps sm :
  faults w = [] -> points w = Some ps ->
  similar_of ps (encode txt) = Ok sm ->
  store_memory txt md w
  = (Ok (adopt_id sm md),
     put_point (point_id_of txt (adopt_id sm md))
               (point_of txt (adopt_id sm md))
               (log_events
                  [EvGetCollections; EvGetCollections; EvEncode txt;
                   EvSearch COLLECTION_NAME 1; EvEncode txt;
                   EvUpsert COLLECTION_NAME
                            (point_id_of txt (adopt_id sm md))] w)).
Proof.
  intros H Hps Hsm. unfold store_memory.
  rewrite (bind_Ok _ _ _ _ _ (_collection_exists_ok w H)).
  rewrite (has_collection_Some w ps Hps). cbn [negb].
  unfold ret at 1. unfold bind at 1. cbn [negb].
  unfold bind at 1.
  rewrite (find_similar_memory_ok _ _ ps); [|exact H|exact Hps].
  rewrite Hsm.
  erewrite bind_Ok; [|apply model_encode_ok; exact H].
  erewrite bind_Ok.
  2:{ apply try_except_Ok. apply (client_upsert_ok _ _ _ ps); [exact H|exact Hps]. }
  reflexivity.
Qed.

(** ** The ranking of the index *)

Lemma insert_hit_perm h l : insert_hit h l ≡ₚ h :: l.
Proof.
  induction l as [|x r IH]; cbn [insert_hit]; [reflexivity|].
  destruct (Qle_bool _ _); [reflexivity|].
  rewrite IH. apply Permutation_swap.
Qed.

Lemma rank_hits_perm l : rank_hits l ≡ₚ l.
Proof.
  induction l as [|x r IH]; [reflexivity|].
  unfold rank_hits in *. cbn [foldr].
  rewrite insert_hit_perm. now rewrite IH.
Qed.

Lemma insert_hit_sorted h l :
  StronglySorted outranks l -> StronglySorted outranks (insert_hit h l).
Proof.
  induction l as [|x r IH]; intros Hs; cbn [insert_hit].
  - repeat constructor.
  - apply StronglySorted_inv in Hs as [Hr Hx].
    destruct (Qle_bool (hit_score x) (hit_score h)) eqn:E.
    + apply Qle_bool_iff in E.
      constructor; [now constructor|].
      constructor; [exact E|].
      eapply Forall_impl; [exact Hx|].
      intros y Hy. unfold outranks in *. eapply Qle_trans; eassumption.
    + constructor; [now apply IH|].
      rewrite insert_hit_perm. constructor; [|exact Hx].
      unfold outranks. apply Qlt_le_weak, Qnot_le_lt.
      intros Hle. apply Qle_bool_iff in Hle. congruence.
Qed.

Lemma rank_hits_sorted l : StronglySorted outranks (rank_hits l).
Proof.
  induction l as [|x r IH]; [constructor|].
  unfold rank_hits in *. cbn [foldr]. now apply insert_hit_sorted.
Qed.

Lemma StronglySorted_take {A} (R : relation A) k l :
  StronglySorted R l -> StronglySorted R (take k l).
Proof.
  intros H. rewrite <- (take_drop k l) in H.
  now apply StronglySorted_app_1_l in H.
Qed.

Lemma search_points_sorted ps qvec k :
  StronglySorted outranks (search_points ps qvec k).
Proof. apply StronglySorted_take, rank_hits_sorted. Qed.

Lemma search_points_length ps qvec k :
  length (search_points ps qvec k) <= k.
Proof. unfold search_points. rewrite length_take. lia. Qed.

(** Every hit is a point of the collection, scored against the query. *)
Lemma search_points_elem ps qvec k h :
  h ∈ search_points ps qvec k ->
  exists p, ps !! hit_id h = Some p
            /\ hit_payload h = Some (default ∅ (pt_payload p))
            /\ hit_score h = cosine qvec (pt_vector p).
Proof.
  unfold search_points. intros Hin.
  apply (subseteq_take k) in Hin.
  rewrite rank_hits_perm in Hin.
  apply list_elem_of_fmap in Hin as ([i p] & -> & Hin).
  apply elem_of_map_to_list in Hin. exists p. auto.
Qed.

(** A hit always carries a payload: the client hands a point without
    payload back with an empty one. *)
Lemma search_points_payload ps qvec k h :
  h ∈ search_points ps qvec k -> is_Some (hit_payload h).
Proof.
  intros Hin. apply search_points_elem in Hin as (p & _ & -> & _). eauto.
Qed.


(** ** What the dedup search finds *)

Lemma search_points_one ps qvec :
  search_points ps qvec 1 = []
  \/ exists h, search_points ps qvec 1 = [h].
Proof.
  pose proof (search_points_length ps qvec 1) as Hl.
  destruct (search_points ps qvec 1) as [|h [|h' r]]; eauto.
  cbn in Hl. lia.
Qed.

Lemma similar_of_empty ps qvec :
  search_points ps qvec 1 = [] -> similar_of ps qvec = Ok None.
Proof. intros H. unfold similar_of. now rewrite H. Qed.

Lemma similar_of_hit ps qvec h pl :
  search_points ps qvec 1 = [h] -> hit_payload h = Some pl ->
  similar_of ps qvec
  = Ok (if Qle_bool SIMILARITY_THRESHOLD (hit_score h)
        then Some (memory_of h pl) else None).
Proof.
  intros H Hpl. unfold similar_of. rewrite H.
  cbn [hits_to_memories]. unfold hit_to_memory. rewrite Hpl.
  cbn [score]. now destruct (Qle_bool _ _).
Qed.

Lemma similar_of_no_payload ps qvec h :
  search_points ps qvec 1 = [h] -> hit_payload h = None ->
  similar_of ps qvec = Raise AttributeError.
Proof.
  intros H Hpl. unfold similar_of. rewrite H.
  cbn [hits_to_memories]. unfold hit_to_memory. now rewrite Hpl.
Qed.

(** The dedup search itself never raises. *)
Lemma similar_of_never_raises ps qvec : exists sm, similar_of ps qvec = Ok sm.
Proof.
  destruct (search_points_one ps qvec) as [H|[h H]].
  - rewrite (similar_of_empty _ _ H). eauto.
  - assert (Hin : h ∈ search_points ps qvec 1) by (rewrite H; constructor).
    apply search_points_payload in Hin as [pl Hpl].
    rewrite (similar_of_hit _ _ h pl H Hpl). eauto.
Qed.

Lemma similar_of_total ps qvec :
  payloads_present ps -> exists sm, similar_of ps qvec = Ok sm.
Proof. intros _. apply similar_of_never_raises. Qed.

Lemma similar_of_inv ps qvec m :
  similar_of ps qvec = Ok (Some m) ->
  exists h pl,
    search_points ps qvec 1 = [h] /\ hit_payload h = Some pl
    /\ m = memory_of h pl
    /\ Qle_bool SIMILARITY_THRESHOLD (hit_score h) = true.
Proof.
  intros H. destruct (search_points_one ps qvec) as [E|[h E]].
  - rewrite (similar_of_empty _ _ E) in H. discriminate.
  - destruct (hit_payload h) as [pl|] eqn:Hpl.
    + rewrite (similar_of_hit _ _ h pl E Hpl) in H.
      destruct (Qle_bool _ _) eqn:Hq; [|discriminate].
      exists h, pl. repeat split; congruence.
    + rewrite (similar_of_no_payload _ _ h E Hpl) in H. discriminate.
Qed.

Lemma Memory_id_memory_of h pl : Memory_id (memory_of h pl) = pl !! "id".
Proof.
  unfold Memory_id, memory_of. cbn [metadata].
  now rewrite lookup_delete_ne.
Qed.

(** In a well-formed store the id a near-duplicate carries is the id of a
    stored point. *)
Lemma similar_of_id_stored ps qvec m i :
  wf_store ps -> similar_of ps qvec = Ok (Some m) -> Memory_id m = Some i ->
  is_Some (ps !! i).
Proof.
  intros Hwf H Hi.
  apply similar_of_inv in H as (h & pl & E & Hpl & -> & _).
  rewrite Memory_id_memory_of in Hi.
  assert (Hin : h ∈ search_points ps qvec 1) by (rewrite E; constructor).
  apply search_points_elem in Hin as (p & Hk & Hpl' & _).
  rewrite Hpl in Hpl'. injection Hpl' as ->.
  destruct (pt_payload p) as [pl|] eqn:Hp; cbn [from_option id] in Hi;
    [|now rewrite lookup_empty in Hi].
  rewrite (Hwf _ _ _ _ Hk Hp Hi). eauto.
Qed.

Lemma truthy_Some o : truthy o = true -> exists s, o = Some s /\ s <> "".
Proof.
  destruct o as [s|]; [|discriminate]. cbn. intros H.
  exists s. split; [reflexivity|]. intros ->. discriminate.
Qed.

Lemma adopt_id_lookup sm md :
  adopt_id sm md !! "id" = md !! "id"
  \/ exists m i, sm = Some m /\ Memory_id m = Some i /\ i <> ""
                 /\ adopt_id sm md !! "id" = Some i.
Proof.
  unfold adopt_id. destruct sm as [m|]; [|now left].
  destruct (truthy (Memory_id m)) eqn:E; [|now left].
  apply truthy_Some in E as (i & Hi & Hne). right.
  exists m, i. rewrite Hi. cbn [default].
  repeat split; try assumption. apply lookup_insert_eq.
Qed.

Lemma point_id_of_id txt md i :
  md !! "id" = Some i -> point_id_of txt md = i.
Proof. intros H. unfold point_id_of. now rewrite H. Qed.


(** ** The memory manager when every call gets through *)

Lemma _analyze_memory_ok message w a :
  llm w (MEMORY_ANALYSIS_PROMPT_format message) = ReplyAnalysis a ->
  _analyze_memory message w
  = (Ok a, log_event (EvLlm (MEMORY_ANALYSIS_PROMPT_format message)) w).
Proof.
  intros H.
  cbv [_analyze_memory try_except bind llm_ainvoke emit ret].
  change (llm (log_event (EvLlm (MEMORY_ANALYSIS_PROMPT_format message)) w))
    with (llm w).
  now rewrite H.
Qed.


Lemma extract_and_store_memories_important message fact w :
  type message = "human" -> content message <> "" -> fact <> "" ->
  llm w (MEMORY_ANALYSIS_PROMPT_format (content message))
  = ReplyAnalysis (mkAnalysis true (Some fact)) ->
  extract_and_store_memories message w
  = (similar <- try_except (find_similar_memory fact) (fun _ => ret None) ;;
     match similar with
     | Some _ => ret tt
     | None =>
         try_except
           (memory_id <- uuid4 ;;
            timestamp <- datetime_now ;;
            store_memory fact (new_metadata memory_id timestamp) ;;;
            ret tt)
           (fun _ => ret tt)
     end)
      (log_event (EvLlm (MEMORY_ANALYSIS_PROMPT_format (content message))) w).
Proof.
  intros Ht Hc Hf Hl. unfold extract_and_store_memories, extract_and_store_memories_with.
  rewrite Ht. cbn [String.eqb Ascii.eqb Bool.eqb negb].
  destruct (String.eqb_spec (content message) "") as [E|_]; [contradiction|].
  rewrite (bind_Ok _ _ _ _ _ (_analyze_memory_ok _ _ _ Hl)).
  cbn [is_important formatted_memory truthy andb default].
  destruct (String.eqb_spec fact "") as [E|_]; [contradiction|].
  reflexivity.
Qed.

Lemma extract_and_store_memories_skip message fact w ps m :
  type message = "human" -> content message <> "" -> fact <> "" ->
  llm w (MEMORY_ANALYSIS_PROMPT_format (content message))
  = ReplyAnalysis (mkAnalysis true (Some fact)) ->
  faults w = [] -> points w = Some ps ->
  similar_of ps (encode fact) = Ok (Some m) ->
  extract_and_store_memories message w
  = (Ok tt,
     log_events [EvLlm (MEMORY_ANALYSIS_PROMPT_format (content message));
                 EvGetCollections; EvEncode fact;
                 EvSearch COLLECTION_NAME 1] w).
Proof.
  intros Ht Hc Hf Hl H Hps Hsm.
  rewrite (extract_and_store_memories_important _ fact _ Ht Hc Hf Hl).
  unfold bind, try_except.
  rewrite (find_similar_memory_ok _ _ ps); [|exact H|exact Hps].
  rewrite Hsm. reflexivity.
Qed.

Lemma extract_and_store_memories_new message fact w ps :
  type message = "human" -> content message <> "" -> fact <> "" ->
  llm w (MEMORY_ANALYSIS_PROMPT_format (content message))
  = ReplyAnalysis (mkAnalysis true (Some fact)) ->
  faults w = [] -> points w = Some ps ->
  similar_of ps (encode fact) = Ok None ->
  let memory_id := uuid_src w (tick w) in
  let md := new_metadata memory_id (clock_src w (S (tick w))) in
  exists w',
    extract_and_store_memories message w = (Ok tt, w')
    /\ points w' = Some (<[memory_id := point_of fact md]> ps)
    /\ trace w'
       = (trace w
          ++ [EvLlm (MEMORY_ANALYSIS_PROMPT_format (content message));
              EvGetCollections; EvEncode fact; EvSearch COLLECTION_NAME 1;
              EvUuid; EvNow;
              EvGetCollections; EvGetCollections; EvEncode fact;
              EvSearch COLLECTION_NAME 1; EvEncode fact;
              EvUpsert COLLECTION_NAME memory_id])%list
    /\ tick w' = S (S (tick w)) /\ uuid_src w' = uuid_src w.
Proof.
  intros Ht Hc Hf Hl H Hps Hsm memory_id md.
  rewrite (extract_and_store_memories_important _ fact _ Ht Hc Hf Hl).
  unfold bind at 1. unfold try_except at 1.
  rewrite (find_similar_memory_ok _ _ ps); [|exact H|exact Hps].
  rewrite Hsm.
  unfold try_except, bind, uuid4, datetime_now.
  rewrite (store_memory_ok _ _ _ ps None); [|exact H|exact Hps|exact Hsm].
  cbn [adopt_id].
  assert (Hid : point_id_of fact md = memory_id).
  { apply point_id_of_id. apply lookup_insert_eq. }
  eexists. split; [reflexivity|]. split; [|split].
  - rewrite points_put_point.
    cbn [log_events foldl tick uuid_src clock_src log_event bump_tick].
    fold memory_id. fold md. rewrite Hid.
    change (points _) with (points w). now rewrite Hps.
  - cbn [log_events foldl tick uuid_src clock_src log_event bump_tick trace
         put_point set_collections].
    fold memory_id. fold md. rewrite Hid.
    rewrite <- !app_assoc. reflexivity.
  - split; reflexivity.
Qed.

(** ** Near-duplicates *)

Lemma payload_of_id txt md : payload_of txt md !! "id" = md !! "id".
Proof.
  unfold payload_of. destruct (md !! "id") as [i|] eqn:E.
  - now apply lookup_union_Some_l.
  - apply lookup_union_None. split; [exact E|].
    now apply lookup_singleton_ne.
Qed.

Lemma payload_of_text txt md :
  md !! "text" = None -> payload_of txt md !! "text" = Some txt.
Proof.
  intros H. unfold payload_of. rewrite lookup_union_r by exact H.
  apply lookup_singleton_eq.
Qed.

Lemma adopt_id_similar m md i :
  Memory_id m = Some i -> i <> "" ->
  adopt_id (Some m) md = <["id" := i]> md.
Proof.
  intros Hi Hne. unfold adopt_id. rewrite Hi. cbn [truthy default].
  destruct (String.eqb_spec i "") as [E|_]; [contradiction|]. reflexivity.
Qed.

(** C1, as the code has it.  Let the record of [F1], as [store_memory] wrote
    it under [id1], be the nearest neighbour of [F2] in the index, every call
    getting through, and let [F2] be the fact the analysis of a human message
    gives.  If their similarity is at least 0.9,
    [extract_and_store_memories] skips [F2]: it writes nothing, the
    collection is as it was and [F1]'s record keeps its id and its payload,
    so no second record appears; it is [store_memory], called directly, that
    reuses [id1] and overwrites that record with the text of [F2], the
    collection keeping its size, provided the payload of [F1]'s record
    carries [id1] as its id, not empty (and the metadata bring no [text] of
    their own).  If the similarity is below 0.9,
    [extract_and_store_memories] stores [F2] under the id [uuid4] produces;
    provided that id is not in use it differs from [id1], the collection
    grows by one and [F1]'s record is untouched. *)
Theorem C1_near_duplicate_policy
    (w : World) (ps : gmap string Point) (F1 F2 id1 : string)
    (md1 md2 : Dict) (message : BaseMessage) :
  faults w = [] ->
  points w = Some ps ->
  ps !! id1 = Some (point_of F1 md1) ->
  search_points ps (encode F2) 1
  = [to_hit (encode F2) (id1, point_of F1 md1)] ->
  type message = "human" -> content message <> "" -> F2 <> "" ->
  llm w (MEMORY_ANALYSIS_PROMPT_format (content message))
  = ReplyAnalysis (mkAnalysis true (Some F2)) ->
  ((SIMILARITY_THRESHOLD <= cosine (encode F2) (encode F1))%Q ->
   (exists w',
      extract_and_store_memories message w = (Ok tt, w')
      /\ points w' = Some ps
      /\ upserts (trace w') = upserts (trace w))
   /\ (md1 !! "id" = Some id1 -> id1 <> "" ->
       exists w',
         store_memory F2 md2 w = (Ok (<["id" := id1]> md2), w')
         /\ points w'
            = Some (<[id1 := point_of F2 (<["id" := id1]> md2)]> ps)
         /\ (md2 !! "text" = None -> stored_text w' id1 = Some F2)
         /\ size (<[id1 := point_of F2 (<["id" := id1]> md2)]> ps)
            = size ps))
  /\ ((cosine (encode F2) (encode F1) < SIMILARITY_THRESHOLD)%Q ->
      let memory_id := uuid_src w (tick w) in
      let md := new_metadata memory_id (clock_src w (S (tick w))) in
      exists w',
        extract_and_store_memories message w = (Ok tt, w')
        /\ points w' = Some (<[memory_id := point_of F2 md]> ps)
        /\ (ps !! memory_id = None ->
            memory_id <> id1
            /\ size (<[memory_id := point_of F2 md]> ps) = S (size ps)
            /\ <[memory_id := point_of F2 md]> ps !! id1
               = Some (point_of F1 md1))).
Proof.
  intros H Hps H1 Htop Ht Hc Hf Hl.
  pose proof (similar_of_hit ps (encode F2) _ (payload_of F1 md1) Htop eq_refl)
    as Hsim.
  cbn [to_hit hit_score fst snd point_of pt_vector] in Hsim.
  set (m := memory_of (to_hit (encode F2) (id1, point_of F1 md1))
                      (payload_of F1 md1)) in *.
  split.
  - intros Hge. apply Qle_bool_iff in Hge. rewrite Hge in Hsim. split.
    + eexists. split; [|split].
      * exact (extract_and_store_memories_skip _ F2 _ ps m
                 Ht Hc Hf Hl H Hps Hsim).
      * exact Hps.
      * cbn [log_events foldl log_event trace]. unfold upserts.
        rewrite <- !app_assoc, List.filter_app. cbn.
        now rewrite app_nil_r.
    + intros Hid1 Hne1.
      assert (Hm : Memory_id m = Some id1).
      { unfold m. now rewrite Memory_id_memory_of, payload_of_id. }
      eexists. split; [|split; [|split]].
      * rewrite (store_memory_ok _ _ _ ps (Some m) H Hps Hsim).
        rewrite (adopt_id_similar m md2 id1 Hm Hne1). reflexivity.
      * rewrite points_put_point.
        rewrite (point_id_of_id F2 _ id1) by apply lookup_insert_eq.
        change (points _) with (points w). now rewrite Hps.
      * intros Htxt. unfold stored_text. rewrite points_put_point.
        rewrite (point_id_of_id F2 _ id1) by apply lookup_insert_eq.
        cbn [mbind option_bind]. rewrite lookup_insert_eq.
        cbn [mbind option_bind point_of pt_payload].
        apply payload_of_text. now rewrite lookup_insert_ne.
      * apply map_size_insert_Some. rewrite H1. eauto.
  - intros Hlt memory_id md.
    assert (Hq : Qle_bool SIMILARITY_THRESHOLD
                          (cosine (encode F2) (encode F1)) = false).
    { destruct (Qle_bool _ _) eqn:E; [|reflexivity].
      apply Qle_bool_iff in E. now apply Qlt_not_le in Hlt. }
    rewrite Hq in Hsim.
    destruct (extract_and_store_memories_new _ F2 _ ps
                Ht Hc Hf Hl H Hps Hsim) as (w' & Hrun & Hpts & _).
    exists w'. split; [exact Hrun|]. split; [exact Hpts|].
    intros Hfresh. split; [|split].
    + intros E. fold memory_id in Hfresh. rewrite E, H1 in Hfresh.
      discriminate.
    + now apply map_size_insert_None.
    + rewrite lookup_insert_ne; [exact H1|].
      intros E. fold memory_id in Hfresh. rewrite E, H1 in Hfresh.
      discriminate.
Qed.


(** ** Points and their payloads *)

Lemma payloads_present_put txt md i ps :
  payloads_present ps -> payloads_present (<[i := point_of txt md]> ps).
Proof.
  intros Hp k p Hk. destruct (decide (i = k)) as [<-|Hne].
  - rewrite lookup_insert_eq in Hk. injection Hk as <-. cbn. eauto.
  - rewrite lookup_insert_ne in Hk by exact Hne. eapply Hp; eassumption.
Qed.

(** ** The first write: no collection yet *)

Lemma client_create_collection_ok dim w :
  faults w = [] -> points w = None ->
  client_create_collection COLLECTION_NAME dim w
  = (Ok tt,
     set_collections (<[COLLECTION_NAME := ∅]> (collections w))
                     (log_event (EvCreateCollection COLLECTION_NAME dim) w)).
Proof.
  intros H Hps. cbv [client_create_collection bind emit].
  rewrite (next_fault_ok
             (log_event (EvCreateCollection COLLECTION_NAME dim) w) H).
  change (collections (log_event (EvCreateCollection COLLECTION_NAME dim) w)
            !! COLLECTION_NAME) with (points w).
  now rewrite Hps.
Qed.

Lemma search_points_empty qvec k : search_points ∅ qvec k = [].
Proof.
  unfold search_points. rewrite map_to_list_empty. now destruct k.
Qed.

Lemma find_similar_memory_missing txt w :
  faults w = [] -> points w = None ->
  find_similar_memory txt w = (Ok None, log_event EvGetCollections w).
Proof.
  intros H Hps. unfold find_similar_memory, search_memories, bind.
  rewrite (_collection_exists_ok w H), (has_collection_None w Hps).
  reflexivity.
Qed.

(** [store_memory] on a server without the collection creates it, sized by
    a sample embedding, and writes the point as its first. *)
Lemma store_memory_first txt md w :
  faults w = [] -> points w = None ->
  exists w',
    store_memory txt md w = (Ok md, w')
    /\ points w' = Some {[point_id_of txt md := point_of txt md]}
    /\ trace w'
       = (trace w
          ++ [EvGetCollections; EvEncode "sample text";
              EvCreateCollection COLLECTION_NAME
                                 (length (encode "sample text"));
              EvGetCollections; EvEncode txt; EvSearch COLLECTION_NAME 1;
              EvEncode txt;
              EvUpsert COLLECTION_NAME (point_id_of txt md)])%list
    /\ tick w' = tick w /\ uuid_src w' = uuid_src w.
Proof.
  intros H Hps. unfold store_memory.
  rewrite (bind_Ok _ _ _ _ _ (_collection_exists_ok w H)).
  rewrite (has_collection_None w Hps). cbn [negb].
  erewrite bind_Ok.
  2:{ apply try_except_Ok. unfold _create_collection.
      erewrite bind_Ok.
      2:{ apply try_except_Ok.
          erewrite bind_Ok; [|apply model_encode_ok; exact H].
          apply client_create_collection_ok; [exact H|exact Hps]. }
      reflexivity. }
  cbn [negb].
  match goal with |- exists w', _ ?x = _ /\ _ =>
    set (w2 := x);
    assert (H2 : faults w2 = []) by exact H;
    assert (Hps2 : points w2 = Some ∅)
      by (unfold w2, points; cbn [collections set_collections];
          apply lookup_insert_eq)
  end.
  unfold bind at 1.
  rewrite (find_similar_memory_ok _ _ ∅ H2 Hps2).
  unfold similar_of. rewrite search_points_empty.
  cbn [hits_to_memories adopt_id].
  erewrite bind_Ok; [|apply model_encode_ok; exact H2].
  erewrite bind_Ok.
  2:{ apply try_except_Ok.
      apply (client_upsert_ok _ _ _ ∅); [exact H2|exact Hps2]. }
  eexists. split; [reflexivity|]. split; [|split].
  - rewrite points_put_point. change (points _) with (points w2).
    rewrite Hps2. cbn [from_option id]. now rewrite insert_empty.
  - unfold w2.
    cbn [put_point set_collections trace log_events foldl log_event].
    rewrite <- !app_assoc. reflexivity.
  - split; reflexivity.
Qed.

(** The first write leaves no fault behind. *)
Lemma store_memory_first_quiet txt md w :
  faults w = [] -> points w = None ->
  exists w',
    store_memory txt md w = (Ok md, w')
    /\ points w' = Some {[point_id_of txt md := point_of txt md]}
    /\ faults w' = [].
Proof.
  intros H Hps. unfold store_memory.
  rewrite (bind_Ok _ _ _ _ _ (_collection_exists_ok w H)).
  rewrite (has_collection_None w Hps). cbn [negb].
  erewrite bind_Ok.
  2:{ apply try_except_Ok. unfold _create_collection.
      erewrite bind_Ok.
      2:{ apply try_except_Ok.
          erewrite bind_Ok; [|apply model_encode_ok; exact H].
          apply client_create_collection_ok; [exact H|exact Hps]. }
      reflexivity. }
  cbn [negb].
  match goal with |- exists w', _ ?x = _ /\ _ =>
    set (w2 := x);
    assert (H2 : faults w2 = []) by exact H;
    assert (Hps2 : points w2 = Some ∅)
      by (unfold w2, points; cbn [collections set_collections];
          apply lookup_insert_eq)
  end.
  unfold bind at 1.
  rewrite (find_similar_memory_ok _ _ ∅ H2 Hps2).
  unfold similar_of. rewrite search_points_empty.
  cbn [hits_to_memories adopt_id].
  erewrite bind_Ok; [|apply model_encode_ok; exact H2].
  erewrite bind_Ok.
  2:{ apply try_except_Ok.
      apply (client_upsert_ok _ _ _ ∅); [exact H2|exact Hps2]. }
  eexists. split; [reflexivity|]. split.
  - rewrite points_put_point. change (points _) with (points w2).
    rewrite Hps2. cbn [from_option id]. now rewrite insert_empty.
  - exact H2.
Qed.


(** ** Writing the same text twice *)

(** One write when every call gets through, with or without a collection
    on the server: the point lands under the id the dedup search leaves in
    the metadata. *)
Lemma store_memory_quiet txt md w :
  faults w = [] ->
  exists sm w',
    similar_of (pts w) (encode txt) = Ok sm
    /\ store_memory txt md w = (Ok (adopt_id sm md), w')
    /\ faults w' = []
    /\ pts w' = <[point_id_of txt (adopt_id sm md)
                    := point_of txt (adopt_id sm md)]> (pts w).
Proof.
  intros H. unfold pts. destruct (points w) as [ps|] eqn:Hps.
  - destruct (similar_of_never_raises ps (encode txt)) as [sm Hsm].
    exists sm. eexists. split; [exact Hsm|].
    rewrite (store_memory_ok _ _ _ ps sm H Hps Hsm).
    split; [reflexivity|]. split; [exact H|].
    rewrite points_put_point. change (points (log_events _ w)) with (points w).
    now rewrite Hps.
  - destruct (store_memory_first_quiet txt md w H Hps) as (w' & Hrun & Hp & Hf).
    exists None, w'. split.
    { unfold similar_of. cbn [from_option id]. now rewrite search_points_empty. }
    split; [exact Hrun|]. split; [exact Hf|].
    rewrite Hp. cbn [from_option id adopt_id]. now rewrite insert_empty.
Qed.

(** The best hit of a search scores at least as high as every point. *)
Lemma search_points_top ps qvec k p :
  ps !! k = Some p ->
  exists h, search_points ps qvec 1 = [h]
            /\ (cosine qvec (pt_vector p) <= hit_score h)%Q.
Proof.
  intros Hk. unfold search_points.
  pose proof (rank_hits_sorted (to_hit qvec <$> map_to_list ps)) as Hs.
  assert (Hin : to_hit qvec (k, p)
                ∈ rank_hits (to_hit qvec <$> map_to_list ps)).
  { rewrite rank_hits_perm. apply list_elem_of_fmap.
    exists (k, p). split; [reflexivity|]. now apply elem_of_map_to_list. }
  destruct (rank_hits (to_hit qvec <$> map_to_list ps)) as [|h r].
  - now apply elem_of_nil in Hin.
  - exists h. split; [reflexivity|].
    apply StronglySorted_inv in Hs as [_ Hall].
    apply elem_of_cons in Hin as [<-|Hin]; [apply Qle_refl|].
    rewrite Forall_forall in Hall. exact (Hall _ Hin).
Qed.

(** A point that is similar enough to the query makes the dedup search find
    a near-duplicate, the best hit, which is a stored point. *)
Lemma similar_of_top ps qvec k p :
  ps !! k = Some p ->
  (SIMILARITY_THRESHOLD <= cosine qvec (pt_vector p))%Q ->
  exists h p',
    ps !! hit_id h = Some p'
    /\ similar_of ps qvec
       = Ok (Some (memory_of h (default ∅ (pt_payload p')))).
Proof.
  intros Hk Hge.
  destruct (search_points_top ps qvec k p Hk) as (h & Htop & Hle).
  assert (Hin : h ∈ search_points ps qvec 1) by (rewrite Htop; constructor).
  apply search_points_elem in Hin as (p' & Hk' & Hpl & _).
  exists h, p'. split; [exact Hk'|].
  rewrite (similar_of_hit _ _ h _ Htop Hpl).
  assert (Hq : Qle_bool SIMILARITY_THRESHOLD (hit_score h) = true).
  { apply Qle_bool_iff. eapply Qle_trans; eassumption. }
  now rewrite Hq.
Qed.

(** A near-duplicate found among points that carry their ids has the id of
    a stored point. *)
Lemma similar_of_id ps qvec m :
  ids_present ps -> similar_of ps qvec = Ok (Some m) ->
  exists i, Memory_id m = Some i /\ i <> "" /\ is_Some (ps !! i).
Proof.
  intros Hi H.
  apply similar_of_inv in H as (h & pl & E & Hpl & -> & _).
  assert (Hin : h ∈ search_points ps qvec 1) by (rewrite E; constructor).
  apply search_points_elem in Hin as (p & Hk & Hpl' & _).
  destruct (Hi _ _ Hk) as (pl' & Hp & Hid & Hne).
  rewrite Hp in Hpl'. cbn [from_option id] in Hpl'.
  rewrite Hpl in Hpl'. injection Hpl' as ->.
  exists (hit_id h). rewrite Memory_id_memory_of. eauto.
Qed.

Lemma adopt_id_empty h pl md :
  pl !! "id" = Some "" -> adopt_id (Some (memory_of h pl)) md = md.
Proof.
  intros E. unfold adopt_id. rewrite Memory_id_memory_of, E. reflexivity.
Qed.

(** C8, as the code has it.  Every call getting through, the points of the
    index carrying their ids, and the embedding of the text scoring at least
    the threshold against itself, as a cosine similarity does: [store_memory]
    called with a text and metadata naming the id [X] writes under the id
    [pid] the call resolves to and leaves in the metadata, which is [X]
    itself when the dedup search finds nothing and the id of the
    near-duplicate found, the id of a stored point, otherwise.  Writing the
    same text once more, with metadata naming [X] again or with the
    dictionary the first call left, replaces a stored point rather than
    adding one: the collection keeps its size and its ids, and [pid] holds
    one record, of the text and with that id. *)
Theorem C8_repeated_write_replaces
    (w : World) (txt X : string) (md : Dict) :
  faults w = [] -> ids_present (pts w) ->
  md !! "id" = Some X ->
  (SIMILARITY_THRESHOLD <= cosine (encode txt) (encode txt))%Q ->
  exists pid md1 w1,
    store_memory txt md w = (Ok md1, w1)
    /\ md1 !! "id" = Some pid
    /\ (exists sm, similar_of (pts w) (encode txt) = Ok sm
          /\ match sm with
             | None => pid = X /\ md1 = md
             | Some m => Memory_id m = Some pid /\ is_Some (pts w !! pid)
             end)
    /\ pts w1 = <[pid := point_of txt md1]> (pts w)
    /\ forall md2,
         md2 !! "id" = Some X \/ md2 !! "id" = Some pid ->
         exists md2' w2,
           store_memory txt md2 w1 = (Ok md2', w2)
           /\ size (pts w2) = size (pts w1)
           /\ dom (pts w2) = dom (pts w1)
           /\ exists md', pts w2 !! pid = Some (point_of txt md')
                          /\ md' !! "id" = Some pid.
Proof.
  clear MEMORY_ANALYSIS_PROMPT_format MEMORY_TOP_K.
  intros H Hi Hid Hself.
  destruct (store_memory_quiet txt md w H) as (sm & w1 & Hsm & Hrun & H1 & Hps1).
  set (md1 := adopt_id sm md) in Hrun, Hps1 |- *.
  set (pid := point_id_of txt md1) in Hps1 |- *.
  assert (Hres : md1 !! "id" = Some pid
                 /\ match sm with
                    | None => pid = X /\ md1 = md
                    | Some m => Memory_id m = Some pid
                                /\ is_Some (pts w !! pid) /\ pid <> ""
                    end).
  { destruct sm as [m|].
    - destruct (similar_of_id _ _ _ Hi Hsm) as (i & Hm & Hne & Hin).
      subst pid md1. rewrite (adopt_id_similar m md i Hm Hne).
      rewrite (point_id_of_id txt _ i) by apply lookup_insert_eq.
      rewrite lookup_insert_eq. auto.
    - subst pid md1. cbn [adopt_id].
      rewrite (point_id_of_id txt md X Hid). auto. }
  destruct Hres as [Hmd1 Hcase].
  exists pid, md1, w1.
  split; [exact Hrun|]. split; [exact Hmd1|]. split.
  { exists sm. split; [exact Hsm|]. destruct sm; tauto. }
  split; [exact Hps1|].
  intros md2 Hid2.
  destruct (store_memory_quiet txt md2 w1 H1)
    as (sm2 & w2 & Hsm2 & Hrun2 & _ & Hps2).
  rewrite Hps1 in Hsm2, Hps2.
  set (ps1 := <[pid := point_of txt md1]> (pts w)) in Hsm2, Hps2 |- *.
  destruct (similar_of_top ps1 (encode txt) pid (point_of txt md1))
    as (h & p' & Hh & Htop); [apply lookup_insert_eq|exact Hself|].
  rewrite Htop in Hsm2. injection Hsm2 as <-.
  set (md2' := adopt_id (Some (memory_of h (default ∅ (pt_payload p')))) md2)
    in Hrun2, Hps2 |- *.
  assert (Hkey : md2' !! "id" = Some (point_id_of txt md2')
                 /\ is_Some (ps1 !! point_id_of txt md2')).
  { destruct (decide (hit_id h = pid)) as [E|Hne].
    - rewrite E in Hh. unfold ps1 in Hh. rewrite lookup_insert_eq in Hh.
      injection Hh as <-. subst md2'.
      cbn [pt_payload point_of from_option id].
      assert (Hp : payload_of txt md1 !! "id" = Some pid)
        by now rewrite payload_of_id.
      assert (Hto : exists md', adopt_id (Some (memory_of h (payload_of txt md1))) md2 = md'
                       /\ md' !! "id" = Some pid).
      { destruct (decide (pid = "")) as [Hemp|Hnemp].
        - rewrite adopt_id_empty by (now rewrite Hp, Hemp).
          exists md2. split; [reflexivity|].
          destruct Hid2 as [Hid2|Hid2]; [|exact Hid2].
          rewrite Hid2. f_equal.
          destruct sm as [m|]; [now destruct Hcase as (_ & _ & ?)|].
          symmetry. apply Hcase.
        - rewrite (adopt_id_similar _ md2 pid)
            by (rewrite ?Memory_id_memory_of; assumption).
          eexists. split; [reflexivity|apply lookup_insert_eq]. }
      destruct Hto as (md' & -> & Hmd').
      rewrite (point_id_of_id txt md' pid Hmd').
      split; [exact Hmd'|]. unfold ps1. rewrite lookup_insert_eq. eauto.
    - unfold ps1 in Hh. rewrite lookup_insert_ne in Hh by congruence.
      destruct (Hi _ _ Hh) as (pl & Hpl & Hk & Hnk).
      subst md2'. rewrite Hpl. cbn [from_option id].
      rewrite (adopt_id_similar _ md2 (hit_id h))
        by (rewrite ?Memory_id_memory_of; assumption).
      rewrite (point_id_of_id txt _ (hit_id h)) by apply lookup_insert_eq.
      split; [apply lookup_insert_eq|].
      unfold ps1. rewrite lookup_insert_ne by congruence. eauto. }
  destruct Hkey as [Hkey Hin].
  exists md2', w2. rewrite Hps2, Hps1. fold ps1.
  split; [exact Hrun2|].
  split; [now apply map_size_insert_Some|].
  split; [now apply dom_insert_lookup_L|].
  destruct (decide (point_id_of txt md2' = pid)) as [E|Hne].
  - exists md2'. rewrite E in Hkey |- *. split; [apply lookup_insert_eq|exact Hkey].
  - exists md1. rewrite lookup_insert_ne by exact Hne.
    split; [apply lookup_insert_eq|exact Hmd1].
Qed.

Lemma extract_and_store_memories_first message fact w :
  type message = "human" -> content message <> "" -> fact <> "" ->
  llm w (MEMORY_ANALYSIS_PROMPT_format (content message))
  = ReplyAnalysis (mkAnalysis true (Some fact)) ->
  faults w = [] -> points w = None ->
  let memory_id := uuid_src w (tick w) in
  let md := new_metadata memory_id (clock_src w (S (tick w))) in
  exists w',
    extract_and_store_memories message w = (Ok tt, w')
    /\ points w' = Some {[memory_id := point_of fact md]}
    /\ trace w'
       = (trace w
          ++ [EvLlm (MEMORY_ANALYSIS_PROMPT_format (content message));
              EvGetCollections; EvUuid; EvNow;
              EvGetCollections; EvEncode "sample text";
              EvCreateCollection COLLECTION_NAME
                                 (length (encode "sample text"));
              EvGetCollections; EvEncode fact; EvSearch COLLECTION_NAME 1;
              EvEncode fact; EvUpsert COLLECTION_NAME memory_id])%list
    /\ tick w' = S (S (tick w)) /\ uuid_src w' = uuid_src w.
Proof.
  intros Ht Hc Hf Hl H Hps memory_id md.
  assert (Hid : point_id_of fact md = memory_id).
  { apply point_id_of_id. apply lookup_insert_eq. }
  rewrite (extract_and_store_memories_important _ fact _ Ht Hc Hf Hl).
  unfold bind at 1. unfold try_except at 1.
  rewrite find_similar_memory_missing; [|exact H|exact Hps].
  unfold try_except, bind at 1, uuid4. unfold bind at 1, datetime_now.
  cbn [tick bump_tick log_event uuid_src clock_src].
  fold memory_id. fold md.
  match goal with |- context [bind (store_memory fact md) _ ?x] =>
    destruct (store_memory_first fact md x H Hps)
      as (w' & Hrun & Hpts & Htr & Htick & Hsrc)
  end.
  exists w'. unfold bind at 1. rewrite Hrun. split; [reflexivity|].
  rewrite Hid in Hpts, Htr. split; [exact Hpts|]. split.
  - rewrite Htr. cbn [trace bump_tick log_event].
    rewrite <- !app_assoc. reflexivity.
  - split; [exact Htick|exact Hsrc].
Qed.

(** ** Which id a new record gets *)

(** C9: with every call getting through and no near-duplicate of the fact in
    the index (the dedup search finds nothing, or there is no collection
    yet), the memory manager stores the fact under the id that its [uuid4]
    call produces in this very call, and the generator moves on.  That id is
    unique as far as [uuid4] is: when the generator never repeats itself and
    the ids it is still to produce are not in use, the record is a new one,
    the collection grows by one and every other record is kept under its own,
    different id, and the same holds of the generator afterwards, so that
    the ids of all the records stored this way differ.  [store_memory], given
    metadata without an [id] key and finding no near-duplicate, writes the
    point under [str(abs(hash(text)))]. *)
Theorem C9_id_of_a_new_record
    (w : World) (message : BaseMessage) (fact txt : string) (md : Dict) :
  faults w = [] ->
  (type message = "human" -> content message <> "" -> fact <> "" ->
   llm w (MEMORY_ANALYSIS_PROMPT_format (content message))
   = ReplyAnalysis (mkAnalysis true (Some fact)) ->
   no_near_duplicate w fact ->
   exists memory_id timestamp w',
     memory_id = uuid_src w (tick w)
     /\ fst (uuid4 w) = Ok memory_id
     /\ extract_and_store_memories message w = (Ok tt, w')
     /\ points w'
        = Some (<[memory_id := point_of fact (new_metadata memory_id timestamp)]>
                  (default ∅ (points w)))
     /\ new_metadata memory_id timestamp !! "id" = Some memory_id
     /\ In EvUuid (trace w')
     /\ In (EvUpsert COLLECTION_NAME memory_id) (trace w')
     /\ tick w' = S (S (tick w)) /\ uuid_src w' = uuid_src w
     /\ (uuid_unused w ->
         pts w !! memory_id = None
         /\ size (pts w') = S (size (pts w))
         /\ forall k p, pts w !! k = Some p ->
                        k <> memory_id /\ pts w' !! k = Some p)
     /\ (uuid_unique w -> uuid_unused w -> uuid_unique w' /\ uuid_unused w'))
  /\ (md !! "id" = None -> no_near_duplicate w txt ->
      exists w',
        store_memory txt md w = (Ok md, w')
        /\ points w'
           = Some (<[pretty (Z.abs (hash txt)) := point_of txt md]>
                     (default ∅ (points w)))
        /\ In (EvUpsert COLLECTION_NAME (pretty (Z.abs (hash txt))))
              (trace w')).
Proof.
  intros H. split.
  - intros Ht Hc Hf Hl Hsm.
    exists (uuid_src w (tick w)), (clock_src w (S (tick w))).
    assert (Hrun : exists w',
               extract_and_store_memories message w = (Ok tt, w')
               /\ points w'
                  = Some (<[uuid_src w (tick w)
                            := point_of fact
                                 (new_metadata (uuid_src w (tick w))
                                    (clock_src w (S (tick w))))]>
                            (default ∅ (points w)))
               /\ In EvUuid (trace w')
               /\ In (EvUpsert COLLECTION_NAME (uuid_src w (tick w)))
                     (trace w')
               /\ tick w' = S (S (tick w)) /\ uuid_src w' = uuid_src w).
    { destruct (points w) as [ps|] eqn:Hps.
      - destruct (extract_and_store_memories_new _ fact _ ps
                    Ht Hc Hf Hl H Hps (Hsm ps Hps))
          as (w' & Hrun & Hpts & Htr & Htick & Hsrc).
        exists w'. split; [exact Hrun|]. split; [exact Hpts|].
        rewrite Htr.
        split; [apply in_or_app; right; cbn; tauto|].
        split; [apply in_or_app; right; cbn; tauto|].
        split; [exact Htick|exact Hsrc].
      - destruct (extract_and_store_memories_first _ fact _
                    Ht Hc Hf Hl H Hps)
          as (w' & Hrun & Hpts & Htr & Htick & Hsrc).
        exists w'. split; [exact Hrun|].
        split; [rewrite Hpts; cbn [from_option id]; now rewrite insert_empty|].
        rewrite Htr.
        split; [apply in_or_app; right; cbn; tauto|].
        split; [apply in_or_app; right; cbn; tauto|].
        split; [exact Htick|exact Hsrc]. }
    destruct Hrun as (w' & Hrun & Hpts & Hev1 & Hev2 & Htick & Hsrc).
    exists w'. split; [reflexivity|]. split; [reflexivity|].
    split; [exact Hrun|]. split; [exact Hpts|].
    split; [apply lookup_insert_eq|]. split; [exact Hev1|].
    split; [exact Hev2|]. split; [exact Htick|]. split; [exact Hsrc|].
    assert (Hfree : uuid_unused w -> pts w !! uuid_src w (tick w) = None).
    { intros Hun. unfold pts. destruct (points w) as [ps|] eqn:Hps;
        cbn [from_option id]; [|apply lookup_empty].
      apply (Hun ps (tick w) Hps). lia. }
    assert (Hpts' : pts w'
                    = <[uuid_src w (tick w)
                        := point_of fact
                             (new_metadata (uuid_src w (tick w))
                                (clock_src w (S (tick w))))]> (pts w)).
    { unfold pts at 1. rewrite Hpts. reflexivity. }
    split.
    + intros Hun. specialize (Hfree Hun). split; [exact Hfree|].
      rewrite Hpts'. split; [now apply map_size_insert_None|].
      intros k p Hk.
      assert (Hne : k <> uuid_src w (tick w)) by congruence.
      split; [exact Hne|]. rewrite lookup_insert_ne by congruence. exact Hk.
    + intros Huq Hun. split.
      * intros m n. rewrite Hsrc. apply Huq.
      * intros ps' n Hps' Hn. rewrite Hpts in Hps'. injection Hps' as <-.
        rewrite Hsrc, Htick in *.
        rewrite lookup_insert_ne.
        -- destruct (points w) as [ps|] eqn:Hps; cbn [from_option id];
             [|apply lookup_empty].
           apply (Hun ps n Hps). lia.
        -- intros E. apply Huq in E. lia.
  - intros Hid Hsm.
    assert (Hp : point_id_of txt md = pretty (Z.abs (hash txt))).
    { unfold point_id_of. now rewrite Hid. }
    destruct (points w) as [ps|] eqn:Hps.
    + eexists.
      rewrite (store_memory_ok _ _ _ ps None H Hps (Hsm ps Hps)).
      cbn [adopt_id]. rewrite Hp.
      split; [reflexivity|]. split.
      * rewrite points_put_point. change (points _) with (points w).
        now rewrite Hps.
      * cbn [put_point set_collections trace log_events foldl log_event].
        rewrite <- !app_assoc. apply in_or_app. right. cbn. tauto.
    + destruct (store_memory_first txt md w H Hps)
        as (w' & Hrun & Hpts & Htr & _).
      rewrite Hp in Hpts, Htr.
      exists w'. split; [exact Hrun|]. split.
      * rewrite Hpts. cbn [from_option id]. now rewrite insert_empty.
      * rewrite Htr. apply in_or_app. right. cbn. tauto.
Qed.

(** ** When the dedup check itself raises *)



(** ** Retrieval *)

Lemma hits_to_memories_present hits :
  Forall (fun h => is_Some (hit_payload h)) hits ->
  exists ms, hits_to_memories hits = Ok ms
             /\ text <$> ms = hit_text <$> hits
             /\ score <$> ms = (fun h => Some (hit_score h)) <$> hits.
Proof.
  induction 1 as [|h hits [pl Hpl] _ (ms & Hms & Ht & Hs)].
  - exists []. auto.
  - exists (memory_of h pl :: ms). cbn [hits_to_memories].
    unfold hit_to_memory. rewrite Hpl, Hms.
    split; [reflexivity|]. rewrite !fmap_cons, Ht, Hs.
    unfold hit_text. rewrite Hpl. auto.
Qed.

Lemma get_relevant_memories_of_search context w r w' :
  search_memories context MEMORY_TOP_K w = (r, w') ->
  get_relevant_memories context w
  = (Ok (match r with Ok ms => text <$> ms | Raise _ => [] end), w').
Proof.
  intros H. unfold get_relevant_memories, bind, try_except. rewrite H.
  destruct r; reflexivity.
Qed.

Lemma search_memories_not_found query k w w1 :
  _collection_exists w = (Ok false, w1) ->
  search_memories query k w = (Ok [], w1).
Proof. intros H. unfold search_memories, bind. now rewrite H. Qed.

(** C5: [get_relevant_memories] never raises.  It answers the empty list
    whenever [search_memories] raises, when the collection is missing, when
    the server cannot be reached, and when embedding the context or the
    search itself fails.  When every call gets through and the points carry
    payloads, it answers the [text] of the hits of the top-k search, in the
    order of the index: at most [MEMORY_TOP_K] hits, each a stored point, by
    descending score. *)
Theorem C5_get_relevant_memories (context : string) (w : World) :
  (exists l w', get_relevant_memories context w = (Ok l, w'))
  /\ (forall e w', search_memories context MEMORY_TOP_K w = (Raise e, w') ->
                  get_relevant_memories context w = (Ok [], w'))
  /\ (points w = None -> fst (get_relevant_memories context w) = Ok [])
  /\ (forall fs, faults w = rhe :: rhe :: rhe :: fs ->
                fst (get_relevant_memories context w) = Ok [])
  /\ (forall e fs, faults w = None :: Some e :: fs
                  \/ faults w = None :: None :: Some e :: fs ->
                  fst (get_relevant_memories context w) = Ok [])
  /\ (forall ps, faults w = [] -> points w = Some ps -> payloads_present ps ->
       let hits := search_points ps (encode context) MEMORY_TOP_K in
       fst (get_relevant_memories context w) = Ok (hit_text <$> hits)
       /\ StronglySorted outranks hits
       /\ length hits <= MEMORY_TOP_K
       /\ Forall (fun h => exists p, ps !! hit_id h = Some p
                                    /\ hit_payload h = pt_payload p
                                    /\ hit_score h
                                       = cosine (encode context) (pt_vector p))
                 hits).
Proof.
  split; [|split; [|split; [|split; [|split]]]].
  - destruct (search_memories context MEMORY_TOP_K w) as [r w'] eqn:E.
    rewrite (get_relevant_memories_of_search _ _ _ _ E). eauto.
  - intros e w' E. now rewrite (get_relevant_memories_of_search _ _ _ _ E).
  - intros Hnone.
    destruct (_collection_exists_spec w) as (b & w1 & evs & E & _ & _ & _ & _ & _ & Hb).
    destruct b.
    + destruct (Hb eq_refl) as [ps Hps]. unfold points in Hnone. congruence.
    + rewrite (get_relevant_memories_of_search _ _ _ _
                 (search_memories_not_found _ _ _ _ E)). reflexivity.
  - intros fs Hfs.
    assert (E : exists w1, _collection_exists w = (Ok false, w1)).
    { unfold _collection_exists, max_retries. cbn [seq].
      destruct w as [cs f l u c t tr]. cbn [faults] in Hfs. subst f.
      unfold rhe.
      do 3 (probe_attempt; cbn [is_ResponseHandlingException]).
      cbn [_collection_exists_loop ret]. eauto. }
    destruct E as [w1 E].
    rewrite (get_relevant_memories_of_search _ _ _ _
               (search_memories_not_found _ _ _ _ E)). reflexivity.
  - intros e fs Hfs.
    destruct w as [cs f l u c t tr]. cbn [faults] in Hfs.
    destruct Hfs as [-> | ->];
      cbv [get_relevant_memories search_memories _collection_exists
           max_retries seq _collection_exists_loop _collection_exists_attempt
           try_except bind client_get_collections emit next_fault ret
           time_sleep model_encode client_search faults log_event set_faults
           collections llm uuid_src clock_src tick trace negb fst];
      match goal with |- context [existsb ?f ?l] => destruct (existsb f l) end;
      try reflexivity.
  - intros ps H Hps Hpp hits.
    assert (Hel : Forall (fun h => exists p, ps !! hit_id h = Some p
                     /\ hit_payload h = pt_payload p
                     /\ hit_score h = cosine (encode context) (pt_vector p))
                   hits).
    { apply Forall_forall. intros h Hin.
      apply search_points_elem in Hin as (p & Hk & Hpl & Hs).
      exists p. split; [exact Hk|]. split; [|exact Hs].
      rewrite Hpl. destruct (Hpp _ _ Hk) as [pl ->]. reflexivity. }
    assert (Hpres : Forall (fun h => is_Some (hit_payload h)) hits).
    { eapply Forall_impl; [exact Hel|]. intros h (p & Hk & -> & _).
      eapply Hpp; eassumption. }
    destruct (hits_to_memories_present hits Hpres) as (ms & Hms & Ht & _).
    rewrite (get_relevant_memories_of_search _ _ _ _
               (search_memories_ok context MEMORY_TOP_K w ps H Hps)).
    fold hits. rewrite Hms. cbn [fst]. rewrite Ht.
    split; [reflexivity|]. split; [apply search_points_sorted|].
    split; [apply search_points_length|exact Hel].
Qed.


(** ** Bounded retries, and giving up on a write *)

Lemma prefix_linear_backoff delays :
  delays `prefix_of` [2; 4; 6] -> linear_backoff 2 delays.
Proof.
  intros [k Hk] i d Hi.
  assert (H : [2; 4; 6] !! i = Some d).
  { rewrite Hk. now apply lookup_app_l_Some. }
  destruct i as [|[|[|i]]]; cbn in H; try discriminate;
    injection H as <-; reflexivity.
Qed.

Lemma prefix_exponential_backoff delays :
  delays `prefix_of` [2; 4] -> exponential_backoff 2 delays.
Proof.
  intros [k Hk] i d Hi.
  assert (H : [2; 4] !! i = Some d).
  { rewrite Hk. now apply lookup_app_l_Some. }
  destruct i as [|[|i]]; cbn in H; try discriminate;
    injection H as <-; reflexivity.
Qed.

(** A failed [_create_collection] leaves the index as it was. *)
Lemma _create_collection_raises w e w' :
  _create_collection w = (Raise e, w') ->
  collections w' = collections w
  /\ exists evs, trace w' = (trace w ++ evs)%list /\ upserts evs = 0.
Proof.
  destruct w as [cs f l u c t tr].
  cbv [_create_collection try_except bind model_encode
       client_create_collection emit next_fault ret raise faults log_event
       set_faults set_collections collections llm uuid_src clock_src tick
       trace].
  destruct f as [|[e1|] [|[e2|] f]];
    repeat match goal with
           | |- context [cs !! ?n] => destruct (cs !! n)
           end;
    intros E; inversion E; subst; clear E;
    (split; [reflexivity|]);
    rewrite <- ?app_assoc; eexists; (split; [reflexivity|]); reflexivity.
Qed.

(** C6, as the code has it.  The probe always answers and never raises: it
    asks the server at least once and at most three times, and the delays
    before its retries, one fewer than its attempts, double from 2 seconds
    on (2, then 4).  Every failed attempt is followed by a sleep of
    [2 * attempt] seconds, so a third failure is followed by a sleep of 6
    seconds, after which nothing is retried.  The probe reports [true] only
    of a collection that exists, and three unreachable attempts in a row
    make it report [false].  When the probe reports [false] and creating the
    collection then fails, [store_memory] returns normally without an upsert
    and leaves the index as it was. *)
Theorem C6_probe_retries_and_skip (w : World) :
  (exists b w' evs,
     _collection_exists w = (Ok b, w')
     /\ only_logged w w' evs
     /\ 1 <= probes evs <= 3
     /\ exponential_backoff 2 (retry_delays evs)
     /\ S (length (retry_delays evs)) = probes evs
     /\ linear_backoff 2 (sleeps evs)
     /\ length (sleeps evs) <= 3
     /\ (b = true -> is_Some (points w)))
  /\ (forall fs, faults w = rhe :: rhe :: rhe :: fs ->
       exists w',
         _collection_exists w = (Ok false, w')
         /\ trace w'
            = (trace w ++ [EvGetCollections; EvSleep 2; EvGetCollections;
                           EvSleep 4; EvGetCollections; EvSleep 6])%list)
  /\ (forall txt md w1 e w2,
       _collection_exists w = (Ok false, w1) ->
       _create_collection w1 = (Raise e, w2) ->
       store_memory txt md w = (Ok md, w2)
       /\ collections w2 = collections w
       /\ exists evs, trace w2 = (trace w ++ evs)%list /\ upserts evs = 0).
Proof.
  split; [|split].
  - destruct (_collection_exists_spec w)
      as (b & w' & evs & E & Hlog & Hp & _ & Hpre & _ & Hb).
    destruct (_collection_exists_retries w)
      as (b' & w'' & evs' & E' & Htr' & Hre & Hn).
    rewrite E in E'. injection E' as <- <-.
    assert (Hev : evs' = evs).
    { destruct Hlog as (_ & _ & _ & _ & _ & Htr). rewrite Htr in Htr'.
      symmetry. now apply app_inv_head in Htr'. }
    subst evs'.
    exists b, w', evs. split; [exact E|]. split; [exact Hlog|].
    split; [exact Hp|]. split; [now apply prefix_exponential_backoff|].
    split; [exact Hn|]. split; [now apply prefix_linear_backoff|].
    split; [|exact Hb].
    apply prefix_length in Hpre. exact Hpre.
  - intros fs Hfs. destruct w as [cs f l u c t tr].
    cbn [faults] in Hfs. subst f.
    unfold _collection_exists, max_retries, rhe. cbn [seq].
    do 3 (probe_attempt; cbn [is_ResponseHandlingException]).
    cbn [_collection_exists_loop ret]. eexists. split; [reflexivity|].
    cbn [trace log_event set_faults]. rewrite <- !app_assoc. reflexivity.
  - intros txt md w1 e w2 Hprobe Hcreate.
    split; [|split].
    + unfold store_memory.
      rewrite (bind_Ok _ _ _ _ _ Hprobe). cbn [negb].
      erewrite bind_Ok.
      2:{ erewrite try_except_Raise; [reflexivity|].
          apply bind_Raise. exact Hcreate. }
      reflexivity.
    + destruct (_collection_exists_spec w)
        as (b & w' & evs & E & (Hcs & _) & _).
      rewrite Hprobe in E. injection E as _ <-.
      destruct (_create_collection_raises _ _ _ Hcreate) as (Hcs2 & _).
      congruence.
    + destruct (_collection_exists_spec w)
        as (b & w' & evs & E & (_ & _ & _ & _ & _ & Htr) & _ & Hw & _).
      rewrite Hprobe in E. injection E as _ <-.
      destruct (_create_collection_raises _ _ _ Hcreate)
        as (_ & evs2 & Htr2 & Hu2).
      exists (evs ++ evs2)%list. split.
      * rewrite Htr2, Htr. now rewrite app_assoc.
      * unfold upserts in *. rewrite List.filter_app, length_app, Hu2.
        clear - Hw. unfold writes in Hw.
        induction evs as [|ev evs IH]; [reflexivity|].
        destruct ev; cbn in *; try discriminate; auto.
Qed.


(** ** Image generation when a collaborator fails *)

Lemma enhance_prompt_total env prompt :
  exists enhanced,
    enhance_prompt env prompt = Ok enhanced
    /\ ((exists e, enhance_chain env prompt = Raise e) ->
        enhanced = enhance_fallback prompt).
Proof.
  unfold enhance_prompt, rtry.
  destruct (enhance_chain env prompt) as [c|e].
  - exists c. split; [reflexivity|]. intros [e He]. discriminate.
  - eauto.
Qed.

Lemma create_scenario_total env chat_history :
  exists sc,
    create_scenario env chat_history = Ok sc
    /\ (chat_history = None
        \/ (exists h e, chat_history = Some h
                       /\ scenario_chain env (format_history h) = Raise e) ->
        sc = fallback_scenario).
Proof.
  unfold create_scenario, rtry. destruct chat_history as [h|].
  - destruct (scenario_chain env (format_history h)) as [sc|e] eqn:E.
    + exists sc. split; [reflexivity|].
      intros [Hn|(h' & e & Hh & He)]; [discriminate|].
      injection Hh as <-. congruence.
    + eauto.
  - eauto.
Qed.

(** A failure of the rendering call leaves [generate_image] as a
    [TextToImageError]: it is for the caller to go on. *)
Lemma generate_image_render_failure env prompt output_path enhanced e :
  is_blank prompt = false ->
  enhance_prompt env prompt = Ok enhanced ->
  http_get env (image_url enhanced) = Raise e ->
  exists msg,
    generate_image env prompt output_path = Raise (TextToImageError msg).
Proof.
  intros Hb He Hget. unfold generate_image.
  rewrite Hb, He. cbn [rbind]. rewrite Hget. cbn [rbind rtry].
  destruct (is_HTTPError e); eauto.
Qed.

(** C7: when the rendering call fails, [generate_image] raises a
    [TextToImageError], and the image turn of the workflow completes all the
    same: it carries the narrative of the scenario, the fallback image prompt
    of the workflow in place of the scenario's, and no image.  Of the two
    chains, [enhance_prompt] never raises and answers the prompt followed by
    [", high quality, detailed, professional, 4k"] when its chain fails, so
    that [generate_image] goes on to render with that prompt;
    [create_scenario] never raises and answers the fixed fallback scenario,
    with its fallback image prompt, when it fails. *)
Theorem C7_image_failures
    (env : ImageEnv) (fallback_prompt prompt output_path : string)
    (history : list BaseMessage)
    (chat_history : option (list BaseMessage)) :
  (exists scenario enhanced,
     create_scenario env (Some history) = Ok scenario
     /\ enhance_prompt env (image_prompt scenario) = Ok enhanced
     /\ (is_blank (image_prompt scenario) = false ->
         forall e,
           http_get env (image_url enhanced) = Raise e ->
           image_turn fallback_prompt env history output_path
           = Ok (mkImageTurn (narrative scenario) fallback_prompt None))
     /\ (forall data,
           generate_image env (image_prompt scenario) output_path = Ok data ->
           image_turn fallback_prompt env history output_path
           = Ok (mkImageTurn (narrative scenario) (image_prompt scenario)
                             (Some data))))
  /\ (is_blank prompt = false ->
      forall enhanced e,
        enhance_prompt env prompt = Ok enhanced ->
        http_get env (image_url enhanced) = Raise e ->
        exists msg,
          generate_image env prompt output_path = Raise (TextToImageError msg))
  /\ (exists enhanced,
        enhance_prompt env prompt = Ok enhanced
        /\ ((exists e, enhance_chain env prompt = Raise e) ->
            enhanced = prompt ++ ", high quality, detailed, professional, 4k"))
  /\ (exists sc,
        create_scenario env chat_history = Ok sc
        /\ (chat_history = None
            \/ (exists h e, chat_history = Some h
                           /\ scenario_chain env (format_history h) = Raise e)
            -> sc = fallback_scenario))
  /\ (is_blank prompt = false ->
      (exists e, enhance_chain env prompt = Raise e) ->
      forall data,
        http_get env (image_url (enhance_fallback prompt)) = Ok data ->
        generate_image env prompt "" = Ok data).
Proof.
  split; [|split; [|split; [|split]]].
  - destruct (create_scenario_total env (Some history)) as (sc & Hsc & _).
    destruct (enhance_prompt_total env (image_prompt sc))
      as (enhanced & He & _).
    exists sc, enhanced. split; [exact Hsc|]. split; [exact He|].
    unfold image_turn. rewrite Hsc. cbn [rbind]. split.
    + intros Hb e Hget.
      destruct (generate_image_render_failure
                  env (image_prompt sc) output_path enhanced e Hb He Hget)
        as [msg ->].
      reflexivity.
    + intros data ->. reflexivity.
  - intros Hb enhanced e He Hget.
    eapply generate_image_render_failure; eassumption.
  - apply enhance_prompt_total.
  - apply create_scenario_total.
  - intros Hb Hfail data Hget. unfold generate_image. rewrite Hb.
    destruct (enhance_prompt_total env prompt) as (enhanced & He & Hfb).
    rewrite He, (Hfb Hfail). cbn [rbind]. rewrite Hget. reflexivity.
Qed.

(** ** The router's override *)

Lemma append_assoc (a b c : string) : (a ++ b) ++ c = a ++ (b ++ c).
Proof.
  induction a as [|x a IH]; [reflexivity|].
  change (String x ((a ++ b) ++ c) = String x (a ++ (b ++ c))).
  now rewrite IH.
Qed.

Lemma prefix_append (sub r : string) : String.prefix sub (sub ++ r) = true.
Proof.
  induction sub as [|x sub IH]; [now destruct r|].
  change (String.prefix (String x sub) (String x (sub ++ r)) = true).
  cbn [String.prefix]. destruct (ascii_dec x x); [exact IH|congruence].
Qed.

Lemma contains_prefix (sub s : string) :
  String.prefix sub s = true -> contains sub s = true.
Proof. intros H. destruct s; cbn [contains]; now rewrite H. Qed.

(** The WhatsApp transport marks every image turn for the router. *)
Lemma whatsapp_image_content_marked user_caption analysis :
  contains USER_SENT_IMAGE (whatsapp_image_content user_caption analysis)
  = true.
Proof.
  apply contains_prefix. unfold whatsapp_image_content.
  destruct analysis; rewrite !append_assoc; apply prefix_append.
Qed.

(** C2: when the most recent user turn of the history carries the
    [[USER_SENT_IMAGE]] marker or an [[Image Analysis:] annotation, [classify]
    answers [conversation] for every classifier capability, whatever that
    classifier would say or however it would fail. *)
Theorem C2_image_turn_is_conversation
    (classifier : list BaseMessage -> result string)
    (history : list BaseMessage) (m : BaseMessage) :
  latest_user_turn history = Some m ->
  contains USER_SENT_IMAGE (content m) = true
  \/ contains IMAGE_ANALYSIS (content m) = true ->
  classify classifier history = conversation.
Proof.
  intros Hm Hmark. unfold classify. rewrite Hm.
  unfold has_image_marker.
  destruct Hmark as [-> | ->]; [reflexivity|].
  now rewrite orb_true_r.
Qed.

(** * More of the code: what a call may touch

    The properties below hold in every world, whatever the fault script. *)

Lemma bind_inv {A B} (m : M A) (k : A -> M B) w r w'' :
  bind m k w = (r, w'') ->
  (exists a w', m w = (Ok a, w') /\ k a w' = (r, w''))
  \/ (exists e, m w = (Raise e, w'') /\ r = Raise e).
Proof.
  unfold bind. destruct (m w) as [[a|e] w'].
  - intros H. left. eauto.
  - intros H. injection H as <- <-. right. eauto.
Qed.

Lemma try_except_inv {A} (m : M A) h w r w'' :
  try_except m h w = (r, w'') ->
  (exists a, m w = (Ok a, w'') /\ r = Ok a)
  \/ (exists e w', m w = (Raise e, w') /\ h e w' = (r, w'')).
Proof.
  unfold try_except. destruct (m w) as [[a|e] w'].
  - intros H. injection H as <- <-. left. eauto.
  - intros H. right. eauto.
Qed.

Lemma ran_refl w : ran w w [].
Proof. unfold ran. rewrite app_nil_r. auto. Qed.

Lemma ran_trans w w1 w2 evs1 evs2 :
  ran w w1 evs1 -> ran w1 w2 evs2 -> ran w w2 (evs1 ++ evs2).
Proof.
  intros (Ht & Hl & Hu & Hc & Ho) (Ht' & Hl' & Hu' & Hc' & Ho').
  unfold ran. rewrite Ht', Ht, app_assoc.
  repeat split; try congruence.
  intros n Hn. rewrite Ho' by exact Hn. now apply Ho.
Qed.

Lemma count_app (p : Event -> bool) evs1 evs2 :
  length (List.filter p (evs1 ++ evs2))
  = length (List.filter p evs1) + length (List.filter p evs2).
Proof. now rewrite List.filter_app, length_app. Qed.

Lemma reads_count evs :
  Forall (fun e => is_read e = true) evs ->
  upserts evs = 0 /\ creates evs = 0 /\ llm_calls evs = 0 /\ writes evs = 0.
Proof.
  unfold upserts, creates, llm_calls, writes.
  induction 1 as [|e evs He _ IH]; [auto|].
  destruct e; try discriminate; cbn; exact IH.
Qed.

Lemma next_fault_any w r w' :
  next_fault w = (r, w') -> collections w' = collections w /\ ran w w' [].
Proof.
  unfold next_fault. destruct (faults w) as [|[e|] fs];
    intros H; injection H as <- <-; (split; [reflexivity|]);
    unfold ran; cbn; rewrite app_nil_r; auto.
Qed.

Lemma emit_any e w r w' :
  emit e w = (r, w') ->
  r = Ok tt /\ collections w' = collections w /\ ran w w' [e].
Proof.
  unfold emit. intros H. injection H as <- <-.
  unfold ran. cbn. auto 10.
Qed.

(** A call to the outside: the event, then the fault script. *)
Lemma call_any {A} ev (k : M A) w r w' :
  (emit ev ;;; next_fault ;;; k) w = (r, w') ->
  exists w1,
    collections w1 = collections w /\ ran w w1 [ev]
    /\ ((exists e, r = Raise e /\ w' = w1)
        \/ k w1 = (r, w')).
Proof.
  intros H. apply bind_inv in H as [(a & w0 & He & H)|(e & He & _)];
    [|unfold emit in He; discriminate].
  apply emit_any in He as (_ & Hc0 & Hr0).
  apply bind_inv in H as [(a' & w1 & Hf & H)|(e & Hf & ->)].
  - apply next_fault_any in Hf as (Hc1 & Hr1).
    exists w1. split; [congruence|]. split.
    + pose proof (ran_trans _ _ _ _ _ Hr0 Hr1) as Hr.
      now rewrite app_nil_r in Hr.
    + now right.
  - apply next_fault_any in Hf as (Hc1 & Hr1).
    exists w'. split; [congruence|]. split.
    + pose proof (ran_trans _ _ _ _ _ Hr0 Hr1) as Hr.
      now rewrite app_nil_r in Hr.
    + left. eauto.
Qed.

Lemma client_get_collections_any w r w' :
  client_get_collections w = (r, w') ->
  collections w' = collections w /\ ran w w' [EvGetCollections].
Proof.
  intros H. apply call_any in H as (w1 & Hc & Hr & [(e & -> & ->)|H]);
    [auto|].
  injection H as _ <-. auto.
Qed.

Lemma model_encode_any txt w r w' :
  model_encode txt w = (r, w') ->
  collections w' = collections w /\ ran w w' [EvEncode txt]
  /\ forall v, r = Ok v -> v = encode txt.
Proof.
  intros H. apply call_any in H as (w1 & Hc & Hr & [(e & -> & ->)|H]).
  - split; [exact Hc|]. split; [exact Hr|]. intros v E. discriminate.
  - injection H as <- <-. split; [exact Hc|]. split; [exact Hr|].
    intros v E. congruence.
Qed.

Lemma client_search_any qvec k w r w' :
  client_search COLLECTION_NAME qvec k w = (r, w') ->
  collections w' = collections w
  /\ ran w w' [EvSearch COLLECTION_NAME k]
  /\ forall hits, r = Ok hits ->
       exists ps, points w = Some ps /\ hits = search_points ps qvec k.
Proof.
  intros H. apply call_any in H as (w1 & Hc & Hr & [(e & -> & ->)|H]).
  - split; [exact Hc|]. split; [exact Hr|]. intros v E. discriminate.
  - assert (Hp : collections w1 !! COLLECTION_NAME = points w)
      by (unfold points; now rewrite Hc).
    destruct (collections w1 !! COLLECTION_NAME) as [ps|];
      injection H as <- <-;
      (split; [exact Hc|]); (split; [exact Hr|]); intros hits E;
      [|discriminate].
    injection E as <-. eauto.
Qed.

Lemma client_upsert_any point_id p w r w' :
  client_upsert COLLECTION_NAME point_id p w = (r, w') ->
  ran w w' [EvUpsert COLLECTION_NAME point_id]
  /\ ((r = Ok tt /\ is_Some (points w)
       /\ points w' = Some (<[point_id := p]> (pts w)))
      \/ ((exists e, r = Raise e) /\ collections w' = collections w)).
Proof.
  intros H. apply call_any in H as (w1 & Hc & Hr & [(e & -> & ->)|H]).
  - split; [exact Hr|]. right. eauto.
  - assert (Hp : collections w1 !! COLLECTION_NAME = points w)
      by (unfold points; now rewrite Hc).
    destruct (collections w1 !! COLLECTION_NAME) as [ps|] eqn:E;
      injection H as <- <-.
    + split.
      * destruct Hr as (Ht & Hl & Hu & Hk & Ho).
        unfold ran. cbn. repeat split; auto.
        intros n Hn. rewrite lookup_insert_ne by congruence. now apply Ho.
      * left. split; [reflexivity|]. split; [rewrite <- Hp; eauto|].
        unfold points, pts. rewrite <- Hp. cbn. apply lookup_insert_eq.
    + split; [exact Hr|]. right. eauto.
Qed.

Lemma client_create_collection_any dim w r w' :
  client_create_collection COLLECTION_NAME dim w = (r, w') ->
  ran w w' [EvCreateCollection COLLECTION_NAME dim]
  /\ pts w' = pts w
  /\ ((exists e, r = Raise e) -> collections w' = collections w).
Proof.
  intros H. apply call_any in H as (w1 & Hc & Hr & [(e & -> & ->)|H]).
  - unfold pts, points. rewrite Hc. auto.
  - assert (Hp : collections w1 !! COLLECTION_NAME = points w)
      by (unfold points; now rewrite Hc).
    destruct (collections w1 !! COLLECTION_NAME) as [ps|] eqn:E;
      injection H as <- <-.
    + unfold pts, points. rewrite Hc. auto.
    + split; [|split].
      * destruct Hr as (Ht & Hl & Hu & Hk & Ho).
        unfold ran. cbn. repeat split; auto.
        intros n Hn. rewrite lookup_insert_ne by congruence. now apply Ho.
      * unfold pts. rewrite <- Hp. unfold points. cbn.
        now rewrite lookup_insert_eq.
      * intros [e He]. discriminate.
Qed.

Lemma ran_same w w' evs :
  collections w' = collections w -> llm w' = llm w ->
  uuid_src w' = uuid_src w -> clock_src w' = clock_src w ->
  trace w' = (trace w ++ evs)%list -> ran w w' evs.
Proof. intros Hc Hl Hu Hk Ht. unfold ran. rewrite Hc. auto. Qed.

Lemma _collection_exists_attempt_any attempt w r w' :
  _collection_exists_attempt attempt w = (r, w') ->
  exists o evs,
    r = Ok o /\ collections w' = collections w /\ ran w w' evs
    /\ Forall (fun e => is_read e = true) evs
    /\ (o = Some true -> is_Some (points w)).
Proof.
  rewrite _collection_exists_attempt_run.
  destruct (faults w) as [|[e|] fs];
    [| destruct (is_ResponseHandlingException e) |];
    intros H; injection H as <- <-;
    eexists _, _; (split; [reflexivity|]); (split; [reflexivity|]);
    (split; [apply ran_same; try reflexivity;
             cbn [trace log_event set_faults]; rewrite <- ?app_assoc;
             reflexivity|]);
    (split; [repeat constructor|]);
    try discriminate;
    intros E; injection E as E; now apply has_collection_iff in E.
Qed.

Lemma _collection_exists_loop_any attempts w r w' :
  _collection_exists_loop attempts w = (r, w') ->
  exists b evs,
    r = Ok b /\ collections w' = collections w /\ ran w w' evs
    /\ Forall (fun e => is_read e = true) evs
    /\ (b = true -> is_Some (points w)).
Proof.
  revert w. induction attempts as [|attempt rest IH]; intros w H.
  - injection H as <- <-. exists false, [].
    split; [reflexivity|]. split; [reflexivity|]. split; [apply ran_refl|].
    split; [constructor|discriminate].
  - cbn [_collection_exists_loop] in H.
    apply bind_inv in H as [(o & w1 & Ha & H)|(e & Ha & ->)].
    + apply _collection_exists_attempt_any in Ha
        as (o' & evs1 & E & Hc1 & Hr1 & Hread1 & Ho).
      injection E as <-. destruct o as [b|].
      * injection H as <- <-. exists b, evs1.
        split; [reflexivity|]. split; [exact Hc1|]. split; [exact Hr1|].
        split; [exact Hread1|]. intros ->. now apply Ho.
      * apply IH in H as (b & evs2 & -> & Hc2 & Hr2 & Hread2 & Hb).
        exists b, (evs1 ++ evs2)%list. split; [reflexivity|].
        split; [congruence|]. split; [eapply ran_trans; eassumption|].
        split; [now apply Forall_app|].
        intros E. unfold points in *. rewrite <- Hc1. now apply Hb.
    + apply _collection_exists_attempt_any in Ha as (o' & evs1 & E & _).
      discriminate.
Qed.

Lemma _collection_exists_any w r w' :
  _collection_exists w = (r, w') ->
  exists b evs,
    r = Ok b /\ collections w' = collections w /\ ran w w' evs
    /\ Forall (fun e => is_read e = true) evs
    /\ (b = true -> is_Some (points w)).
Proof. apply _collection_exists_loop_any. Qed.

Lemma hits_to_memories_Ok hits ms :
  hits_to_memories hits = Ok ms ->
  length ms = length hits
  /\ Forall (fun m => metadata m !! "text" = None /\ is_Some (score m)) ms.
Proof.
  revert ms. induction hits as [|h hits IH]; intros ms H.
  - injection H as <-. auto.
  - cbn [hits_to_memories] in H. unfold hit_to_memory in H.
    destruct (hit_payload h) as [pl|]; [|discriminate].
    destruct (hits_to_memories hits) as [ms'|e]; [|discriminate].
    injection H as <-. destruct (IH ms' eq_refl) as [Hl Hf].
    split; [cbn; now rewrite Hl|].
    constructor; [|exact Hf]. cbn. split; [apply lookup_delete_eq|eauto].
Qed.

(** [search_memories] in any world: it only reads, and what it hands back
    are at most [k] memories, each scored, none with a [text] key left in
    its metadata. *)
Lemma search_memories_any query k w r w' :
  search_memories query k w = (r, w') ->
  collections w' = collections w
  /\ (exists evs, ran w w' evs /\ Forall (fun e => is_read e = true) evs)
  /\ forall ms, r = Ok ms ->
       length ms <= k
       /\ Forall (fun m => metadata m !! "text" = None /\ is_Some (score m))
                 ms.
Proof.
  unfold search_memories. intros H.
  apply bind_inv in H as [(ex & w1 & Hp & H)|(e & Hp & ->)].
  2:{ apply _collection_exists_any in Hp as (b & evs & E & _). discriminate. }
  apply _collection_exists_any in Hp as (b & evs1 & _ & Hc1 & Hr1 & Hread1 & _).
  destruct ex; cbn [negb] in H.
  2:{ injection H as <- <-. split; [exact Hc1|]. split; [eauto|].
      intros ms E. injection E as <-. split; [cbn; lia|constructor]. }
  apply bind_inv in H as [(o & w2 & Ht & H)|(e & Ht & ->)].
  2:{ apply try_except_inv in Ht as [(a & _ & E)|(e' & w2 & _ & E)];
        discriminate. }
  assert (Hmid : collections w2 = collections w1
                 /\ (exists evs, ran w1 w2 evs
                                 /\ Forall (fun e => is_read e = true) evs)
                 /\ forall hits, o = Some hits -> length hits <= k).
  { apply try_except_inv in Ht as [(a & Ht & E)|(e' & w3 & Ht & E)].
    - injection E as <-.
      apply bind_inv in Ht as [(qvec & w3 & He & Ht)|(e & _ & E)];
        [|discriminate].
      apply model_encode_any in He as (Hc2 & Hr2 & _).
      apply bind_inv in Ht as [(hits & w4 & Hs & Ht)|(e & _ & E)];
        [|discriminate].
      apply client_search_any in Hs as (Hc3 & Hr3 & Hhits).
      injection Ht as <- <-.
      split; [congruence|]. split.
      + eexists. split; [eapply ran_trans; eassumption|].
        repeat constructor.
      + intros hits' E. injection E as <-.
        destruct (Hhits hits eq_refl) as (ps & _ & ->).
        apply search_points_length.
    - injection E as <- <-.
      apply bind_inv in Ht as [(qvec & w4 & He & Ht)|(e & He & E)].
      + apply model_encode_any in He as (Hc2 & Hr2 & _).
        apply bind_inv in Ht as [(hits & w5 & Hs & Ht)|(e & Hs & E)];
          [discriminate|].
        apply client_search_any in Hs as (Hc3 & Hr3 & _).
        split; [congruence|]. split; [|discriminate].
        eexists. split; [eapply ran_trans; eassumption|].
        repeat constructor.
      + apply model_encode_any in He as (Hc2 & Hr2 & _).
        split; [congruence|]. split; [|discriminate].
        eexists. split; [eassumption|]. repeat constructor. }
  destruct Hmid as (Hc2 & (evs2 & Hr2 & Hread2) & Hlen).
  assert (Hw : w' = w2 /\ r = match o with
                              | Some hits => hits_to_memories hits
                              | None => Ok []
                              end).
  { destruct o; injection H as <- <-; auto. }
  destruct Hw as [-> ->].
  split; [congruence|]. split.
  - exists (evs1 ++ evs2)%list. split; [eapply ran_trans; eassumption|].
    now apply Forall_app.
  - intros ms E. destruct o as [hits|].
    + apply hits_to_memories_Ok in E as [Hl Hf]. rewrite Hl.
      split; [now apply Hlen|exact Hf].
    + injection E as <-. split; [cbn; lia|constructor].
Qed.

Lemma find_similar_memory_any txt w r w' :
  find_similar_memory txt w = (r, w') ->
  collections w' = collections w
  /\ (exists evs, ran w w' evs /\ Forall (fun e => is_read e = true) evs)
  /\ forall m, r = Ok (Some m) ->
       metadata m !! "text" = None
       /\ exists s, score m = Some s /\ (SIMILARITY_THRESHOLD <= s)%Q.
Proof.
  unfold find_similar_memory. intros H.
  apply bind_inv in H as [(ms & w1 & Hs & H)|(e & Hs & ->)].
  - apply search_memories_any in Hs as (Hc & Hev & Hms).
    destruct (Hms ms eq_refl) as [_ Hf].
    assert (Hw : w' = w1).
    { destruct ms as [|m ms']; [now injection H|].
      destruct (score m) as [s|]; [|now injection H].
      destruct (Qle_bool _ _); now injection H. }
    subst w1. split; [exact Hc|]. split; [exact Hev|].
    intros m E. subst r.
    destruct ms as [|m0 ms']; [discriminate|].
    apply Forall_cons in Hf as [[Htxt _] _].
    destruct (score m0) as [s|] eqn:Es; [|discriminate].
    destruct (Qle_bool SIMILARITY_THRESHOLD s) eqn:Eq; [|discriminate].
    injection H as <-. split; [exact Htxt|].
    exists s. split; [exact Es|]. now apply Qle_bool_iff.
  - apply search_memories_any in Hs as (Hc & Hev & _).
    split; [exact Hc|]. split; [exact Hev|]. discriminate.
Qed.

(** The search of the repository's store never raises: the probe and the
    [try] around the embedding and the search catch every failure of a
    call, and every hit carries a payload. *)
Lemma search_memories_never_raises query k w :
  exists ms, fst (search_memories query k w) = Ok ms.
Proof.
  destruct (search_memories query k w) as [r w'] eqn:E. cbn [fst].
  destruct r as [ms|e]; [eauto|exfalso].
  unfold search_memories in E.
  apply bind_inv in E as [(ex & w1 & Hp & H)|(e' & Hp & _)].
  2:{ apply _collection_exists_any in Hp as (b & evs & E' & _). discriminate. }
  destruct ex; cbn [negb] in H; [|discriminate].
  apply bind_inv in H as [(o & w2 & Ht & H)|(e' & Ht & _)].
  2:{ apply try_except_inv in Ht as [(a & _ & E')|(e'' & w3 & _ & E')];
        discriminate. }
  destruct o as [hits|]; [|discriminate].
  apply try_except_inv in Ht as [(a & Ht & E')|(e'' & w3 & _ & E')];
    [|discriminate].
  injection E' as <-.
  apply bind_inv in Ht as [(qvec & w3 & He & Ht)|(e' & _ & E')];
    [|discriminate].
  apply bind_inv in Ht as [(hits' & w4 & Hs & Ht)|(e' & _ & E')];
    [|discriminate].
  apply client_search_any in Hs as (_ & _ & Hhits).
  injection Ht as <- <-.
  destruct (Hhits hits' eq_refl) as (ps & _ & ->).
  destruct (hits_to_memories_present (search_points ps qvec k))
    as (ms & Hms & _).
  { apply Forall_forall. intros h Hin.
    exact (search_points_payload _ _ _ _ Hin). }
  unfold lift in H. rewrite Hms in H. discriminate.
Qed.

Lemma find_similar_memory_never_raises txt w :
  exists sm, fst (find_similar_memory txt w) = Ok sm.
Proof.
  unfold find_similar_memory, bind.
  destruct (search_memories_never_raises txt 1 w) as [ms Hms].
  destruct (search_memories txt 1 w) as [r w'] eqn:E. cbn [fst] in Hms.
  subst r. destruct ms as [|m ms]; [eauto|].
  destruct (score m) as [sc|]; [|eauto].
  destruct (Qle_bool _ _); eauto.
Qed.


Lemma get_relevant_memories_any context w r w' :
  get_relevant_memories context w = (r, w') ->
  collections w' = collections w
  /\ (exists evs, ran w w' evs /\ Forall (fun e => is_read e = true) evs)
  /\ exists l, r = Ok l /\ length l <= MEMORY_TOP_K.
Proof.
  intros H.
  destruct (search_memories context MEMORY_TOP_K w) as [r0 w0] eqn:Hs.
  rewrite (get_relevant_memories_of_search _ _ _ _ Hs) in H.
  injection H as <- <-.
  apply search_memories_any in Hs as (Hc & Hev & Hms).
  split; [exact Hc|]. split; [exact Hev|].
  eexists. split; [reflexivity|].
  destruct r0 as [ms|e]; [|cbn; lia].
  rewrite length_fmap. now apply Hms.
Qed.

Lemma pts_same w w' : collections w' = collections w -> pts w' = pts w.
Proof. intros H. unfold pts, points. now rewrite H. Qed.

Lemma _create_collection_any w r w' :
  _create_collection w = (r, w') ->
  pts w' = pts w
  /\ exists evs, ran w w' evs /\ upserts evs = 0 /\ creates evs <= 1
                 /\ llm_calls evs = 0.
Proof.
  unfold _create_collection. intros H.
  assert (Hin : exists r0,
             (sample_embedding <- model_encode "sample text" ;;
              client_create_collection COLLECTION_NAME
                                       (length sample_embedding)) w
             = (r0, w')).
  { apply try_except_inv in H as [(a & H & _)|(e & w1 & H & Hh)]; [eauto|].
    injection Hh as _ <-. eauto. }
  clear H. destruct Hin as [r0 H].
  apply bind_inv in H as [(v & w1 & He & H)|(e & He & _)].
  - apply model_encode_any in He as (Hc1 & Hr1 & _).
    apply client_create_collection_any in H as (Hr2 & Hp & _).
    split; [rewrite Hp; now apply pts_same|].
    eexists. split; [eapply ran_trans; eassumption|].
    cbn. auto.
  - apply model_encode_any in He as (Hc1 & Hr1 & _).
    split; [now apply pts_same|].
    eexists. split; [eassumption|]. cbn. auto.
Qed.

(** [store_memory] step by step: the probe, the lazy creation of the
    collection, the dedup search and the embedding leave the points as they
    were; the upsert comes last. *)
Lemma store_memory_any txt md w r w' :
  store_memory txt md w = (r, w') ->
  exists evs,
    ran w w' evs
    /\ upserts evs <= 1 /\ creates evs <= 1 /\ llm_calls evs = 0
    /\ (upserts evs = 0 -> pts w' = pts w)
    /\ ((exists e, r = Raise e) -> upserts evs = 0)
    /\ exists point_id, forall k, k <> point_id -> pts w' !! k = pts w !! k.
Proof.
  unfold store_memory. intros H.
  apply bind_inv in H as [(ex & w1 & Hp & H)|(e & Hp & ->)].
  2:{ apply _collection_exists_any in Hp as (b & evs & E & _). discriminate. }
  apply _collection_exists_any in Hp as (b & evs1 & _ & Hc1 & Hr1 & Hread1 & _).
  apply reads_count in Hread1 as (Hu1 & Hk1 & Hl1 & _).
  apply bind_inv in H as [(ready & w2 & Hcr & H)|(e & Hcr & ->)].
  2:{ destruct ex; cbn [negb] in Hcr; [discriminate|].
      apply try_except_inv in Hcr as [(a & _ & E)|(e' & w2 & _ & E)];
        discriminate. }
  assert (Hprep : pts w2 = pts w1
                  /\ exists evs, ran w1 w2 evs /\ upserts evs = 0
                                 /\ creates evs <= 1 /\ llm_calls evs = 0).
  { destruct ex; cbn [negb] in Hcr.
    - injection Hcr as _ <-. split; [reflexivity|].
      exists []. split; [apply ran_refl|]. cbn. auto.
    - assert (Hin : exists r0, _create_collection w1 = (r0, w2)).
      { apply try_except_inv in Hcr as [(a & Hcr & _)|(e & w3 & Hcr & Hh)].
        - apply bind_inv in Hcr as [(u & w3 & Hcr & Hret)|(e & _ & E)];
            [|discriminate].
          injection Hret as _ <-. eauto.
        - injection Hh as _ <-.
          apply bind_inv in Hcr as [(u & w4 & _ & Hret)|(e' & Hcr & _)];
            [discriminate|eauto]. }
      destruct Hin as [r0 Hin]. now apply _create_collection_any in Hin. }
  destruct Hprep as (Hp2 & evs2 & Hr2 & Hu2 & Hk2 & Hl2).
  assert (H12 : pts w2 = pts w) by (rewrite Hp2; now apply pts_same).
  pose proof (ran_trans _ _ _ _ _ Hr1 Hr2) as Hr12.
  assert (Hcount12 : upserts (evs1 ++ evs2) = 0
                     /\ creates (evs1 ++ evs2) <= 1
                     /\ llm_calls (evs1 ++ evs2) = 0).
  { unfold upserts, creates, llm_calls in *. rewrite !count_app. lia. }
  destruct Hcount12 as (Hu12 & Hk12 & Hl12).
  destruct ready; cbn [negb] in H.
  2:{ injection H as <- <-. exists (evs1 ++ evs2)%list.
      split; [exact Hr12|]. split; [lia|]. split; [exact Hk12|].
      split; [exact Hl12|]. split; [auto|]. split; [auto|].
      exists "". intros k _. now rewrite H12. }
  apply bind_inv in H as [(sm & w3 & Hf & H)|(e & Hf & ->)].
  2:{ apply find_similar_memory_any in Hf as (Hc3 & (evs3 & Hr3 & Hread3) & _).
      apply reads_count in Hread3 as (Hu3 & Hk3 & Hl3 & _).
      exists ((evs1 ++ evs2) ++ evs3)%list.
      split; [eapply ran_trans; eassumption|].
      unfold upserts, creates, llm_calls in *. rewrite !count_app.
      split; [lia|]. split; [lia|]. split; [lia|].
      assert (E : pts w' = pts w) by (rewrite <- H12; now apply pts_same).
      split; [auto|]. split; [intros _; lia|].
      exists "". intros k _. now rewrite E. }
  apply find_similar_memory_any in Hf as (Hc3 & (evs3 & Hr3 & Hread3) & _).
  apply reads_count in Hread3 as (Hu3 & Hk3 & Hl3 & _).
  pose proof (ran_trans _ _ _ _ _ Hr12 Hr3) as Hr123.
  assert (H13 : pts w3 = pts w) by (rewrite <- H12; now apply pts_same).
  apply bind_inv in H as [(v & w4 & He & H)|(e & He & ->)].
  2:{ apply model_encode_any in He as (Hc4 & Hr4 & _).
      eexists. split; [eapply ran_trans; eassumption|].
      unfold upserts, creates, llm_calls in *. rewrite !count_app.
      cbn [length List.filter is_upsert is_create is_llm].
      split; [lia|]. split; [lia|]. split; [lia|].
      assert (E : pts w' = pts w) by (rewrite <- H13; now apply pts_same).
      split; [auto|]. split; [intros _; lia|].
      exists "". intros k _. now rewrite E. }
  apply model_encode_any in He as (Hc4 & Hr4 & _).
  pose proof (ran_trans _ _ _ _ _ Hr123 Hr4) as Hr1234.
  assert (H14 : pts w4 = pts w) by (rewrite <- H13; now apply pts_same).
  apply bind_inv in H as [(u & w5 & Hup & H)|(e & Hup & ->)].
  2:{ apply try_except_inv in Hup as [(a & _ & E)|(e' & w5 & _ & E)];
        discriminate. }
  injection H as <- <-.
  assert (Hw : exists r0,
             client_upsert COLLECTION_NAME (point_id_of txt (adopt_id sm md))
               (mkPoint v (Some (payload_of txt (adopt_id sm md)))) w4
             = (r0, w5)).
  { apply try_except_inv in Hup as [(a & Hup & _)|(e & w6 & Hup & Hh)];
      [eauto|]. injection Hh as _ <-. eauto. }
  destruct Hw as [r0 Hw].
  apply client_upsert_any in Hw as (Hr5 & Hcase).
  eexists. split; [eapply ran_trans; eassumption|].
  unfold upserts, creates, llm_calls in *. rewrite !count_app.
  cbn [length List.filter is_upsert is_create is_llm].
  split; [lia|]. split; [lia|]. split; [lia|]. split; [intros; lia|].
  split; [intros [e E]; discriminate|].
  exists (point_id_of txt (adopt_id sm md)). intros k Hk.
  destruct Hcase as [(_ & _ & Hpts)|(_ & Hc5)].
  - unfold pts at 1. rewrite Hpts. cbn [from_option id].
    rewrite lookup_insert_ne by congruence. now rewrite H14.
  - rewrite <- H14. f_equal. now apply pts_same.
Qed.

Lemma _analyze_memory_any message w r w' :
  _analyze_memory message w = (r, w') ->
  (exists a, r = Ok a)
  /\ collections w' = collections w
  /\ ran w w' [EvLlm (MEMORY_ANALYSIS_PROMPT_format message)].
Proof.
  cbv [_analyze_memory try_except bind llm_ainvoke emit ret].
  match goal with |- context [llm ?x ?y] => destruct (llm x y) as [e|a|] end;
    intros H; injection H as <- <-;
    (split; [eauto|]); (split; [reflexivity|]);
    apply ran_same; reflexivity.
Qed.

Lemma extract_and_store_memories_any message w r w' :
  extract_and_store_memories message w = (r, w') ->
  r = Ok tt
  /\ exists evs,
       ran w w' evs
       /\ llm_calls evs <= 1 /\ upserts evs <= 1 /\ creates evs <= 1
       /\ (upserts evs = 0 -> pts w' = pts w)
       /\ exists point_id,
            forall k, k <> point_id -> pts w' !! k = pts w !! k.
Proof.
  intros H.
  destruct (extract_and_store_memories_total message w) as [w0 Hok].
  assert (Hr : r = Ok tt) by congruence.
  split; [exact Hr|]. clear Hok w0. subst r.
  assert (Hnil : w' = w ->
            exists evs,
              ran w w' evs
              /\ llm_calls evs <= 1 /\ upserts evs <= 1 /\ creates evs <= 1
              /\ (upserts evs = 0 -> pts w' = pts w)
              /\ exists point_id,
                   forall k, k <> point_id -> pts w' !! k = pts w !! k).
  { intros ->. exists []. split; [apply ran_refl|]. cbn.
    repeat split; try lia. exists "". auto. }
  unfold extract_and_store_memories, extract_and_store_memories_with in H.
  destruct (negb _); [injection H as <-; now apply Hnil|].
  destruct (String.eqb _ _); [injection H as <-; now apply Hnil|].
  clear Hnil.
  apply bind_inv in H as [(a & w1 & Ha & H)|(e & _ & E)]; [|discriminate].
  apply _analyze_memory_any in Ha as (_ & Hc1 & Hr1).
  assert (Hstop : w' = w1 ->
            exists evs,
              ran w w' evs
              /\ llm_calls evs <= 1 /\ upserts evs <= 1 /\ creates evs <= 1
              /\ (upserts evs = 0 -> pts w' = pts w)
              /\ exists point_id,
                   forall k, k <> point_id -> pts w' !! k = pts w !! k).
  { intros ->. eexists. split; [exact Hr1|].
    unfold llm_calls, upserts, creates.
    cbn [length List.filter is_upsert is_create is_llm].
    split; [lia|]. split; [lia|]. split; [lia|].
    assert (E : pts w1 = pts w) by now apply pts_same.
    split; [auto|]. exists "". intros k _. now rewrite E. }
  destruct (_ && _); [|injection H as <-; now apply Hstop].
  clear Hstop.
  apply bind_inv in H as [(sim & w2 & Hf & H)|(e & Hf & E)].
  2:{ apply try_except_inv in Hf as [(x & _ & E')|(e' & w2 & _ & E')];
        discriminate. }
  assert (Hfind : collections w2 = collections w1
                  /\ exists evs, ran w1 w2 evs
                                 /\ Forall (fun e => is_read e = true) evs).
  { apply try_except_inv in Hf as [(x & Hf & _)|(e' & w3 & Hf & E')].
    - now apply find_similar_memory_any in Hf as (Hc & Hev & _).
    - injection E' as _ <-.
      now apply find_similar_memory_any in Hf as (Hc & Hev & _). }
  destruct Hfind as (Hc2 & evs2 & Hr2 & Hread2).
  apply reads_count in Hread2 as (Hu2 & Hk2 & Hl2 & _).
  pose proof (ran_trans _ _ _ _ _ Hr1 Hr2) as Hr12.
  assert (H12 : pts w2 = pts w).
  { apply pts_same. congruence. }
  destruct sim as [m|].
  { injection H as <-. eexists. split; [exact Hr12|].
    unfold upserts, creates, llm_calls in *. rewrite !count_app.
    cbn [length List.filter is_upsert is_create is_llm].
    split; [lia|]. split; [lia|]. split; [lia|]. split; [auto|].
    exists "". intros k _. now rewrite H12. }
  assert (Hst : exists r0 md,
             store_memory (default "" (formatted_memory a)) md
               (bump_tick (log_event EvNow (bump_tick (log_event EvUuid w2))))
             = (r0, w')).
  { apply try_except_inv in H as [(x & H & _)|(e' & w3 & H & E')].
    - apply bind_inv in H as [(u & w3 & Hu & H)|(e & Hu & _)];
        [|discriminate].
      injection Hu as <- <-.
      apply bind_inv in H as [(ts & w4 & Hn & H)|(e & Hn & _)];
        [|discriminate].
      injection Hn as <- <-.
      apply bind_inv in H as [(md' & w5 & Hs & H)|(e & Hs & E)];
        [|discriminate].
      injection H as _ <-. eauto.
    - injection E' as <-.
      apply bind_inv in H as [(u & w4 & Hu & H)|(e & Hu & _)];
        [|discriminate].
      injection Hu as <- <-.
      apply bind_inv in H as [(ts & w5 & Hn & H)|(e & Hn & _)];
        [|discriminate].
      injection Hn as <- <-.
      apply bind_inv in H as [(md' & w6 & Hs & H)|(e & Hs & _)];
        [discriminate|eauto]. }
  destruct Hst as (r0 & md & Hst).
  apply store_memory_any in Hst
    as (evs3 & Hr3 & Hu3 & Hk3 & Hl3 & Hsame3 & _ & pid & Hpid).
  assert (Hr0 : ran w2
                    (bump_tick (log_event EvNow
                                  (bump_tick (log_event EvUuid w2))))
                    [EvUuid; EvNow]).
  { apply ran_same; try reflexivity.
    cbn [trace bump_tick log_event]. now rewrite <- app_assoc. }
  pose proof (ran_trans _ _ _ _ _ Hr12 (ran_trans _ _ _ _ _ Hr0 Hr3)) as Hall.
  eexists. split; [exact Hall|].
  unfold upserts, creates, llm_calls in *. rewrite !count_app.
  cbn [length List.filter is_upsert is_create is_llm].
  split; [lia|]. split; [lia|]. split; [lia|]. split.
  - intros E. rewrite <- H12. apply Hsame3. lia.
  - exists pid. intros k Hk. rewrite (Hpid k Hk). now rewrite <- H12.
Qed.

(** ** What the memory subsystem may touch *)

(** [search_memories] and [get_relevant_memories], in every world and under
    every fault script: the index is left exactly as it was, the only calls
    made are probes, sleeps, embeddings and searches, and the answer is
    bounded by the number of hits asked for; [get_relevant_memories] always
    answers with a list. *)
Theorem retrieval_only_reads (query context : string) (k : nat) (w : World) :
  (forall r w',
     search_memories query k w = (r, w') ->
     collections w' = collections w
     /\ (exists evs,
           ran w w' evs /\ Forall (fun e => is_read e = true) evs
           /\ writes evs = 0 /\ llm_calls evs = 0)
     /\ forall ms, r = Ok ms ->
          length ms <= k
          /\ Forall (fun m => metadata m !! "text" = None
                              /\ is_Some (score m)) ms)
  /\ (forall r w',
        get_relevant_memories context w = (r, w') ->
        collections w' = collections w
        /\ (exists evs,
              ran w w' evs /\ Forall (fun e => is_read e = true) evs
              /\ writes evs = 0 /\ llm_calls evs = 0)
        /\ exists l, r = Ok l /\ length l <= MEMORY_TOP_K).
Proof.
  split; intros r w' H.
  - apply search_memories_any in H as (Hc & (evs & Hr & Hread) & Hms).
    split; [exact Hc|]. split; [|exact Hms].
    exists evs. split; [exact Hr|]. split; [exact Hread|].
    now apply reads_count in Hread as (_ & _ & Hl & Hw).
  - apply get_relevant_memories_any in H as (Hc & (evs & Hr & Hread) & Hl).
    split; [exact Hc|]. split; [|exact Hl].
    exists evs. split; [exact Hr|]. split; [exact Hread|].
    now apply reads_count in Hread as (_ & _ & Hl' & Hw).
Qed.

(** [find_similar_memory], in every world and under every fault script: it
    only reads, and a memory it hands back has a score, of at least 0.9. *)
Theorem find_similar_memory_sound (txt : string) (w : World) :
  forall r w',
    find_similar_memory txt w = (r, w') ->
    collections w' = collections w
    /\ (exists evs,
          ran w w' evs /\ Forall (fun e => is_read e = true) evs
          /\ writes evs = 0)
    /\ forall m, r = Ok (Some m) ->
         exists s, score m = Some s /\ (SIMILARITY_THRESHOLD <= s)%Q.
Proof.
  intros r w' H.
  apply find_similar_memory_any in H as (Hc & (evs & Hr & Hread) & Hm).
  split; [exact Hc|]. split.
  - exists evs. split; [exact Hr|]. split; [exact Hread|].
    now apply reads_count in Hread as (_ & _ & _ & Hw).
  - intros m E. now destruct (Hm m E) as [_ Hs].
Qed.

(** [store_memory], in every world and under every fault script: it never
    calls the chat model, creates the collection at most once and upserts
    at most once; every collection but the memory collection is untouched,
    and in the memory collection at most one point differs afterwards.
    When no upsert was attempted the points are as they were, and an
    exception can only leave the call before the upsert: a failing upsert
    is swallowed. *)
Theorem store_memory_footprint (txt : string) (md : Dict) (w : World) :
  forall r w',
    store_memory txt md w = (r, w') ->
    exists evs,
      ran w w' evs
      /\ upserts evs <= 1 /\ creates evs <= 1 /\ llm_calls evs = 0
      /\ (upserts evs = 0 -> pts w' = pts w)
      /\ ((exists e, r = Raise e) -> upserts evs = 0 /\ pts w' = pts w)
      /\ exists point_id, forall k, k <> point_id -> pts w' !! k = pts w !! k.
Proof.
  intros r w' H.
  apply store_memory_any in H
    as (evs & Hr & Hu & Hk & Hl & Hsame & Hraise & Hpid).
  exists evs. repeat (split; [assumption|]).
  split; [|exact Hpid].
  intros He. split; [now apply Hraise|]. apply Hsame. now apply Hraise.
Qed.

(** [extract_and_store_memories], in every world and under every fault
    script: it returns normally, having asked the chat model at most once
    and upserted at most once; every other collection is untouched and at
    most one point of the memory collection differs afterwards. *)
Theorem extract_and_store_memories_footprint
    (message : BaseMessage) (w : World) :
  forall r w',
    extract_and_store_memories message w = (r, w') ->
    r = Ok tt
    /\ exists evs,
         ran w w' evs
         /\ llm_calls evs <= 1 /\ upserts evs <= 1 /\ creates evs <= 1
         /\ (upserts evs = 0 -> pts w' = pts w)
         /\ exists point_id,
              forall k, k <> point_id -> pts w' !! k = pts w !! k.
Proof. intros r w'. apply extract_and_store_memories_any. Qed.

(** ** From a stored fact back to a memory *)

Lemma hits_to_memories_elem hits ms h pl :
  hits_to_memories hits = Ok ms ->
  h ∈ hits -> hit_payload h = Some pl -> memory_of h pl ∈ ms.
Proof.
  revert ms. induction hits as [|h0 hits IH]; intros ms H Hin Hpl.
  - now apply elem_of_nil in Hin.
  - cbn [hits_to_memories] in H. unfold hit_to_memory in H.
    destruct (hit_payload h0) as [pl0|] eqn:E0; [|discriminate].
    destruct (hits_to_memories hits) as [ms'|e]; [|discriminate].
    injection H as <-.
    apply elem_of_cons in Hin as [->|Hin].
    + rewrite Hpl in E0. injection E0 as <-. constructor.
    + apply elem_of_cons. right. now apply IH.
Qed.

Lemma memory_of_stored qvec point_id txt md :
  memory_of (to_hit qvec (point_id, point_of txt md)) (payload_of txt md)
  = mkMemory (default txt (md !! "text")) (delete "text" md)
             (Some (cosine qvec (encode txt))).
Proof.
  unfold memory_of, payload_of. cbn [to_hit hit_score snd point_of pt_vector].
  f_equal.
  - destruct (md !! "text") as [t|] eqn:E.
    + now rewrite (lookup_union_Some_l _ _ _ _ E).
    + rewrite lookup_union_r by exact E. now rewrite lookup_singleton_eq.
  - rewrite delete_union, delete_singleton_eq. apply (right_id_L ∅ (∪)).
Qed.

Lemma search_points_all ps qvec k :
  size ps <= k ->
  search_points ps qvec k ≡ₚ to_hit qvec <$> map_to_list ps.
Proof.
  intros Hk. unfold search_points. rewrite take_ge.
  - apply rank_hits_perm.
  - rewrite rank_hits_perm, length_fmap, length_map_to_list. exact Hk.
Qed.

(** What [store_memory] writes, [search_memories] hands back: after a store
    in which every call gets through, a search wide enough to cover the
    collection answers with one memory per point, among them the stored
    fact, its payload split again into the text and the metadata the call
    left.  A [text] key in the metadata takes the place of the fact's
    text. *)
Theorem store_then_search_round_trip
    (w : World) (ps : gmap string Point) (txt query : string) (md : Dict)
    (sm : option Memory) (k : nat) :
  faults w = [] -> points w = Some ps -> payloads_present ps ->
  similar_of ps (encode txt) = Ok sm ->
  size ps < k ->
  exists w1 w2 ms,
    store_memory txt md w = (Ok (adopt_id sm md), w1)
    /\ search_memories query k w1 = (Ok ms, w2)
    /\ length ms
       = size (<[point_id_of txt (adopt_id sm md)
                 := point_of txt (adopt_id sm md)]> ps)
    /\ mkMemory (default txt (md !! "text"))
                (delete "text" (adopt_id sm md))
                (Some (cosine (encode query) (encode txt))) ∈ ms
    /\ (md !! "text" = None ->
        mkMemory txt (adopt_id sm md)
                 (Some (cosine (encode query) (encode txt))) ∈ ms).
Proof.
  intros H Hps Hpp Hsm Hk.
  set (md' := adopt_id sm md).
  set (pid := point_id_of txt md').
  set (ps' := <[pid := point_of txt md']> ps).
  assert (Htext : md' !! "text" = md !! "text").
  { unfold md', adopt_id. destruct sm as [m|]; [|reflexivity].
    destruct (truthy (Memory_id m)); [|reflexivity].
    now rewrite lookup_insert_ne. }
  assert (Hsize : size ps' <= k).
  { unfold ps'. rewrite map_size_insert. destruct (ps !! pid); cbn; lia. }
  assert (Hpp' : payloads_present ps')
    by now apply payloads_present_put.
  pose proof (store_memory_ok txt md w ps sm H Hps Hsm) as Hstore.
  fold md' in Hstore. fold pid in Hstore.
  match type of Hstore with _ = (_, ?x) => set (w1 := x) in * end.
  assert (H1 : faults w1 = []) by exact H.
  assert (Hps1 : points w1 = Some ps').
  { unfold w1. rewrite points_put_point. change (points _) with (points w).
    now rewrite Hps. }
  pose proof (search_memories_ok query k w1 ps' H1 Hps1) as Hsearch.
  set (hits := search_points ps' (encode query) k) in *.
  pose proof (search_points_all ps' (encode query) k Hsize) as Hperm.
  fold hits in Hperm.
  assert (Hpres : Forall (fun h => is_Some (hit_payload h)) hits).
  { apply Forall_forall. intros h Hin.
    exact (search_points_payload _ _ _ _ Hin). }
  destruct (hits_to_memories_present hits Hpres) as (ms & Hms & Ht & _).
  rewrite Hms in Hsearch.
  assert (Hin : to_hit (encode query) (pid, point_of txt md') ∈ hits).
  { rewrite Hperm. apply list_elem_of_fmap. eexists. split; [reflexivity|].
    apply elem_of_map_to_list. apply lookup_insert_eq. }
  pose proof (hits_to_memories_elem hits ms _ (payload_of txt md')
                Hms Hin eq_refl) as Hmem.
  rewrite memory_of_stored, Htext in Hmem.
  eexists w1, _, ms. split; [exact Hstore|]. split; [exact Hsearch|].
  split; [|split].
  - assert (length ms = length hits) as ->.
    { now rewrite <- (length_fmap text ms), Ht, length_fmap. }
    now rewrite Hperm, length_fmap, length_map_to_list.
  - exact Hmem.
  - intros Hnone. rewrite Hnone in Hmem. cbn [from_option id] in Hmem.
    rewrite delete_id in Hmem by congruence. exact Hmem.
Qed.

(** ** Memories as bullet points *)

Lemma split_on_nonempty c s : split_on c s <> [].
Proof.
  destruct s as [|x r]; cbn [split_on]; [discriminate|].
  destruct (Ascii.eqb x c); [discriminate|].
  destruct (split_on c r); discriminate.
Qed.

Lemma split_on_append c a b :
  has_char c a = false ->
  split_on c (a ++ String c b) = a :: split_on c b.
Proof.
  induction a as [|x a IH]; intros Ha.
  - change (split_on c (String c b) = EmptyString :: split_on c b).
    cbn [split_on]. now rewrite Ascii.eqb_refl.
  - cbn [has_char] in Ha. apply orb_false_iff in Ha as [Hx Ha].
    change (split_on c (String x (a ++ String c b))
            = String x a :: split_on c b).
    cbn [split_on]. rewrite Hx, (IH Ha). reflexivity.
Qed.

Lemma split_on_absent c a : has_char c a = false -> split_on c a = [a].
Proof.
  induction a as [|x a IH]; intros Ha; [reflexivity|].
  cbn [has_char] in Ha. apply orb_false_iff in Ha as [Hx Ha].
  cbn [split_on]. now rewrite Hx, (IH Ha).
Qed.

Lemma split_on_join c parts :
  parts <> [] ->
  Forall (fun s => has_char c s = false) parts ->
  split_on c (join (String c EmptyString) parts) = parts.
Proof.
  induction parts as [|p parts IH]; intros Hne Hf; [contradiction|].
  apply Forall_cons in Hf as [Hp Hf].
  destruct parts as [|q parts].
  - cbn [join]. now apply split_on_absent.
  - change (join (String c EmptyString) (p :: q :: parts))
      with (p ++ String c EmptyString ++ join (String c EmptyString)
                                               (q :: parts)).
    change (String c EmptyString ++ ?x) with (String c x).
    rewrite (split_on_append c p _ Hp), IH; [reflexivity|discriminate|exact Hf].
Qed.

(** [format_memories_for_prompt] gives the empty string for no memories and
    otherwise one line per memory, the memory behind a dash: cut at the line
    breaks, the text gives the memories back, as long as no memory holds a
    line break itself. *)
Theorem format_memories_for_prompt_lines (memories : list string) :
  format_memories_for_prompt [] = ""
  /\ (memories <> [] ->
      Forall (fun m => has_char LF m = false) memories ->
      split_on LF (format_memories_for_prompt memories)
      = (fun m => "- " ++ m) <$> memories).
Proof.
  split; [reflexivity|]. intros Hne Hf.
  assert (E : format_memories_for_prompt memories
              = join newline ((fun m => "- " ++ m) <$> memories)).
  { destruct memories; [contradiction|reflexivity]. }
  rewrite E. apply split_on_join.
  - destruct memories; [contradiction|discriminate].
  - apply Forall_fmap. eapply Forall_impl; [exact Hf|].
    intros m Hm. exact Hm.
Qed.

(** ** The image URL *)

Lemma nat_of_hex_digit n :
  n < 16 ->
  nat_of_ascii (hex_digit n) = if (n <? 10)%nat then 48 + n else 55 + n.
Proof.
  intros Hn. unfold hex_digit.
  destruct (n <? 10)%nat; apply nat_ascii_embedding; lia.
Qed.

Lemma hex_digit_inj a b :
  a < 16 -> b < 16 -> hex_digit a = hex_digit b -> a = b.
Proof.
  intros Ha Hb E. apply (f_equal nat_of_ascii) in E.
  rewrite !nat_of_hex_digit in E by assumption.
  destruct (Nat.ltb_spec a 10), (Nat.ltb_spec b 10); lia.
Qed.

Lemma hex_digit_safe n : n < 16 -> quote_safe (hex_digit n) = true.
Proof.
  intros Hn. do 16 (destruct n as [|n]; [vm_compute; reflexivity|]). lia.
Qed.

Lemma ascii_nibbles c :
  nat_of_ascii c / 16 < 16 /\ nat_of_ascii c mod 16 < 16.
Proof.
  pose proof (nat_ascii_bounded c) as Hc. split.
  - apply Nat.Div0.div_lt_upper_bound. lia.
  - apply Nat.mod_upper_bound. lia.
Qed.

Lemma quote_safe_percent : quote_safe "%"%char = false.
Proof. vm_compute. reflexivity. Qed.

Lemma has_char_quote c s :
  quote_safe c = false -> c <> "%"%char -> has_char c (quote s) = false.
Proof.
  intros Hc Hp. induction s as [|x s IH]; [reflexivity|].
  cbn [quote]. destruct (quote_safe x) eqn:Hx.
  - cbn [has_char]. rewrite IH, orb_false_r.
    apply Ascii.eqb_neq. congruence.
  - destruct (ascii_nibbles x) as [Hhi Hlo].
    cbn [has_char]. rewrite IH, orb_false_r.
    repeat (apply orb_false_iff; split); apply Ascii.eqb_neq.
    + congruence.
    + intros E. pose proof (hex_digit_safe _ Hhi). congruence.
    + intros E. pose proof (hex_digit_safe _ Hlo). congruence.
Qed.

Lemma quote_inj s1 s2 : quote s1 = quote s2 -> s1 = s2.
Proof.
  revert s2. induction s1 as [|x s1 IH]; intros [|y s2] E.
  - reflexivity.
  - cbn [quote] in E. destruct (quote_safe y); discriminate.
  - cbn [quote] in E. destruct (quote_safe x); discriminate.
  - cbn [quote] in E.
    destruct (quote_safe x) eqn:Hx, (quote_safe y) eqn:Hy.
    + injection E as -> E. f_equal. now apply IH.
    + injection E as -> _. rewrite quote_safe_percent in Hx. discriminate.
    + injection E as <- _. rewrite quote_safe_percent in Hy. discriminate.
    + injection E as Ehi Elo E.
      destruct (ascii_nibbles x) as [Hxh Hxl].
      destruct (ascii_nibbles y) as [Hyh Hyl].
      apply hex_digit_inj in Ehi; [|assumption..].
      apply hex_digit_inj in Elo; [|assumption..].
      f_equal; [|now apply IH].
      rewrite <- (ascii_nat_embedding x), <- (ascii_nat_embedding y).
      f_equal.
      change (nat_of_ascii x / 16 = nat_of_ascii y / 16) in Ehi.
      change (nat_of_ascii x mod 16 = nat_of_ascii y mod 16) in Elo.
      rewrite (Nat.div_mod_eq (nat_of_ascii x) 16),
              (Nat.div_mod_eq (nat_of_ascii y) 16).
      congruence.
Qed.

Lemma append_length (a b : string) :
  String.length (a ++ b) = String.length a + String.length b.
Proof.
  induction a as [|x a IH]; [reflexivity|].
  change (S (String.length (a ++ b)) = S (String.length a + String.length b)).
  now rewrite IH.
Qed.

Lemma append_cancel_r (a b c : string) : a ++ c = b ++ c -> a = b.
Proof.
  revert b. induction a as [|x a IH]; intros [|y b] E.
  - reflexivity.
  - apply (f_equal String.length) in E.
    rewrite !append_length in E. cbn [String.length] in E. lia.
  - apply (f_equal String.length) in E.
    rewrite !append_length in E. cbn [String.length] in E. lia.
  - change (String x (a ++ c) = String y (b ++ c)) in E.
    injection E as -> E. f_equal. now apply IH.
Qed.

(** The prompt cannot reach past its place in the URL: [quote] leaves only
    letters, digits, [_ . - ~ /] and [%], so that no [?], [&], [#], [=] or
    space of the prompt survives and the query string of the image URL is
    the fixed one; and [quote] loses nothing, two prompts with the same URL
    are the same prompt. *)
Theorem image_url_is_safe_and_faithful (p1 p2 : string) :
  (forall c, quote_safe c = false -> c <> "%"%char ->
             has_char c (quote p1) = false)
  /\ has_char "?"%char (quote p1) = false
  /\ has_char "&"%char (quote p1) = false
  /\ has_char "#"%char (quote p1) = false
  /\ has_char "="%char (quote p1) = false
  /\ has_char " "%char (quote p1) = false
  /\ (quote p1 = quote p2 -> p1 = p2)
  /\ (image_url p1 = image_url p2 -> p1 = p2).
Proof.
  split; [intros c; apply has_char_quote|].
  do 5 (split; [apply has_char_quote; [vm_compute; reflexivity|discriminate]|]).
  split; [apply quote_inj|].
  unfold image_url. intros E.
  apply String.app_inj in E. apply String.app_inj in E.
  apply append_cancel_r in E. now apply quote_inj.
Qed.

(** ** How [generate_image] can end *)

(** A blank prompt is refused with a [ValueError] before anything is called.
    Otherwise the call ends with the bytes the endpoint served for the
    enhanced prompt, written to [output_path] when one is given, or with a
    [TextToImageError]; no other exception leaves it.  In particular a
    rendered image is lost when it cannot be written. *)
Theorem generate_image_outcomes
    (env : ImageEnv) (prompt output_path : string) :
  (is_blank prompt = true ->
   generate_image env prompt output_path
   = Raise (ValueError "Prompt cannot be empty"))
  /\ (forall data,
        generate_image env prompt output_path = Ok data ->
        is_blank prompt = false
        /\ exists enhanced,
             enhance_prompt env prompt = Ok enhanced
             /\ http_get env (image_url enhanced) = Ok data
             /\ (output_path <> "" ->
                 write_file env output_path data = Ok tt))
  /\ (forall e,
        generate_image env prompt output_path = Raise e ->
        (is_blank prompt = true /\ e = ValueError "Prompt cannot be empty")
        \/ (is_blank prompt = false /\ exists msg, e = TextToImageError msg))
  /\ (forall enhanced data e,
        is_blank prompt = false -> output_path <> "" ->
        enhance_prompt env prompt = Ok enhanced ->
        http_get env (image_url enhanced) = Ok data ->
        write_file env output_path data = Raise e ->
        exists msg,
          generate_image env prompt output_path = Raise (TextToImageError msg)).
Proof.
  unfold generate_image.
  destruct (is_blank prompt) eqn:Hb.
  { split; [reflexivity|]. split; [discriminate|].
    split; [|discriminate].
    intros e E. injection E as <-. left. auto. }
  destruct (enhance_prompt_total env prompt) as (enhanced & He & _).
  rewrite He. cbn [rbind].
  split; [discriminate|].
  destruct (http_get env (image_url enhanced)) as [data|e0] eqn:Hget;
    cbn [rbind rtry].
  - destruct (String.eqb_spec output_path "") as [Hp|Hp]; cbn [rbind rtry].
    + split; [|split].
      * intros d E. injection E as <-. split; [reflexivity|].
        exists enhanced. repeat split; auto. contradiction.
      * discriminate.
      * intros enh d e _ Hne. contradiction.
    + destruct (write_file env output_path data) as [[]|e1] eqn:Hw;
        cbn [rbind rtry].
      * split; [|split].
        -- intros d E. injection E as <-. split; [reflexivity|].
           exists enhanced. repeat split; auto.
        -- discriminate.
        -- intros enh d e _ _ E1 E2 E3. injection E1 as <-.
           rewrite Hget in E2. injection E2 as <-. congruence.
      * split; [|split].
        -- destruct (is_HTTPError e1); discriminate.
        -- intros e E. right. split; [reflexivity|].
           destruct (is_HTTPError e1); injection E as <-; eauto.
        -- intros enh d e _ _ _ _ _. destruct (is_HTTPError e1); eauto.
  - split; [|split].
    + destruct (is_HTTPError e0); discriminate.
    + intros e E. right. split; [reflexivity|].
      destruct (is_HTTPError e0); injection E as <-; eauto.
    + intros enh d e _ _ E1 E2. injection E1 as <-.
      rewrite Hget in E2. discriminate.
Qed.

(** ** The scenario looks at the last five messages *)

Lemma last_five_app {A} (old recent : list A) :
  5 <= length recent -> last_five (old ++ recent) = last_five recent.
Proof.
  intros H. unfold last_five. rewrite length_app.
  rewrite drop_app_ge by lia. f_equal. lia.
Qed.

(** [create_scenario] depends on the last five messages of the history and
    on nothing before them; each of them appears in what the chain is sent,
    its role capitalised. *)
Theorem create_scenario_last_five
    (env : ImageEnv) (old recent : list BaseMessage) :
  5 <= length recent ->
  create_scenario env (Some (old ++ recent)%list)
  = create_scenario env (Some (last_five recent))
  /\ length (last_five recent) = 5
  /\ format_history (old ++ recent)%list
     = join newline
         ((fun msg => title (type msg) ++ ": " ++ content msg)
            <$> last_five recent).
Proof.
  intros H.
  assert (E : last_five (last_five recent) = last_five recent).
  { unfold last_five at 1.
    replace (length (last_five recent) - 5) with 0; [reflexivity|].
    unfold last_five. rewrite length_drop. lia. }
  split; [|split].
  - unfold create_scenario, format_history.
    now rewrite last_five_app, E by exact H.
  - unfold last_five. rewrite length_drop. lia.
  - unfold format_history. now rewrite last_five_app by exact H.
Qed.

(** ** Stripping *)

Ltac split_cases :=
  repeat match goal with
         | |- context [if ?b then _ else _] => destruct b eqn:?
         | |- context [match ?x with EmptyString => _ | String _ _ => _ end] =>
             destruct x
         end.

Lemma after_space_tail {A} (s : string) (k : string -> A) (d : A) :
  after_space s k d
  = match space_tail s with Some r => k r | None => d end.
Proof. unfold space_tail, after_space. split_cases; reflexivity. Qed.

Lemma space_tail_length s r :
  space_tail s = Some r -> String.length r < String.length s.
Proof.
  unfold space_tail, after_space. split_cases; intros [= <-] || discriminate;
    cbn [String.length]; lia.
Qed.

Lemma append_String c s x : String c s ++ x = String c (s ++ x).
Proof. reflexivity. Qed.

Lemma append_EmptyString x : "" ++ x = x.
Proof. reflexivity. Qed.

Lemma space_tail_app s r x :
  space_tail s = Some r -> space_tail (s ++ x) = Some (r ++ x).
Proof.
  unfold space_tail, after_space.
  destruct s as [|c [|c1 [|c2 s]]];
    rewrite ?append_String, ?append_EmptyString;
    split_cases; intros [= <-] || discriminate;
    rewrite ?append_String, ?append_EmptyString; reflexivity.
Qed.

Lemma is_blank_tail s :
  is_blank s
  = match s with
    | EmptyString => true
    | _ => match space_tail s with Some r => is_blank r | None => false end
    end.
Proof.
  destruct s as [|c r]; [reflexivity|].
  change (is_blank (String c r))
    with (after_space (String c r) (fun r => is_blank r) false).
  apply after_space_tail.
Qed.

Lemma lstrip_tail s :
  lstrip s = match space_tail s with Some r => lstrip r | None => s end.
Proof.
  destruct s as [|c r]; [reflexivity|].
  change (lstrip (String c r))
    with (after_space (String c r) (fun r => lstrip r) (String c r)).
  apply after_space_tail.
Qed.

Lemma string_length_ind (P : string -> Prop) :
  (forall s, (forall r, String.length r < String.length s -> P r) -> P s) ->
  forall s, P s.
Proof.
  intros H s. remember (String.length s) as n eqn:E.
  revert s E. induction n as [n IH] using lt_wf_ind.
  intros s ->. apply H. intros r Hr. exact (IH _ Hr r eq_refl).
Qed.

Lemma space_tail_nil : space_tail "" = None.
Proof. reflexivity. Qed.

Lemma is_blank_lstrip s : is_blank (lstrip s) = is_blank s.
Proof.
  induction s as [s IH] using string_length_ind.
  rewrite lstrip_tail, (is_blank_tail s).
  destruct (space_tail s) as [r|] eqn:E.
  - rewrite (IH r (space_tail_length _ _ E)).
    destruct s; [discriminate|reflexivity].
  - rewrite (is_blank_tail s), E. reflexivity.
Qed.

Lemma space_tail_lstrip s : space_tail (lstrip s) = None.
Proof.
  induction s as [s IH] using string_length_ind.
  rewrite lstrip_tail.
  destruct (space_tail s) as [r|] eqn:E; [|exact E].
  exact (IH r (space_tail_length _ _ E)).
Qed.

Lemma lstrip_fixed s : space_tail s = None -> lstrip s = s.
Proof. intros H. now rewrite lstrip_tail, H. Qed.

Lemma rstrip_blank s : is_blank s = true -> rstrip s = "".
Proof. destruct s as [|c r]; [reflexivity|]. intros H. cbn [rstrip]. now rewrite H. Qed.

Lemma rstrip_nonblank s : is_blank s = false -> rstrip s <> "".
Proof.
  destruct s as [|c r]; [discriminate|]. intros H. cbn [rstrip]. now rewrite H.
Qed.

Lemma is_blank_app s x :
  is_blank s = true -> is_blank x = true -> is_blank (s ++ x) = true.
Proof.
  induction s as [s IH] using string_length_ind. intros Hs Hx.
  destruct s as [|c r]; [exact Hx|].
  rewrite is_blank_tail in Hs.
  destruct (space_tail (String c r)) as [t|] eqn:E; [|discriminate].
  change (String c r ++ x) with (String c (r ++ x)).
  rewrite is_blank_tail.
  change (String c (r ++ x)) with (String c r ++ x).
  rewrite (space_tail_app _ _ x E).
  exact (IH t (space_tail_length _ _ E) Hs Hx).
Qed.

Lemma rstrip_split s : exists x, s = rstrip s ++ x /\ is_blank x = true.
Proof.
  induction s as [|c r IH].
  - exists "". split; reflexivity.
  - cbn [rstrip]. destruct (is_blank (String c r)) eqn:E.
    + exists (String c r). split; [reflexivity|exact E].
    + destruct IH as (x & Hx & Hb). exists x. split; [|exact Hb].
      change (String c (rstrip r) ++ x) with (String c (rstrip r ++ x)).
      now rewrite <- Hx.
Qed.

Lemma is_blank_rstrip s : is_blank (rstrip s) = is_blank s.
Proof.
  destruct (is_blank s) eqn:E.
  - now rewrite rstrip_blank.
  - destruct (is_blank (rstrip s)) eqn:E'; [|reflexivity].
    destruct (rstrip_split s) as (x & Hx & Hb).
    pose proof (is_blank_app _ _ E' Hb) as H. rewrite <- Hx in H. congruence.
Qed.

Lemma rstrip_idem s : rstrip (rstrip s) = rstrip s.
Proof.
  induction s as [|c r IH]; [reflexivity|].
  cbn [rstrip]. destruct (is_blank (String c r)) eqn:E; [reflexivity|].
  cbn [rstrip].
  assert (H : is_blank (String c (rstrip r)) = false).
  { pose proof (is_blank_rstrip (String c r)) as H.
    cbn [rstrip] in H. now rewrite E in H. }
  now rewrite H, IH.
Qed.

Lemma space_tail_rstrip s : space_tail s = None -> space_tail (rstrip s) = None.
Proof.
  intros H. destruct (space_tail (rstrip s)) as [q|] eqn:E; [|reflexivity].
  destruct (rstrip_split s) as (x & Hx & _).
  pose proof (space_tail_app _ _ x E) as H'. rewrite <- Hx in H'. congruence.
Qed.

Lemma strip_idem s : strip (strip s) = strip s.
Proof.
  unfold strip.
  rewrite (lstrip_fixed (rstrip (lstrip s))).
  - apply rstrip_idem.
  - apply space_tail_rstrip, space_tail_lstrip.
Qed.

Lemma strip_nonblank s : is_blank s = false -> strip s <> "".
Proof.
  intros H. unfold strip. apply rstrip_nonblank. now rewrite is_blank_lstrip.
Qed.

Lemma is_blank_strip s : is_blank (strip s) = is_blank s.
Proof. unfold strip. now rewrite is_blank_rstrip, is_blank_lstrip. Qed.

(** ** [analyze_image] *)

(** Whatever goes wrong in [analyze_image] leaves it as an
    [ImageToTextError]: the missing file and the empty image too, which the
    docstring announces as [ValueError], are raised inside the [try] and
    wrapped.  Empty image data is refused before the vision model is
    called, whatever the environment. *)
Theorem analyze_image_failures
    (env : VisionEnv) (image_data : ImageInput) (prompt : string) :
  (forall e, analyze_image env image_data prompt = Fail e ->
             exists msg, e = PyImageToTextError msg)
  /\ analyze_image env (ImageBytes "") prompt
     = Fail (PyImageToTextError
               "Failed to analyze image: Image data cannot be empty")
  /\ (forall p, path_exists env p = false ->
        analyze_image env (ImagePath p) prompt
        = Fail (PyImageToTextError
                  ("Failed to analyze image: Image file not found: " ++ p)))
  /\ (forall p, path_exists env p = true -> read_image env p = Done "" ->
        analyze_image env (ImagePath p) prompt
        = Fail (PyImageToTextError
                  "Failed to analyze image: Image data cannot be empty")).
Proof.
  split; [|split; [reflexivity|split]].
  - unfold analyze_image, otry. intros e.
    match goal with |- match ?x with _ => _ end = _ -> _ =>
      destruct x as [d|e0] end; [discriminate|].
    intros H. injection H as <-. eauto.
  - intros p Hp. unfold analyze_image. cbn [image_bytes_of].
    now rewrite Hp.
  - intros p Hp Hr. unfold analyze_image. cbn [image_bytes_of].
    now rewrite Hp, Hr.
Qed.

(** When [analyze_image] answers, the image was not empty, the vision model
    was sent the prompt (the default one for an empty prompt) and the
    base64 of the processed bytes (of the original bytes when PIL failed),
    and the answer is the first choice of the model, stripped: it is never
    empty and carries no white space at either end. *)
Theorem analyze_image_answer
    (env : VisionEnv) (image_data : ImageInput) (prompt description : string) :
  analyze_image env image_data prompt = Done description ->
  exists image_bytes raw rest,
    image_bytes_of env image_data = Done image_bytes
    /\ image_bytes <> ""
    /\ vision_chat env
         (if String.eqb prompt "" then DEFAULT_VISION_PROMPT else prompt)
         (data_url (b64encode env (processed_bytes env image_bytes)))
       = Done (Some raw :: rest)
    /\ (forall e, to_jpeg env image_bytes = Fail e ->
                  processed_bytes env image_bytes = image_bytes)
    /\ description = strip raw
    /\ description <> ""
    /\ is_blank description = false
    /\ strip description = description.
Proof.
  unfold analyze_image. intros H.
  destruct (image_bytes_of env image_data) as [b|e] eqn:Hb;
    cbn [obind otry] in H; [|discriminate].
  destruct (String.eqb_spec b "") as [E|Hne]; cbn [obind otry] in H;
    [discriminate|].
  destruct (vision_chat env _ _) as [choices|e] eqn:Hv;
    cbn [obind otry] in H; [|discriminate].
  destruct choices as [|[raw|] rest]; cbn [otry] in H; try discriminate.
  destruct (String.eqb raw "" || is_blank raw) eqn:Hraw; cbn [otry] in H;
    [discriminate|].
  injection H as <-.
  apply orb_false_iff in Hraw as [_ Hblank].
  exists b, raw, rest. split; [reflexivity|]. split; [exact Hne|].
  split; [exact Hv|]. split.
  { intros e He. unfold processed_bytes. now rewrite He. }
  split; [reflexivity|]. split; [now apply strip_nonblank|].
  split; [now rewrite is_blank_strip|apply strip_idem].
Qed.

(** ** The verification handshake *)

(** The handshake answers 200 with the challenge exactly when the mode is
    [subscribe] and the token of the request is the configured one, 403
    otherwise.  [WHATSAPP_VERIFY_TOKEN] decides when it is set and not
    empty, [WEBHOOK_VERIFY_TOKEN] otherwise.  With neither variable set
    there is no token to compare with, and a [subscribe] request that
    carries no token is let through. *)
Theorem whatsapp_verification_decides (params environ : gmap string string) :
  (status_code (whatsapp_verification params environ) = 200
   \/ status_code (whatsapp_verification params environ) = 403)
  /\ (status_code (whatsapp_verification params environ) = 200 <->
      params !! "hub.mode" = Some "subscribe"
      /\ params !! "hub.verify_token"
         = or_else (environ !! "WHATSAPP_VERIFY_TOKEN")
                   (environ !! "WEBHOOK_VERIFY_TOKEN"))
  /\ (status_code (whatsapp_verification params environ) = 200 ->
      resp_content (whatsapp_verification params environ)
      = params !! "hub.challenge")
  /\ (forall t, environ !! "WHATSAPP_VERIFY_TOKEN" = Some t -> t <> "" ->
        (status_code (whatsapp_verification params environ) = 200 <->
         params !! "hub.mode" = Some "subscribe"
         /\ params !! "hub.verify_token" = Some t))
  /\ (environ !! "WHATSAPP_VERIFY_TOKEN" = None ->
      environ !! "WEBHOOK_VERIFY_TOKEN" = None ->
      params !! "hub.mode" = Some "subscribe" ->
      params !! "hub.verify_token" = None ->
      whatsapp_verification params environ
      = mkResponse (params !! "hub.challenge") 200).
Proof.
  unfold whatsapp_verification.
  set (vt := or_else _ _).
  assert (Hiff : bool_decide (params !! "hub.mode" = Some "subscribe")
                 && bool_decide (params !! "hub.verify_token" = vt) = true
                 <-> params !! "hub.mode" = Some "subscribe"
                     /\ params !! "hub.verify_token" = vt).
  { rewrite andb_true_iff, !bool_decide_eq_true. reflexivity. }
  destruct (bool_decide _ && bool_decide _) eqn:E; cbn [status_code resp_content].
  - split; [auto|]. split; [split; [intros _; exact (proj1 Hiff eq_refl)|reflexivity]|].
    split; [reflexivity|]. split.
    + intros t Ht Hne. split; [intros _|reflexivity].
      destruct (proj1 Hiff eq_refl) as [Hm Htok]. split; [exact Hm|].
      rewrite Htok. unfold vt, or_else. rewrite Ht. cbn [truthy].
      destruct (String.eqb_spec t ""); [contradiction|reflexivity].
    + reflexivity.
  - split; [auto|]. split; [split; [discriminate|]|].
    { intros H. discriminate (proj2 Hiff H). }
    split; [discriminate|]. split.
    + intros t Ht Hne. split; [discriminate|]. intros [Hm Htok].
      assert (Hv : vt = Some t).
      { unfold vt, or_else. rewrite Ht. cbn [truthy].
        destruct (String.eqb_spec t ""); [contradiction|reflexivity]. }
      rewrite <- Hv in Htok.
      discriminate (proj2 Hiff (conj Hm Htok)).
    + intros H1 H2 Hm Htok.
      assert (Hv : vt = None) by (unfold vt, or_else; now rewrite H1).
      rewrite <- Hv in Htok.
      discriminate (proj2 Hiff (conj Hm Htok)).
Qed.

(** ** The markers the transports write *)

Lemma contains_append_r (sub a s : string) :
  contains sub s = true -> contains sub (a ++ s) = true.
Proof.
  intros H. induction a as [|x a IH]; [exact H|].
  change (contains sub (String x (a ++ s)) = true).
  cbn [contains]. rewrite IH. apply orb_true_r.
Qed.

Lemma contains_middle (sub a b : string) :
  contains sub (a ++ sub ++ b) = true.
Proof. apply contains_append_r, contains_prefix, prefix_append. Qed.

Lemma prefix_of_append (p r s : string) :
  s = p ++ r -> String.prefix p s = true.
Proof. intros ->. apply prefix_append. Qed.

Lemma contains_of_append (sub a b s : string) :
  s = a ++ sub ++ b -> contains sub s = true.
Proof. intros ->. apply contains_middle. Qed.

(** Every image turn the WhatsApp transport hands to the workflow starts
    with the [[USER_SENT_IMAGE]] marker, goes on with the caption or, for a
    blank caption, with ["What is this?"], and carries an
    [[Image Analysis:] annotation, whether the vision model answered or
    not. *)
Theorem whatsapp_image_content_shape
    (user_caption : string) (analysis : result string) :
  String.prefix
    ("[USER_SENT_IMAGE] "
       ++ (if is_blank user_caption then "What is this?" else user_caption))
    (whatsapp_image_content user_caption analysis) = true
  /\ contains USER_SENT_IMAGE (whatsapp_image_content user_caption analysis)
     = true
  /\ contains IMAGE_ANALYSIS (whatsapp_image_content user_caption analysis)
     = true
  /\ is_blank (whatsapp_image_content user_caption analysis) = false.
Proof.
  unfold whatsapp_image_content.
  set (q := if is_blank user_caption then "What is this?" else user_caption).
  split; [|split; [|split]].
  - change ("[USER_SENT_IMAGE] " ++ q) with (USER_SENT_IMAGE ++ " " ++ q).
    destruct analysis as [d|e].
    + apply (prefix_of_append _
               (newline ++ newline ++ "[Image Analysis: " ++ d ++ "]")).
      now rewrite !append_assoc.
    + apply (prefix_of_append _
               (newline ++ newline ++ "[Image Analysis: Failed to analyze]")).
      now rewrite !append_assoc.
  - apply contains_prefix. destruct analysis; rewrite !append_assoc;
      apply prefix_append.
  - destruct analysis as [d|e].
    + apply (contains_of_append _
               (USER_SENT_IMAGE ++ " " ++ q ++ newline ++ newline)
               (" " ++ d ++ "]")).
      now rewrite !append_assoc.
    + apply (contains_of_append _
               (USER_SENT_IMAGE ++ " " ++ q ++ newline ++ newline)
               " Failed to analyze]").
      now rewrite !append_assoc.
  - destruct analysis; rewrite !append_assoc; reflexivity.
Qed.


Lemma chainlit_image_step_shape (env : VisionEnv) (content path out : string) :
  chainlit_image_step env content path = Done out ->
  String.prefix (USER_SENT_IMAGE ++ " ") out = true
  /\ contains IMAGE_ANALYSIS out = true
  /\ is_blank out = false.
Proof.
  unfold chainlit_image_step.
  set (q := if is_blank content then CHAINLIT_DEFAULT_QUESTION else content).
  destruct (read_image env path) as [bytes|e]; cbn [obind]; [|discriminate].
  destruct (analyze_image env (ImageBytes bytes) _) as [d|e];
    intros [= <-].
  - split; [|split].
    + apply (prefix_of_append _
        (q ++ newline ++ newline ++ "[Image Analysis: " ++ d ++ "]")).
      now rewrite !append_assoc.
    + apply (contains_of_append _
               (USER_SENT_IMAGE ++ " " ++ q ++ newline ++ newline)
               (" " ++ d ++ "]")).
      now rewrite !append_assoc.
    + rewrite !append_assoc. reflexivity.
  - split; [|split].
    + apply (prefix_of_append _
        (q ++ newline ++ newline
           ++ "[Image Analysis: Failed to analyze the image]")).
      now rewrite !append_assoc.
    + apply (contains_of_append _
               (USER_SENT_IMAGE ++ " " ++ q ++ newline ++ newline)
               " Failed to analyze the image]").
      now rewrite !append_assoc.
    + rewrite !append_assoc. reflexivity.
Qed.

(** The Chainlit transport leaves a message without image attachments as it
    is.  With at least one image the content handed to the workflow starts
    with the [[USER_SENT_IMAGE]] marker, carries an [[Image Analysis:]
    annotation and is not blank, whether the vision model answered or not;
    the question put to the vision model is the content so far or, when
    that is blank, the default question, so that the second default of the
    call is never used.  The only failure is that of reading an attached
    file. *)
Theorem chainlit_content_shape
    (env : VisionEnv) (content : string) (elements : list Element) :
  (forall out, chainlit_content env content elements = Done out ->
     (existsb is_image_element elements = false /\ out = content)
     \/ (existsb is_image_element elements = true
         /\ String.prefix (USER_SENT_IMAGE ++ " ") out = true
         /\ contains IMAGE_ANALYSIS out = true
         /\ is_blank out = false))
  /\ (forall e, chainlit_content env content elements = Fail e ->
        exists path, In (ImageElement path) elements
                     /\ read_image env path = Fail e)
  /\ (forall path,
        chainlit_image_step env content path
        = obind (read_image env path) (fun image_bytes =>
            let user_question :=
              if is_blank content then CHAINLIT_DEFAULT_QUESTION
              else content in
            Done (USER_SENT_IMAGE ++ " " ++ user_question
                    ++ newline ++ newline
                    ++ match analyze_image env (ImageBytes image_bytes)
                               user_question with
                       | Done description =>
                           "[Image Analysis: " ++ description ++ "]"
                       | Fail _ =>
                           "[Image Analysis: Failed to analyze the image]"
                       end))).
Proof.
  split; [|split].
  - revert content. induction elements as [|[path|] rest IH]; intros content out.
    + intros [= <-]. now left.
    + cbn [chainlit_content existsb is_image_element orb].
      destruct (chainlit_image_step env content path) as [c|e] eqn:Es;
        cbn [obind]; [|discriminate].
      intros H. right. split; [reflexivity|].
      apply chainlit_image_step_shape in Es.
      destruct (IH _ _ H) as [[_ ->]|[_ Hout]]; [exact Es|exact Hout].
    + cbn [chainlit_content existsb is_image_element orb]. apply IH.
  - revert content. induction elements as [|[path|] rest IH]; intros content e.
    + discriminate.
    + cbn [chainlit_content].
      destruct (chainlit_image_step env content path) as [c|e'] eqn:Es;
        cbn [obind].
      * intros H. destruct (IH _ _ H) as (p & Hin & Hp).
        exists p. split; [now right|exact Hp].
      * intros [= ->]. exists path. split; [now left|].
        unfold chainlit_image_step in Es.
        destruct (read_image env path) as [b|e0]; cbn [obind] in Es.
        -- destruct (analyze_image env _ _); discriminate.
        -- congruence.
    + cbn [chainlit_content]. intros H.
      destruct (IH _ _ H) as (p & Hin & Hp). exists p. split; [now right|exact Hp].
  - intros path. unfold chainlit_image_step.
    destruct (read_image env path) as [b|e]; cbn [obind]; [|reflexivity].
    assert (Hq : (if is_blank (if is_blank content
                                then CHAINLIT_DEFAULT_QUESTION else content)
                  then "Please describe what you see in this image in detail."
                  else if is_blank content
                       then CHAINLIT_DEFAULT_QUESTION else content)
                 = if is_blank content
                   then CHAINLIT_DEFAULT_QUESTION else content).
    { destruct (is_blank content) eqn:Eb; [reflexivity|now rewrite Eb]. }
    rewrite Hq.
    destruct (analyze_image env (ImageBytes b) _); now rewrite !append_assoc.
Qed.

(** ** The WhatsApp client *)

Lemma tbind_Done {A B} (m : T A) (k : A -> T B) net a net' :
  m net = (Done a, net') -> tbind m k net = k a net'.
Proof. intros H. unfold tbind. now rewrite H. Qed.

Lemma tbind_Fail {A B} (m : T A) (k : A -> T B) net e net' :
  m net = (Fail e, net') -> tbind m k net = (Fail e, net').
Proof. intros H. unfold tbind. now rewrite H. Qed.

Lemma answers_sent req net : answers net -> answers (sent req net).
Proof. intros H n r. exact (H n r). Qed.

Lemma answers_ran_graph t c net : answers net -> answers (ran_graph t c net).
Proof. intros H n r. exact (H n r). Qed.

Lemma _post_run endpoint json_data net :
  _post endpoint json_data net
  = (net_http net (length (wire net))
       (PostJson (base_url net ++ "/" ++ endpoint) (client_headers net)
                 json_data),
     sent (PostJson (base_url net ++ "/" ++ endpoint) (client_headers net)
                    json_data) net).
Proof. reflexivity. Qed.

Lemma mark_as_read_run message_id net :
  answers net ->
  mark_as_read message_id net
  = (Done tt, sent (read_request net message_id) net).
Proof.
  intros H. unfold mark_as_read, tbind. rewrite _post_run.
  destruct (H (length (wire net))
              (PostJson (base_url net ++ "/" ++ "messages")
                 (client_headers net) (read_payload message_id)))
    as [res ->].
  reflexivity.
Qed.

Lemma send_reaction_run to message_id emoji net :
  answers net ->
  send_reaction to message_id emoji net
  = (Done tt, sent (reaction_request net to message_id emoji) net).
Proof.
  intros H. unfold send_reaction, tbind. rewrite _post_run.
  destruct (H (length (wire net))
              (PostJson (base_url net ++ "/" ++ "messages")
                 (client_headers net)
                 (reaction_payload to message_id emoji)))
    as [res ->].
  reflexivity.
Qed.

Lemma send_text_run to content net :
  answers net ->
  send_message to content "text" net
  = (Done tt, sent (text_request net to content) net).
Proof.
  intros H. unfold send_message. cbn [String.eqb Ascii.eqb Bool.eqb].
  unfold tbind. rewrite _post_run.
  destruct (H (length (wire net))
              (PostJson (base_url net ++ "/" ++ "messages")
                 (client_headers net)
                 (message_payload to "text" (JObj [("body", JStr content)]))))
    as [res ->].
  reflexivity.
Qed.

(** What [send_message] puts on the wire.  A text goes out as one post, and
    the call returns normally whatever status WhatsApp answers with: a
    rejected message is only logged.  A type other than [text], [audio] and
    [image] sends nothing and raises nothing.  Audio and images are uploaded
    first, as [audio/mpeg] and [image/png]; when the upload is refused or
    its answer carries no [id], the call raises and no message is posted;
    otherwise the message that goes out refers to the uploaded media by that
    id. *)
Theorem send_message_wire
    (to : json) (content msg_type : string) (net : Net) :
  (msg_type = "text" ->
   snd (send_message to content msg_type net)
   = sent (text_request net to content) net
   /\ (forall res,
         net_http net (length (wire net)) (text_request net to content)
         = Done res ->
         fst (send_message to content msg_type net) = Done tt)
   /\ (forall e,
         net_http net (length (wire net)) (text_request net to content)
         = Fail e ->
         fst (send_message to content msg_type net) = Fail e))
  /\ (msg_type <> "text" -> msg_type <> "audio" -> msg_type <> "image" ->
      send_message to content msg_type net = (Done tt, net))
  /\ (msg_type = "audio" \/ msg_type = "image" ->
      let upload :=
        upload_request net content
          (if String.eqb msg_type "audio" then "audio/mpeg"
           else "image/png") in
      (forall e,
         net_http net (length (wire net)) upload = Fail e ->
         send_message to content msg_type net = (Fail e, sent upload net))
      /\ (forall res,
            net_http net (length (wire net)) upload = Done res ->
            (res_status res < 200 \/ 300 <= res_status res ->
             send_message to content msg_type net
             = (Fail (PyHTTPStatusError (res_status res)), sent upload net))
            /\ (200 <= res_status res < 300 ->
                (forall e,
                   obind (res_json res) (py_item "id") = Fail e ->
                   send_message to content msg_type net
                   = (Fail e, sent upload net))
                /\ (forall media_id,
                      obind (res_json res) (py_item "id") = Done media_id ->
                      snd (send_message to content msg_type net)
                      = sent (media_request net to msg_type media_id)
                             (sent upload net))))).
Proof.
  split; [|split].
  - intros ->. unfold send_message. cbn [String.eqb Ascii.eqb Bool.eqb].
    unfold tbind. rewrite _post_run.
    change (PostJson (base_url net ++ "/" ++ "messages") (client_headers net)
              (message_payload to "text" (JObj [("body", JStr content)])))
      with (text_request net to content).
    destruct (net_http net (length (wire net)) (text_request net to content))
      as [res|e]; cbn [fst snd].
    + split; [reflexivity|]. split; [reflexivity|discriminate].
    + split; [reflexivity|]. split; [discriminate|]. now intros e' [= ->].
  - intros H1 H2 H3. unfold send_message.
    apply String.eqb_neq in H1, H2, H3. now rewrite H1, H2, H3.
  - intros Hm upload.
    assert (Hs : send_message to content msg_type net
                 = tbind (_upload_media content
                            (if String.eqb msg_type "audio"
                             then "audio/mpeg" else "image/png"))
                         (fun media_id =>
                            tbind (_post "messages"
                                     (message_payload to msg_type
                                        (JObj [("id", media_id)])))
                                  (fun _ => tret tt)) net).
    { unfold send_message. destruct Hm as [-> | ->]; reflexivity. }
    rewrite Hs. clear Hs.
    assert (Hu : _upload_media content
                   (if String.eqb msg_type "audio"
                    then "audio/mpeg" else "image/png") net
                 = match net_http net (length (wire net)) upload with
                   | Done res =>
                       if (200 <=? res_status res)%nat
                          && (res_status res <? 300)%nat
                       then (obind (res_json res) (py_item "id"),
                             sent upload net)
                       else (Fail (PyHTTPStatusError (res_status res)),
                             sent upload net)
                   | Fail e => (Fail e, sent upload net)
                   end).
    { unfold _upload_media, tbind, http_call. fold upload.
      destruct (net_http net (length (wire net)) upload) as [res|e];
        [|reflexivity].
      unfold raise_for_status.
      destruct ((200 <=? res_status res)%nat && (res_status res <? 300)%nat);
        [|reflexivity].
      cbn [tret tlift]. destruct (res_json res); reflexivity. }
    split.
    + intros e He. unfold tbind at 1. rewrite Hu, He. reflexivity.
    + intros res Hres. split; [|split].
      * intros Hbad. unfold tbind at 1. rewrite Hu, Hres.
        destruct ((200 <=? res_status res)%nat && (res_status res <? 300)%nat)
          eqn:E; [|reflexivity].
        apply andb_true_iff in E as [E1 E2].
        apply Nat.leb_le in E1. apply Nat.ltb_lt in E2. lia.
      * intros e He. unfold tbind at 1. rewrite Hu, Hres.
        destruct H as [H1 H2].
        apply Nat.leb_le in H1. apply Nat.ltb_lt in H2. rewrite H1, H2.
        cbn [andb]. now rewrite He.
      * intros media_id Hid. unfold tbind at 1. rewrite Hu, Hres.
        destruct H as [H1 H2].
        apply Nat.leb_le in H1. apply Nat.ltb_lt in H2. rewrite H1, H2.
        cbn [andb]. rewrite Hid. cbv [tbind _post http_call].
        destruct (net_http (sent upload net) _ _); reflexivity.
Qed.

(** ** The webhook *)

Lemma carries_change_value data change_value :
  carries data change_value ->
  change_value_of data = Done (Some change_value).
Proof.
  intros (d & e & es & c & cs & -> & He & Hc & Hv).
  unfold change_value_of. cbn [py_get py_item obind]. rewrite He.
  cbn [py_bool_opt py_bool negb obind py_first py_get py_item].
  rewrite Hc. cbn [py_bool_opt py_bool negb obind py_first py_item].
  now rewrite Hv.
Qed.

Lemma handle_webhook_incoming data mfields from_number message_id message_type
    net :
  incoming data mfields from_number message_id message_type ->
  handle_webhook (Done data) net
  = handle_message (JObj mfields) from_number message_id message_type net.
Proof.
  intros (v & more & Hc & Hst & Hms & Hf & Hi & Ht).
  unfold handle_webhook, tbind, tlift.
  rewrite (carries_change_value _ _ Hc).
  cbn [py_in]. rewrite Hst, Hms.
  unfold handle_messages, tbind, tlift.
  cbn [py_item obind]. rewrite Hms. cbn [obind py_first py_item].
  now rewrite Hf, Hi, Ht.
Qed.

Lemma respond_text_run from_number message_id content st reply net :
  answers net ->
  net_graph net from_number content = Done st ->
  last (st_messages st) = Some reply ->
  st_workflow st <> Some "audio" -> st_workflow st <> Some "image" ->
  respond from_number message_id content net
  = (Done (mkResponse (Some "Processed") 200),
     sent (reaction_request net from_number message_id "✅")
       (sent (text_request net from_number reply)
          (ran_graph from_number content net))).
Proof.
  intros Ha Hg Hl Hna Hni. unfold respond.
  unfold tbind at 1. rewrite Hg.
  unfold tbind at 1. unfold tlift at 1. rewrite Hl.
  assert (Hwa : String.eqb (default "conversation" (st_workflow st)) "audio"
                = false).
  { apply String.eqb_neq. intros E. apply Hna.
    destruct (st_workflow st); cbn [from_option id] in E;
      [now subst|discriminate]. }
  assert (Hwi : String.eqb (default "conversation" (st_workflow st)) "image"
                = false).
  { apply String.eqb_neq. intros E. apply Hni.
    destruct (st_workflow st); cbn [from_option id] in E;
      [now subst|discriminate]. }
  rewrite Hwa, Hwi.
  erewrite tbind_Done.
  2:{ apply send_text_run. now apply answers_ran_graph. }
  erewrite tbind_Done.
  2:{ apply send_reaction_run. now apply answers_sent, answers_ran_graph. }
  reflexivity.
Qed.

(** A webhook that announces no message causes no traffic and no run of the
    graph: a payload without entry or without changes is answered with
    ["No changes"], a change that is a status update with
    ["Status received"], even when it carries messages as well, and any
    other change without messages with ["No messages found"]; all with
    status 200.  A body that is no JSON object is answered with 500. *)
Theorem webhook_ignores_non_messages (data : json) (net : Net) :
  (forall dfields,
     data = JObj dfields ->
     py_bool_opt (assoc "entry" dfields) = false ->
     whatsapp_message_handler (Done data) net
     = (mkResponse (Some "No changes") 200, net))
  /\ (forall dfields efields entries,
        data = JObj dfields ->
        assoc "entry" dfields = Some (JArr (JObj efields :: entries)) ->
        py_bool_opt (assoc "changes" efields) = false ->
        whatsapp_message_handler (Done data) net
        = (mkResponse (Some "No changes") 200, net))
  /\ (forall vfields,
        carries data (JObj vfields) ->
        is_Some (assoc "statuses" vfields) ->
        whatsapp_message_handler (Done data) net
        = (mkResponse (Some "Status received") 200, net))
  /\ (forall vfields,
        carries data (JObj vfields) ->
        assoc "statuses" vfields = None ->
        assoc "messages" vfields = None ->
        whatsapp_message_handler (Done data) net
        = (mkResponse (Some "No messages found") 200, net))
  /\ ((forall dfields, data <> JObj dfields) ->
      whatsapp_message_handler (Done data) net
      = (mkResponse (Some "Internal Error") 500, net))
  /\ (forall e,
        whatsapp_message_handler (Fail e) net
        = (mkResponse (Some "Internal Error") 500, net)).
Proof.
  split; [|split; [|split; [|split; [|split]]]].
  - intros d -> He.
    unfold whatsapp_message_handler, handle_webhook, tbind, tlift,
      change_value_of.
    cbn [py_get obind]. now rewrite He.
  - intros d e es -> He Hc.
    unfold whatsapp_message_handler, handle_webhook, tbind, tlift,
      change_value_of.
    cbn [py_get py_item obind]. rewrite He.
    cbn [py_bool_opt py_bool negb obind py_first py_get]. now rewrite Hc.
  - intros v Hc [x Hx].
    unfold whatsapp_message_handler, handle_webhook, tbind, tlift.
    rewrite (carries_change_value _ _ Hc). cbn [py_in]. now rewrite Hx.
  - intros v Hc Hst Hms.
    unfold whatsapp_message_handler, handle_webhook, tbind, tlift.
    rewrite (carries_change_value _ _ Hc). cbn [py_in]. now rewrite Hst, Hms.
  - intros Hd.
    unfold whatsapp_message_handler, handle_webhook, tbind, tlift,
      change_value_of.
    destruct data; try reflexivity. now destruct (Hd fields).
  - reflexivity.
Qed.

(** A text message on a server that answers every request, with whatever
    status.  When the graph returns a state that is neither an audio nor an
    image answer, the handler marks the message as read, reacts with the
    thinking face, runs the graph once on the body under the sender as
    thread, posts the content of the last message as text, reacts with the
    check mark and answers ["Processed"], in this order; since the statuses
    of the answers are not looked at, it does so as well when WhatsApp
    rejects every post.  When the graph fails the handler answers 500 after
    the blue ticks and the thinking face have gone out: no reply and no
    check mark follow. *)
Theorem webhook_text_turn
    (data : json) (mfields tfields : list (string * json))
    (from_number message_id body : json) (net : Net) :
  incoming data mfields from_number message_id (JStr "text") ->
  assoc "text" mfields = Some (JObj tfields) ->
  assoc "body" tfields = Some body ->
  answers net ->
  (forall st reply,
     net_graph net from_number body = Done st ->
     last (st_messages st) = Some reply ->
     st_workflow st <> Some "audio" -> st_workflow st <> Some "image" ->
     exists net',
       whatsapp_message_handler (Done data) net
       = (mkResponse (Some "Processed") 200, net')
       /\ wire net'
          = (wire net
               ++ [read_request net message_id;
                   reaction_request net from_number message_id "🤔";
                   text_request net from_number reply;
                   reaction_request net from_number message_id "✅"])%list
       /\ invoked net' = (invoked net ++ [(from_number, body)])%list)
  /\ (forall e,
        net_graph net from_number body = Fail e ->
        exists net',
          whatsapp_message_handler (Done data) net
          = (mkResponse (Some "Internal Error") 500, net')
          /\ wire net'
             = (wire net
                  ++ [read_request net message_id;
                      reaction_request net from_number message_id "🤔"])%list
          /\ invoked net' = (invoked net ++ [(from_number, body)])%list).
Proof.
  intros Hin Htext Hbody Ha.
  assert (Hh : handle_webhook (Done data) net
               = respond from_number message_id body
                   (sent (reaction_request net from_number message_id "🤔")
                      (sent (read_request net message_id) net))).
  { rewrite (handle_webhook_incoming _ _ _ _ _ _ Hin).
    unfold handle_message.
    erewrite tbind_Done. 2:{ now apply mark_as_read_run. }
    cbn [is_str String.eqb Ascii.eqb Bool.eqb].
    erewrite tbind_Done.
    2:{ apply send_reaction_run. now apply answers_sent. }
    unfold tbind at 1. unfold tlift.
    cbn [py_item obind]. rewrite Htext. cbn [obind py_item].
    rewrite Hbody. reflexivity. }
  split.
  - intros st reply Hg Hl Hna Hni.
    eexists. unfold whatsapp_message_handler. rewrite Hh.
    erewrite respond_text_run; [|now repeat apply answers_sent|exact Hg
                                |exact Hl|exact Hna|exact Hni].
    split; [reflexivity|].
    cbn [wire invoked sent ran_graph]. rewrite <- !app_assoc.
    split; reflexivity.
  - intros e Hg.
    eexists. unfold whatsapp_message_handler. rewrite Hh.
    unfold respond. unfold tbind at 1.
    change (net_graph (sent _ (sent _ net))) with (net_graph net).
    rewrite Hg.
    split; [reflexivity|].
    cbn [wire invoked sent ran_graph]. rewrite <- !app_assoc.
    split; reflexivity.
Qed.

(** A message whose type is not [audio], [image] or [text] (a sticker, a
    location, a video) is marked as read, gets the thinking face and the
    apology, and ["Unsupported type"] with status 200; the graph does not
    run and no check mark follows. *)
Theorem webhook_unsupported_type
    (data : json) (mfields : list (string * json))
    (from_number message_id message_type : json) (net : Net) :
  incoming data mfields from_number message_id message_type ->
  message_type <> JStr "audio" -> message_type <> JStr "image" ->
  message_type <> JStr "text" ->
  answers net ->
  exists net',
    whatsapp_message_handler (Done data) net
    = (mkResponse (Some "Unsupported type") 200, net')
    /\ wire net'
       = (wire net
            ++ [read_request net message_id;
                reaction_request net from_number message_id "🤔";
                text_request net from_number
                  "Sorry, I can't handle this message type yet."])%list
    /\ invoked net' = invoked net.
Proof.
  intros Hin Hna Hni Hnt Ha.
  assert (Hs : forall s, message_type <> JStr s ->
                         is_str s message_type = false).
  { intros s Hne. destruct message_type; try reflexivity.
    cbn [is_str]. apply String.eqb_neq. congruence. }
  eexists. unfold whatsapp_message_handler.
  rewrite (handle_webhook_incoming _ _ _ _ _ _ Hin).
  unfold handle_message.
  erewrite tbind_Done. 2:{ now apply mark_as_read_run. }
  rewrite (Hs _ Hna), (Hs _ Hni), (Hs _ Hnt).
  erewrite tbind_Done.
  2:{ apply send_reaction_run. now apply answers_sent. }
  erewrite tbind_Done.
  2:{ apply send_text_run. now repeat apply answers_sent. }
  split; [reflexivity|].
  cbn [wire invoked sent]. rewrite <- !app_assoc. split; reflexivity.
Qed.


Lemma raise_for_status_success res net :
  success res -> raise_for_status res net = (Done tt, net).
Proof.
  intros [H1 H2]. unfold raise_for_status.
  apply Nat.leb_le in H1. apply Nat.ltb_lt in H2. now rewrite H1, H2.
Qed.

Lemma raise_for_status_failure res net :
  res_status res < 200 \/ 300 <= res_status res ->
  raise_for_status res net
  = (Fail (PyHTTPStatusError (res_status res)), net).
Proof.
  intros H. unfold raise_for_status.
  destruct ((200 <=? res_status res)%nat && (res_status res <? 300)%nat)
    eqn:E; [|reflexivity].
  apply andb_true_iff in E as [E1 E2].
  apply Nat.leb_le in E1. apply Nat.ltb_lt in E2. lia.
Qed.

Lemma serves_sent req net media_id url bytes :
  serves net media_id url bytes -> serves (sent req net) media_id url bytes.
Proof. intros H n. exact (H n). Qed.

Lemma accepts_uploads_sent req net media_id :
  accepts_uploads net media_id -> accepts_uploads (sent req net) media_id.
Proof. intros H n c m. exact (H n c m). Qed.

Lemma accepts_uploads_ran_graph t c net media_id :
  accepts_uploads net media_id ->
  accepts_uploads (ran_graph t c net) media_id.
Proof. intros H n c' m. exact (H n c' m). Qed.

Lemma refuses_uploads_sent req net status :
  refuses_uploads net status -> refuses_uploads (sent req net) status.
Proof. intros H n c m. exact (H n c m). Qed.

Lemma refuses_uploads_ran_graph t c net status :
  refuses_uploads net status -> refuses_uploads (ran_graph t c net) status.
Proof. intros H n c' m. exact (H n c' m). Qed.

Lemma download_media_run media_id url bytes net :
  serves net media_id url bytes ->
  download_media (JStr media_id) net
  = (Done bytes,
     sent (GetUrl url (client_headers net))
       (sent (GetUrl (media_url media_id) (client_headers net)) net)).
Proof.
  intros H. unfold download_media. cbn [py_format].
  fold (media_url media_id).
  destruct (H (length (wire net))) as [(meta & Hm & Hs & Hu) _].
  unfold tbind at 1. unfold http_call at 1. rewrite Hm.
  unfold tbind at 1. rewrite (raise_for_status_success _ _ Hs).
  destruct (res_json meta) as [body|e] eqn:Eb; cbn [obind] in Hu;
    [|discriminate].
  unfold tbind at 1. unfold tlift at 1.
  unfold tbind at 1. unfold tlift at 1. rewrite Hu.
  destruct (H (length (wire (sent (GetUrl (media_url media_id)
                                      (client_headers net)) net))))
    as [_ (media & Hg & Hs' & Hc)].
  unfold tbind at 1. unfold http_call at 1.
  change (net_http (sent _ net)) with (net_http net). rewrite Hg.
  unfold tbind at 1. rewrite (raise_for_status_success _ _ Hs').
  unfold tret. now rewrite Hc.
Qed.

Lemma send_media_run to content msg_type media_id net :
  msg_type = "audio" \/ msg_type = "image" ->
  accepts_uploads net media_id -> answers net ->
  send_message to content msg_type net
  = (Done tt,
     sent (media_request net to msg_type media_id)
       (sent (upload_request net content
                (if String.eqb msg_type "audio" then "audio/mpeg"
                 else "image/png")) net)).
Proof.
  intros Hm Hu Ha.
  set (mime := if String.eqb msg_type "audio" then "audio/mpeg"
               else "image/png").
  assert (Hs : send_message to content msg_type net
               = tbind (_upload_media content mime)
                       (fun media_id =>
                          tbind (_post "messages"
                                   (message_payload to msg_type
                                      (JObj [("id", media_id)])))
                                (fun _ => tret tt)) net).
  { unfold send_message, mime. destruct Hm as [-> | ->]; reflexivity. }
  rewrite Hs. clear Hs.
  destruct (Hu (length (wire net)) content mime) as (res & Hr & Hok & Hid).
  assert (Hup : _upload_media content mime net
                = (Done media_id, sent (upload_request net content mime) net)).
  { unfold _upload_media. unfold tbind at 1. unfold http_call at 1.
    rewrite Hr. unfold tbind at 1.
    rewrite (raise_for_status_success _ _ Hok).
    destruct (res_json res) as [body|e]; cbn [obind] in Hid; [|discriminate].
    unfold tbind, tlift. now rewrite Hid. }
  rewrite (tbind_Done _ _ _ _ _ Hup).
  unfold tbind. rewrite _post_run.
  destruct (Ha (length (wire (sent (upload_request net content mime) net)))
              (PostJson (base_url net ++ "/" ++ "messages")
                 (client_headers net)
                 (message_payload to msg_type (JObj [("id", media_id)]))))
    as [r Hr'].
  change (net_http (sent _ net)) with (net_http net).
  change (base_url (sent _ net)) with (base_url net).
  change (client_headers (sent _ net)) with (client_headers net).
  rewrite Hr'. reflexivity.
Qed.

Lemma send_media_refused to content msg_type status net :
  msg_type = "audio" \/ msg_type = "image" ->
  refuses_uploads net status -> status < 200 \/ 300 <= status ->
  send_message to content msg_type net
  = (Fail (PyHTTPStatusError status),
     sent (upload_request net content
             (if String.eqb msg_type "audio" then "audio/mpeg"
              else "image/png")) net).
Proof.
  intros Hm Hu Hbad.
  set (mime := if String.eqb msg_type "audio" then "audio/mpeg"
               else "image/png").
  assert (Hs : send_message to content msg_type net
               = tbind (_upload_media content mime)
                       (fun media_id =>
                          tbind (_post "messages"
                                   (message_payload to msg_type
                                      (JObj [("id", media_id)])))
                                (fun _ => tret tt)) net).
  { unfold send_message, mime. destruct Hm as [-> | ->]; reflexivity. }
  rewrite Hs. clear Hs.
  destruct (Hu (length (wire net)) content mime) as (res & Hr & Hst).
  apply tbind_Fail.
  unfold _upload_media. unfold tbind at 1. unfold http_call at 1.
  rewrite Hr. unfold tbind at 1.
  rewrite raise_for_status_failure by (rewrite Hst; exact Hbad).
  now rewrite Hst.
Qed.

Lemma handle_message_acked message from_number message_id message_type net :
  answers net ->
  exists emoji,
    emoji = (if is_str "image" message_type then "👀"
             else if is_str "audio" message_type then "👂" else "🤔")
    /\ handle_message message from_number message_id message_type net
       = (if is_str "audio" message_type then
            tbind (audio_content message)
                  (fun content => respond from_number message_id content)
          else if is_str "image" message_type then
            tbind (image_content message)
                  (fun content => respond from_number message_id content)
          else if is_str "text" message_type then
            tbind (tlift (obind (py_item "text" message) (py_item "body")))
                  (fun content => respond from_number message_id content)
          else
            tbind (send_message from_number
                     "Sorry, I can't handle this message type yet." "text")
                  (fun _ => tret (mkResponse (Some "Unsupported type") 200)))
           (sent (reaction_request net from_number message_id emoji)
              (sent (read_request net message_id) net)).
Proof.
  intros Ha. eexists. split; [reflexivity|].
  unfold handle_message.
  erewrite tbind_Done. 2:{ now apply mark_as_read_run. }
  erewrite tbind_Done.
  2:{ apply send_reaction_run. now apply answers_sent. }
  reflexivity.
Qed.

(** An image message with a caption, on a server that answers every request
    and serves the media.  The handler marks the message as read, reacts
    with the eyes, fetches the metadata of the media and then the media,
    and runs the graph once on the marked content: the caption, or
    ["What is this?"] for a blank one, with the analysis of the downloaded
    bytes, which was asked that same question; when the analysis fails the
    turn goes on with the note that it failed.  The text answer of the
    graph and the check mark follow. *)
Theorem webhook_image_turn
    (data : json) (mfields ifields : list (string * json))
    (from_number message_id : json) (media_id url bytes caption : string)
    (st : OutputState) (reply : string) (net : Net) :
  let user_question :=
    if is_blank caption then "What is this?" else caption in
  let analysis :=
    analyze_image (net_vision net) (ImageBytes bytes) user_question in
  let content := JStr (whatsapp_image_content caption (as_result analysis)) in
  incoming data mfields from_number message_id (JStr "image") ->
  assoc "image" mfields = Some (JObj ifields) ->
  assoc "id" ifields = Some (JStr media_id) ->
  caption_is ifields caption ->
  answers net ->
  serves net media_id url bytes ->
  net_graph net from_number content = Done st ->
  last (st_messages st) = Some reply ->
  st_workflow st <> Some "audio" -> st_workflow st <> Some "image" ->
  (exists net',
     whatsapp_message_handler (Done data) net
     = (mkResponse (Some "Processed") 200, net')
     /\ wire net'
        = (wire net
             ++ [read_request net message_id;
                 reaction_request net from_number message_id "👀";
                 GetUrl (media_url media_id) (client_headers net);
                 GetUrl url (client_headers net);
                 text_request net from_number reply;
                 reaction_request net from_number message_id "✅"])%list
     /\ invoked net' = (invoked net ++ [(from_number, content)])%list)
  /\ (forall e,
        analysis = Fail e ->
        content
        = JStr ("[USER_SENT_IMAGE] " ++ user_question ++ newline ++ newline
                  ++ "[Image Analysis: Failed to analyze]"))
  /\ (forall description,
        analysis = Done description ->
        content
        = JStr ("[USER_SENT_IMAGE] " ++ user_question ++ newline ++ newline
                  ++ "[Image Analysis: " ++ description ++ "]")).
Proof.
  intros user_question analysis content Hin Himg Hid Hcap Ha Hsv Hg Hl
         Hna Hni.
  split; [|split].
  - eexists. unfold whatsapp_message_handler.
    rewrite (handle_webhook_incoming _ _ _ _ _ _ Hin).
    destruct (handle_message_acked (JObj mfields) from_number message_id
                (JStr "image") net Ha) as (emoji & -> & ->).
    cbn [is_str String.eqb Ascii.eqb Bool.eqb].
    set (net2 := sent _ (sent _ net)).
    assert (Hc : image_content (JObj mfields) net2
                 = (Done content,
                    sent (GetUrl url (client_headers net))
                      (sent (GetUrl (media_url media_id) (client_headers net))
                         net2))).
    { unfold image_content.
      unfold tbind at 1. unfold tlift at 1. cbn [py_get]. rewrite Himg.
      cbn [from_option id].
      unfold tbind at 1. unfold tlift at 1. cbn [py_get].
      assert (Hq : default (JStr "") (assoc "caption" ifields) = JStr caption).
      { destruct Hcap as [[-> ->]| ->]; reflexivity. }
      rewrite Hq.
      unfold tbind at 1. unfold tlift at 1.
      unfold tbind at 1. unfold tlift at 1.
      cbn [py_item obind]. rewrite Himg. cbn [obind py_item]. rewrite Hid.
      erewrite tbind_Done.
      2:{ apply download_media_run. unfold net2.
          repeat apply serves_sent. exact Hsv. }
      reflexivity. }
    rewrite (tbind_Done _ _ _ _ _ Hc).
    erewrite respond_text_run;
      [|unfold net2; now repeat apply answers_sent|exact Hg|exact Hl
       |exact Hna|exact Hni].
    split; [reflexivity|].
    unfold net2. cbn [wire invoked sent ran_graph]. rewrite <- !app_assoc.
    split; reflexivity.
  - intros e He. unfold content. rewrite He.
    unfold whatsapp_image_content. cbn [as_result].
    fold user_question. now rewrite !append_assoc.
  - intros d Hd. unfold content. rewrite Hd.
    unfold whatsapp_image_content. cbn [as_result].
    fold user_question. now rewrite !append_assoc.
Qed.

(** A voice note on a server that answers every request and serves the
    media.  The handler marks the message as read, reacts with the ear and
    downloads the audio; when the transcription succeeds the graph runs
    once on the transcript and its text answer and the check mark follow;
    when the transcription fails the handler answers 500, the graph has
    not run and nothing is sent after the download. *)
Theorem webhook_voice_turn
    (data : json) (mfields afields : list (string * json))
    (from_number message_id : json) (media_id url bytes : string)
    (net : Net) :
  incoming data mfields from_number message_id (JStr "audio") ->
  assoc "audio" mfields = Some (JObj afields) ->
  assoc "id" afields = Some (JStr media_id) ->
  answers net ->
  serves net media_id url bytes ->
  (forall transcript st reply,
     net_transcribe net bytes = Done transcript ->
     net_graph net from_number (JStr transcript) = Done st ->
     last (st_messages st) = Some reply ->
     st_workflow st <> Some "audio" -> st_workflow st <> Some "image" ->
     exists net',
       whatsapp_message_handler (Done data) net
       = (mkResponse (Some "Processed") 200, net')
       /\ wire net'
          = (wire net
               ++ [read_request net message_id;
                   reaction_request net from_number message_id "👂";
                   GetUrl (media_url media_id) (client_headers net);
                   GetUrl url (client_headers net);
                   text_request net from_number reply;
                   reaction_request net from_number message_id "✅"])%list
       /\ invoked net'
          = (invoked net ++ [(from_number, JStr transcript)])%list)
  /\ (forall e,
        net_transcribe net bytes = Fail e ->
        exists net',
          whatsapp_message_handler (Done data) net
          = (mkResponse (Some "Internal Error") 500, net')
          /\ wire net'
             = (wire net
                  ++ [read_request net message_id;
                      reaction_request net from_number message_id "👂";
                      GetUrl (media_url media_id) (client_headers net);
                      GetUrl url (client_headers net)])%list
          /\ invoked net' = invoked net).
Proof.
  intros Hin Haud Hid Ha Hsv.
  assert (Hh : handle_webhook (Done data) net
               = tbind (audio_content (JObj mfields))
                       (fun content => respond from_number message_id content)
                       (sent (reaction_request net from_number message_id "👂")
                          (sent (read_request net message_id) net))).
  { rewrite (handle_webhook_incoming _ _ _ _ _ _ Hin).
    destruct (handle_message_acked (JObj mfields) from_number message_id
                (JStr "audio") net Ha) as (emoji & -> & ->).
    reflexivity. }
  set (net2 := sent _ (sent _ net)) in Hh.
  assert (Hc : audio_content (JObj mfields) net2
               = (match net_transcribe net bytes with
                  | Done t => Done (JStr t)
                  | Fail e => Fail e
                  end,
                  sent (GetUrl url (client_headers net))
                    (sent (GetUrl (media_url media_id) (client_headers net))
                       net2))).
  { unfold audio_content.
    unfold tbind at 1. unfold tlift at 1.
    cbn [py_item obind]. rewrite Haud. cbn [obind py_item]. rewrite Hid.
    erewrite tbind_Done.
    2:{ apply download_media_run. unfold net2. repeat apply serves_sent.
        exact Hsv. }
    unfold tbind.
    change (net_transcribe (sent _ (sent _ net2))) with (net_transcribe net).
    destruct (net_transcribe net bytes); reflexivity. }
  split.
  - intros transcript st reply Ht Hg Hl Hna Hni.
    eexists. unfold whatsapp_message_handler. rewrite Hh.
    erewrite tbind_Done. 2:{ rewrite Hc, Ht. reflexivity. }
    erewrite respond_text_run;
      [|unfold net2; now repeat apply answers_sent|exact Hg|exact Hl
       |exact Hna|exact Hni].
    split; [reflexivity|].
    unfold net2. cbn [wire invoked sent ran_graph]. rewrite <- !app_assoc.
    split; reflexivity.
  - intros e Ht.
    eexists. unfold whatsapp_message_handler. rewrite Hh.
    erewrite tbind_Fail. 2:{ rewrite Hc, Ht. reflexivity. }
    split; [reflexivity|].
    unfold net2. cbn [wire invoked sent]. rewrite <- !app_assoc.
    split; reflexivity.
Qed.


Lemma handle_text_run data mfields tfields from_number message_id body net :
  incoming data mfields from_number message_id (JStr "text") ->
  assoc "text" mfields = Some (JObj tfields) ->
  assoc "body" tfields = Some body ->
  answers net ->
  handle_webhook (Done data) net
  = respond from_number message_id body
      (sent (reaction_request net from_number message_id "🤔")
         (sent (read_request net message_id) net)).
Proof.
  intros Hin Htext Hbody Ha.
  rewrite (handle_webhook_incoming _ _ _ _ _ _ Hin).
  destruct (handle_message_acked (JObj mfields) from_number message_id
              (JStr "text") net Ha) as (emoji & -> & ->).
  cbn [is_str String.eqb Ascii.eqb Bool.eqb].
  unfold tbind at 1. unfold tlift.
  cbn [py_item obind]. rewrite Htext. cbn [obind py_item].
  now rewrite Hbody.
Qed.

(** A text message answered with media, on a server that answers every
    request.  For an image answer the handler uploads the bytes of the
    image file as [image/png], posts the image by the id of the upload and
    then the text of the answer as a message of its own, unless that text
    is empty; for an audio answer it uploads the buffer as [audio/mpeg] and
    posts the audio, and the text of the answer is not sent.  The check
    mark follows.  When WhatsApp refuses the upload the handler answers
    500: the user has the blue ticks and the thinking face, and neither the
    media, nor the text, nor the check mark. *)
Theorem webhook_media_reply
    (data : json) (mfields tfields : list (string * json))
    (from_number message_id body : json) (st : OutputState)
    (reply : string) (net : Net) :
  incoming data mfields from_number message_id (JStr "text") ->
  assoc "text" mfields = Some (JObj tfields) ->
  assoc "body" tfields = Some body ->
  answers net ->
  net_graph net from_number body = Done st ->
  last (st_messages st) = Some reply ->
  (forall media_id image_path image_data,
     accepts_uploads net media_id ->
     st_workflow st = Some "image" ->
     st_image_path st = Some image_path ->
     net_open net image_path = Done image_data ->
     exists net',
       whatsapp_message_handler (Done data) net
       = (mkResponse (Some "Processed") 200, net')
       /\ wire net'
          = (wire net
               ++ [read_request net message_id;
                   reaction_request net from_number message_id "🤔";
                   upload_request net image_data "image/png";
                   media_request net from_number "image" media_id]
               ++ (if String.eqb reply "" then []
                   else [text_request net from_number reply])
               ++ [reaction_request net from_number message_id "✅"])%list)
  /\ (forall media_id audio,
        accepts_uploads net media_id ->
        st_workflow st = Some "audio" ->
        st_audio_buffer st = Some audio ->
        exists net',
          whatsapp_message_handler (Done data) net
          = (mkResponse (Some "Processed") 200, net')
          /\ wire net'
             = (wire net
                  ++ [read_request net message_id;
                      reaction_request net from_number message_id "🤔";
                      upload_request net audio "audio/mpeg";
                      media_request net from_number "audio" media_id;
                      reaction_request net from_number message_id "✅"])%list)
  /\ (forall status image_path image_data,
        refuses_uploads net status -> status < 200 \/ 300 <= status ->
        st_workflow st = Some "image" ->
        st_image_path st = Some image_path ->
        net_open net image_path = Done image_data ->
        exists net',
          whatsapp_message_handler (Done data) net
          = (mkResponse (Some "Internal Error") 500, net')
          /\ wire net'
             = (wire net
                  ++ [read_request net message_id;
                      reaction_request net from_number message_id "🤔";
                      upload_request net image_data "image/png"])%list).
Proof.
  intros Hin Htext Hbody Ha Hg Hl.
  pose proof (handle_text_run _ _ _ _ _ _ _ Hin Htext Hbody Ha) as Hh.
  set (net2 := sent _ (sent _ net)) in Hh.
  assert (Ha2 : answers (ran_graph from_number body net2)).
  { unfold net2. now apply answers_ran_graph, answers_sent, answers_sent. }
  split; [|split].
  - intros media_id image_path image_data Hup Hw Hp Ho.
    assert (Hup2 : accepts_uploads (ran_graph from_number body net2) media_id).
    { unfold net2. now apply accepts_uploads_ran_graph,
        accepts_uploads_sent, accepts_uploads_sent. }
    destruct (String.eqb reply "") eqn:Er.
    + eexists. unfold whatsapp_message_handler. rewrite Hh.
      unfold respond. unfold tbind at 1.
      change (net_graph net2) with (net_graph net). rewrite Hg.
      unfold tbind at 1. unfold tlift at 1. rewrite Hl, Hw.
      cbn [from_option id String.eqb Ascii.eqb Bool.eqb].
      rewrite Er. cbn [negb].
      erewrite tbind_Done.
      2:{ erewrite tbind_Done. 2:{ unfold tlift. rewrite Hp. reflexivity. }
          erewrite tbind_Done.
          2:{ cbv beta.
              change (net_open (ran_graph from_number body net2))
                with (net_open net).
              rewrite Ho. reflexivity. }
          erewrite tbind_Done.
          2:{ apply (send_media_run _ _ "image" media_id);
                [now right|exact Hup2|exact Ha2]. }
          reflexivity. }
      erewrite tbind_Done.
      2:{ apply send_reaction_run. now repeat apply answers_sent. }
      split; [reflexivity|].
      unfold net2. cbn [wire invoked sent ran_graph app].
      rewrite <- !app_assoc. reflexivity.
    + eexists. unfold whatsapp_message_handler. rewrite Hh.
      unfold respond. unfold tbind at 1.
      change (net_graph net2) with (net_graph net). rewrite Hg.
      unfold tbind at 1. unfold tlift at 1. rewrite Hl, Hw.
      cbn [from_option id String.eqb Ascii.eqb Bool.eqb].
      rewrite Er. cbn [negb].
      erewrite tbind_Done.
      2:{ erewrite tbind_Done. 2:{ unfold tlift. rewrite Hp. reflexivity. }
          erewrite tbind_Done.
          2:{ cbv beta.
              change (net_open (ran_graph from_number body net2))
                with (net_open net).
              rewrite Ho. reflexivity. }
          erewrite tbind_Done.
          2:{ apply (send_media_run _ _ "image" media_id);
                [now right|exact Hup2|exact Ha2]. }
          apply send_text_run. now repeat apply answers_sent. }
      erewrite tbind_Done.
      2:{ apply send_reaction_run. now repeat apply answers_sent. }
      split; [reflexivity|].
      unfold net2. cbn [wire invoked sent ran_graph app].
      rewrite <- !app_assoc. reflexivity.
  - intros media_id audio Hup Hw Hb.
    assert (Hup2 : accepts_uploads (ran_graph from_number body net2) media_id).
    { unfold net2. now apply accepts_uploads_ran_graph,
        accepts_uploads_sent, accepts_uploads_sent. }
    eexists. unfold whatsapp_message_handler. rewrite Hh.
    unfold respond. unfold tbind at 1.
    change (net_graph net2) with (net_graph net). rewrite Hg.
    unfold tbind at 1. unfold tlift at 1. rewrite Hl, Hw.
    cbn [from_option id String.eqb Ascii.eqb Bool.eqb].
    erewrite tbind_Done.
    2:{ erewrite tbind_Done. 2:{ unfold tlift. rewrite Hb. reflexivity. }
        apply (send_media_run _ _ "audio" media_id);
          [now left|exact Hup2|exact Ha2]. }
    erewrite tbind_Done.
    2:{ apply send_reaction_run. now repeat apply answers_sent. }
    split; [reflexivity|].
    unfold net2. cbn [wire invoked sent ran_graph app].
    rewrite <- !app_assoc. reflexivity.
  - intros status image_path image_data Hre Hbad Hw Hp Ho.
    assert (Hre2 : refuses_uploads (ran_graph from_number body net2) status).
    { unfold net2. now apply refuses_uploads_ran_graph,
        refuses_uploads_sent, refuses_uploads_sent. }
    eexists. unfold whatsapp_message_handler. rewrite Hh.
    unfold respond. unfold tbind at 1.
    change (net_graph net2) with (net_graph net). rewrite Hg.
    unfold tbind at 1. unfold tlift at 1. rewrite Hl, Hw.
    cbn [from_option id String.eqb Ascii.eqb Bool.eqb].
    erewrite tbind_Fail.
    2:{ erewrite tbind_Done. 2:{ unfold tlift. rewrite Hp. reflexivity. }
        erewrite tbind_Done.
        2:{ cbv beta.
            change (net_open (ran_graph from_number body net2))
              with (net_open net).
            rewrite Ho. reflexivity. }
        apply tbind_Fail.
        apply (send_media_refused _ _ "image" status);
          [now right|exact Hre2|exact Hbad]. }
    split; [reflexivity|].
    unfold net2. cbn [wire invoked sent ran_graph app].
    rewrite <- !app_assoc. reflexivity.
Qed.


(** ** What a webhook call can do, on any server *)

Lemma tbind_inv {A B} (m : T A) (k : A -> T B) net r net' :
  tbind m k net = (r, net') ->
  (exists a n1, m net = (Done a, n1) /\ k a n1 = (r, net'))
  \/ (exists e, m net = (Fail e, net') /\ r = Fail e).
Proof.
  unfold tbind. destruct (m net) as [[a|e] n1]; intros H.
  - left. eauto.
  - right. injection H as <- <-. eauto.
Qed.

Lemma grew_refl net : grew net net [] [].
Proof.
  unfold grew, same_oracles. rewrite !app_nil_r. repeat split; reflexivity.
Qed.

Lemma grew_sent req net : grew net (sent req net) [req] [].
Proof.
  unfold grew, same_oracles. cbn [sent wire invoked]. rewrite app_nil_r.
  repeat split; reflexivity.
Qed.

Lemma grew_ran_graph t c net : grew net (ran_graph t c net) [] [(t, c)].
Proof.
  unfold grew, same_oracles. cbn [ran_graph wire invoked]. rewrite app_nil_r.
  repeat split; reflexivity.
Qed.

Lemma grew_trans a b c r1 g1 r2 g2 :
  grew a b r1 g1 -> grew b c r2 g2 ->
  grew a c (r1 ++ r2)%list (g1 ++ g2)%list.
Proof.
  intros ((E1 & E2 & E3 & E4 & E5 & E6 & E7) & W1 & I1)
         ((F1 & F2 & F3 & F4 & F5 & F6 & F7) & W2 & I2).
  unfold grew, same_oracles.
  rewrite W2, W1, I2, I1, !app_assoc.
  repeat split; congruence.
Qed.

Lemma grew_then a b c r1 g1 r2 :
  grew a b r1 g1 -> grew b c r2 [] -> grew a c (r1 ++ r2)%list g1.
Proof.
  intros H1 H2. pose proof (grew_trans _ _ _ _ _ _ _ H1 H2) as H.
  now rewrite app_nil_r in H.
Qed.

Lemma post_messages_grew a b r g body :
  grew a b r g -> post_messages b body = post_messages a body.
Proof.
  intros ((E & _) & _).
  unfold post_messages, base_url, client_headers, authorization, client_token.
  now rewrite E.
Qed.

Lemma _post_any endpoint body net r net' :
  _post endpoint body net = (r, net') ->
  grew net net'
    [PostJson (base_url net ++ "/" ++ endpoint) (client_headers net) body] [].
Proof. rewrite _post_run. intros [= _ <-]. apply grew_sent. Qed.

Lemma mark_as_read_any message_id net r net' :
  mark_as_read message_id net = (r, net') ->
  grew net net' [read_request net message_id] [].
Proof.
  unfold mark_as_read. intros H.
  apply tbind_inv in H as [(a & n1 & H1 & H)|(e & H1 & _)].
  - injection H as _ <-. exact (_post_any _ _ _ _ _ H1).
  - exact (_post_any _ _ _ _ _ H1).
Qed.

Lemma send_reaction_any to message_id emoji net r net' :
  send_reaction to message_id emoji net = (r, net') ->
  grew net net' [reaction_request net to message_id emoji] [].
Proof.
  unfold send_reaction. intros H.
  apply tbind_inv in H as [(a & n1 & H1 & H)|(e & H1 & _)].
  - injection H as _ <-. exact (_post_any _ _ _ _ _ H1).
  - exact (_post_any _ _ _ _ _ H1).
Qed.

Lemma http_call_any req net r net' :
  http_call req net = (r, net') -> grew net net' [req] [].
Proof. intros [= _ <-]. apply grew_sent. Qed.

Lemma raise_for_status_any res net r net' :
  raise_for_status res net = (r, net') -> net' = net.
Proof.
  unfold raise_for_status.
  destruct (_ && _); now intros [= _ <-].
Qed.

Lemma tlift_any {A} (x : outcome A) net r net' :
  tlift x net = (r, net') -> r = x /\ net' = net.
Proof. now intros [= <- <-]. Qed.

Lemma _upload_media_any content mime_type net r net' :
  _upload_media content mime_type net = (r, net') ->
  exists reqs, grew net net' reqs [].
Proof.
  unfold _upload_media. intros H.
  apply tbind_inv in H as [(res & n1 & H1 & H)|(e & H1 & _)];
    apply http_call_any in H1; [|eauto].
  apply tbind_inv in H as [(u & n2 & H2 & H)|(e & H2 & _)];
    apply raise_for_status_any in H2; subst; [|eauto].
  apply tbind_inv in H as [(body & n3 & H3 & H)|(e & H3 & _)];
    apply tlift_any in H3 as [_ ->]; [|eauto].
  apply tlift_any in H as [_ ->]. eauto.
Qed.

Lemma send_message_any to content msg_type net r net' :
  send_message to content msg_type net = (r, net') ->
  exists reqs, grew net net' reqs [].
Proof.
  unfold send_message. destruct (String.eqb msg_type "text").
  - intros H.
    apply tbind_inv in H as [(a & n1 & H1 & H)|(e & H1 & _)];
      apply _post_any in H1; [|eauto].
    injection H as _ <-. eauto.
  - destruct (_ || _).
    + intros H.
      apply tbind_inv in H as [(m & n1 & H1 & H)|(e & H1 & _)];
        apply _upload_media_any in H1 as [reqs1 G1]; [|eauto].
      apply tbind_inv in H as [(a & n2 & H2 & H)|(e & H2 & _)];
        apply _post_any in H2.
      * injection H as _ <-. eexists. exact (grew_then _ _ _ _ _ _ G1 H2).
      * eexists. exact (grew_then _ _ _ _ _ _ G1 H2).
    + intros [= _ <-]. exists []. apply grew_refl.
Qed.

Lemma download_media_any media_id net r net' :
  download_media media_id net = (r, net') ->
  exists reqs, grew net net' reqs [].
Proof.
  unfold download_media. intros H.
  apply tbind_inv in H as [(res & n1 & H1 & H)|(e & H1 & _)];
    apply http_call_any in H1; [|eauto].
  apply tbind_inv in H as [(u & n2 & H2 & H)|(e & H2 & _)];
    apply raise_for_status_any in H2; subst; [|eauto].
  apply tbind_inv in H as [(body & n3 & H3 & H)|(e & H3 & _)];
    apply tlift_any in H3 as [_ ->]; [|eauto].
  apply tbind_inv in H as [(url & n4 & H4 & H)|(e & H4 & _)];
    apply tlift_any in H4 as [_ ->]; [|eauto].
  destruct url as [[| | |url| |]|];
    try (apply tlift_any in H as [_ ->]; eauto).
  apply tbind_inv in H as [(media & n5 & H5 & H)|(e & H5 & _)];
    apply http_call_any in H5.
  2:{ eexists. exact (grew_then _ _ _ _ _ _ H1 H5). }
  apply tbind_inv in H as [(u' & n6 & H6 & H)|(e & H6 & _)];
    apply raise_for_status_any in H6; subst.
  2:{ eexists. exact (grew_then _ _ _ _ _ _ H1 H5). }
  injection H as _ <-. eexists. exact (grew_then _ _ _ _ _ _ H1 H5).
Qed.

Lemma audio_content_any message net r net' :
  audio_content message net = (r, net') ->
  exists reqs, grew net net' reqs [].
Proof.
  unfold audio_content. intros H.
  apply tbind_inv in H as [(m & n1 & H1 & H)|(e & H1 & _)];
    apply tlift_any in H1 as [_ ->]; [|exists []; apply grew_refl].
  apply tbind_inv in H as [(b & n2 & H2 & H)|(e & H2 & _)];
    apply download_media_any in H2 as [reqs G]; [|eauto].
  apply tbind_inv in H as [(c & n3 & H3 & H)|(e & H3 & _)].
  - injection H3 as _ <-. injection H as _ <-. eauto.
  - injection H3 as _ <-. eauto.
Qed.

Lemma image_content_any message net r net' :
  image_content message net = (r, net') ->
  exists reqs, grew net net' reqs [].
Proof.
  unfold image_content. intros H.
  apply tbind_inv in H as [(im & n1 & H1 & H)|(e & H1 & _)];
    apply tlift_any in H1 as [_ ->]; [|exists []; apply grew_refl].
  apply tbind_inv in H as [(cap & n2 & H2 & H)|(e & H2 & _)];
    apply tlift_any in H2 as [_ ->]; [|exists []; apply grew_refl].
  apply tbind_inv in H as [(s & n3 & H3 & H)|(e & H3 & _)];
    apply tlift_any in H3 as [_ ->]; [|exists []; apply grew_refl].
  apply tbind_inv in H as [(m & n4 & H4 & H)|(e & H4 & _)];
    apply tlift_any in H4 as [_ ->]; [|exists []; apply grew_refl].
  apply tbind_inv in H as [(b & n5 & H5 & H)|(e & H5 & _)];
    apply download_media_any in H5 as [reqs G]; [|eauto].
  injection H as _ <-. eauto.
Qed.

Lemma respond_any from_number message_id content net r net' :
  respond from_number message_id content net = (r, net') ->
  exists reqs,
    grew net net' reqs [(from_number, content)]
    /\ forall response,
         r = Done response ->
         response = PROCESSED
         /\ last reqs
            = Some (reaction_request net from_number message_id "✅").
Proof.
  unfold respond. intros H.
  apply tbind_inv in H as [(st & n1 & H1 & H)|(e & H1 & ->)].
  2:{ injection H1 as _ <-. exists [].
      split; [apply grew_ran_graph|discriminate]. }
  injection H1 as _ <-.
  apply tbind_inv in H as [(txt & n2 & H2 & H)|(e & H2 & ->)];
    apply tlift_any in H2 as [_ ->].
  2:{ exists []. split; [apply grew_ran_graph|discriminate]. }
  apply tbind_inv in H as [(u & n3 & H3 & H)|(e & H3 & ->)].
  - assert (G3 : exists reqs, grew (ran_graph from_number content net) n3
                                reqs []).
    { clear H. destruct (String.eqb _ "audio").
      - apply tbind_inv in H3 as [(a & n & Ha & H3)|(e & Ha & _)];
          apply tlift_any in Ha as [_ ->]; [|exists []; apply grew_refl].
        exact (send_message_any _ _ _ _ _ _ H3).
      - destruct (String.eqb _ "image").
        + apply tbind_inv in H3 as [(p & n & Hp & H3)|(e & Hp & _)];
            apply tlift_any in Hp as [_ ->]; [|exists []; apply grew_refl].
          apply tbind_inv in H3 as [(d & n & Hd & H3)|(e & Hd & _)].
          2:{ injection Hd as _ <-. exists []. apply grew_refl. }
          injection Hd as _ <-.
          apply tbind_inv in H3 as [(a & n & Hs & H3)|(e & Hs & _)];
            apply send_message_any in Hs as [reqs1 G1]; [|eauto].
          destruct (negb _).
          * apply send_message_any in H3 as [reqs2 G2].
            eexists. exact (grew_then _ _ _ _ _ _ G1 G2).
          * injection H3 as _ <-. eauto.
        + exact (send_message_any _ _ _ _ _ _ H3). }
    destruct G3 as [reqs3 G3].
    pose proof (grew_trans _ _ _ _ _ _ _
                  (grew_ran_graph from_number content net) G3) as G.
    cbn [app] in G.
    apply tbind_inv in H as [(a & n4 & H4 & H)|(e & H4 & ->)];
      apply send_reaction_any in H4;
      rewrite (post_messages_grew _ _ _ _ _ G) in H4 ||
      (unfold reaction_request in H4;
       rewrite (post_messages_grew _ _ _ _ _ G) in H4).
    + injection H as <- <-.
      exists (reqs3 ++ [reaction_request net from_number message_id "✅"])%list.
      split; [exact (grew_then _ _ _ _ _ _ G H4)|].
      intros response [= <-]. split; [reflexivity|]. apply last_snoc.
    + eexists. split; [exact (grew_then _ _ _ _ _ _ G H4)|discriminate].
  - assert (G3 : exists reqs, grew (ran_graph from_number content net) net'
                                reqs []).
    { destruct (String.eqb _ "audio").
      - apply tbind_inv in H3 as [(a & n & Ha & H3)|(e' & Ha & _)];
          apply tlift_any in Ha as [_ ->]; [|exists []; apply grew_refl].
        exact (send_message_any _ _ _ _ _ _ H3).
      - destruct (String.eqb _ "image").
        + apply tbind_inv in H3 as [(p & n & Hp & H3)|(e' & Hp & _)];
            apply tlift_any in Hp as [_ ->]; [|exists []; apply grew_refl].
          apply tbind_inv in H3 as [(d & n & Hd & H3)|(e' & Hd & _)].
          2:{ injection Hd as _ <-. exists []. apply grew_refl. }
          injection Hd as _ <-.
          apply tbind_inv in H3 as [(a & n & Hs & H3)|(e' & Hs & _)];
            apply send_message_any in Hs as [reqs1 G1]; [|eauto].
          destruct (negb _).
          * apply send_message_any in H3 as [reqs2 G2].
            eexists. exact (grew_then _ _ _ _ _ _ G1 G2).
          * injection H3 as _ <-. eauto.
        + exact (send_message_any _ _ _ _ _ _ H3). }
    destruct G3 as [reqs3 G3].
    pose proof (grew_trans _ _ _ _ _ _ _
                  (grew_ran_graph from_number content net) G3) as G.
    cbn [app] in G.
    eexists. split; [exact G|discriminate].
Qed.


Lemma last_app_Some {A} (l1 l2 : list A) x :
  last l2 = Some x -> last (l1 ++ l2)%list = Some x.
Proof.
  intros H. destruct l2 as [|y l2] using rev_ind; [discriminate|].
  rewrite last_snoc in H. rewrite app_assoc, last_snoc. exact H.
Qed.

Lemma then_respond_any (m : T json) from_number message_id net r net' :
  (forall r1 n1, m net = (r1, n1) -> exists reqs, grew net n1 reqs []) ->
  tbind m (fun content => respond from_number message_id content) net
  = (r, net') ->
  exists reqs runs,
    grew net net' reqs runs
    /\ (runs = [] \/ exists content, runs = [(from_number, content)])
    /\ forall response,
         r = Done response ->
         response = PROCESSED
         /\ (exists content, runs = [(from_number, content)])
         /\ last reqs
            = Some (reaction_request net from_number message_id "✅").
Proof.
  intros Hm H.
  apply tbind_inv in H as [(c & n1 & H1 & H)|(e & H1 & ->)];
    apply Hm in H1 as [reqs1 G1].
  - apply respond_any in H as (reqs2 & G2 & Hr).
    exists (reqs1 ++ reqs2)%list, [(from_number, c)].
    split; [exact (grew_trans _ _ _ _ _ _ _ G1 G2)|].
    split; [right; eauto|].
    intros response Hd. destruct (Hr _ Hd) as [-> Hl].
    split; [reflexivity|]. split; [eauto|].
    apply last_app_Some. rewrite Hl. unfold reaction_request.
    now rewrite (post_messages_grew _ _ _ _ _ G1).
  - exists reqs1, []. split; [exact G1|]. split; [now left|discriminate].
Qed.

Lemma handle_message_any message from_number message_id message_type net r
    net' :
  handle_message message from_number message_id message_type net = (r, net') ->
  exists reqs runs,
    grew net net' (read_request net message_id :: reqs) runs
    /\ (runs = []
        \/ (exists content, runs = [(from_number, content)])
           /\ 1 <= length reqs)
    /\ forall response,
         r = Done response ->
         (response = PROCESSED
          /\ (exists content, runs = [(from_number, content)])
          /\ last reqs
             = Some (reaction_request net from_number message_id "✅"))
         \/ (response = mkResponse (Some "Unsupported type") 200
             /\ runs = []).
Proof.
  unfold handle_message. intros H.
  apply tbind_inv in H as [(u & n1 & H1 & H)|(e & H1 & ->)];
    apply mark_as_read_any in H1.
  2:{ exists [], []. split; [exact H1|]. split; [now left|discriminate]. }
  set (emoji := if is_str "image" message_type then "👀"
                else if is_str "audio" message_type then "👂" else "🤔")
    in H.
  apply tbind_inv in H as [(u' & n2 & H2 & H)|(e & H2 & ->)];
    apply send_reaction_any in H2;
    pose proof (grew_then _ _ _ _ _ _ H1 H2) as G2; cbn [app] in G2.
  2:{ eexists _, []. split; [exact G2|]. split; [now left|discriminate]. }
  assert (Hresp : forall m : T json,
            (forall r1 n1, m n2 = (r1, n1) ->
                           exists reqs, grew n2 n1 reqs []) ->
            tbind m (fun content => respond from_number message_id content) n2
            = (r, net') ->
            exists reqs runs,
              grew net net' (read_request net message_id :: reqs) runs
              /\ (runs = []
                  \/ (exists content, runs = [(from_number, content)])
                     /\ 1 <= length reqs)
              /\ forall response,
                   r = Done response ->
                   (response = PROCESSED
                    /\ (exists content, runs = [(from_number, content)])
                    /\ last reqs
                       = Some (reaction_request net from_number message_id
                                 "✅"))
                   \/ (response = mkResponse (Some "Unsupported type") 200
                       /\ runs = [])).
  { intros m Hm Hr.
    destruct (then_respond_any _ _ _ _ _ _ Hm Hr)
      as (reqs3 & runs & G3 & Hruns & Hdone).
    pose proof (grew_trans _ _ _ _ _ _ _ G2 G3) as G. cbn [app] in G.
    eexists _, runs. split; [exact G|]. split.
    - destruct Hruns as [->|Hc]; [now left|right].
      split; [exact Hc|]. cbn [length]. lia.
    - intros response Hd. left.
      destruct (Hdone _ Hd) as (-> & Hc & Hl).
      split; [reflexivity|]. split; [exact Hc|].
      change (reaction_request n1 from_number message_id emoji :: reqs3)
        with ([reaction_request n1 from_number message_id emoji] ++ reqs3)%list.
      apply last_app_Some. rewrite Hl. unfold reaction_request.
      now rewrite (post_messages_grew _ _ _ _ _ G2). }
  destruct (is_str "audio" message_type).
  { apply Hresp in H; [exact H|]. intros r1 n Hc.
    exact (audio_content_any _ _ _ _ Hc). }
  destruct (is_str "image" message_type).
  { apply Hresp in H; [exact H|]. intros r1 n Hc.
    exact (image_content_any _ _ _ _ Hc). }
  destruct (is_str "text" message_type).
  { apply Hresp in H; [exact H|]. intros r1 n Hc.
    apply tlift_any in Hc as [_ ->]. exists []. apply grew_refl. }
  clear Hresp.
  apply tbind_inv in H as [(u3 & n3 & H3 & H)|(e & H3 & ->)];
    apply send_message_any in H3 as [reqs3 G3];
    pose proof (grew_then _ _ _ _ _ _ G2 G3) as G; cbn [app] in G.
  - injection H as <- <-. eexists _, []. split; [exact G|].
    split; [now left|]. intros response [= <-]. now right.
  - eexists _, []. split; [exact G|]. split; [now left|discriminate].
Qed.

Lemma handle_webhook_any request_json net r net' :
  handle_webhook request_json net = (r, net') ->
  (net' = net
   /\ forall response,
        r = Done response ->
        status_code response = 200 /\ response <> PROCESSED)
  \/ exists message from_number message_id message_type,
       handle_message message from_number message_id message_type net
       = (r, net').
Proof.
  unfold handle_webhook. intros H.
  apply tbind_inv in H as [(data & n1 & H1 & H)|(e & H1 & ->)];
    apply tlift_any in H1 as [_ ->]; [|left; split; [reflexivity|discriminate]].
  apply tbind_inv in H as [(ch & n1 & H1 & H)|(e & H1 & ->)];
    apply tlift_any in H1 as [_ ->]; [|left; split; [reflexivity|discriminate]].
  destruct ch as [change_value|].
  2:{ injection H as <- <-. left. split; [reflexivity|].
      intros response [= <-]. split; [reflexivity|discriminate]. }
  apply tbind_inv in H as [(b & n1 & H1 & H)|(e & H1 & ->)];
    apply tlift_any in H1 as [_ ->]; [|left; split; [reflexivity|discriminate]].
  destruct b.
  { injection H as <- <-. left. split; [reflexivity|].
    intros response [= <-]. split; [reflexivity|discriminate]. }
  apply tbind_inv in H as [(b & n1 & H1 & H)|(e & H1 & ->)];
    apply tlift_any in H1 as [_ ->]; [|left; split; [reflexivity|discriminate]].
  destruct b.
  2:{ injection H as <- <-. left. split; [reflexivity|].
      intros response [= <-]. split; [reflexivity|discriminate]. }
  unfold handle_messages in H.
  apply tbind_inv in H as [(m & n1 & H1 & H)|(e & H1 & ->)];
    apply tlift_any in H1 as [_ ->]; [|left; split; [reflexivity|discriminate]].
  apply tbind_inv in H as [(f & n1 & H1 & H)|(e & H1 & ->)];
    apply tlift_any in H1 as [_ ->]; [|left; split; [reflexivity|discriminate]].
  apply tbind_inv in H as [(i & n1 & H1 & H)|(e & H1 & ->)];
    apply tlift_any in H1 as [_ ->]; [|left; split; [reflexivity|discriminate]].
  apply tbind_inv in H as [(t & n1 & H1 & H)|(e & H1 & ->)];
    apply tlift_any in H1 as [_ ->]; [|left; split; [reflexivity|discriminate]].
  right. eauto.
Qed.

(** Whatever the body of the request and whatever the surroundings do, a
    call of the webhook answers 200 or 500 with ["Internal Error"], only
    adds requests to the wire, and runs the graph at most once, and then
    only after the blue ticks and the reaction have gone out.  When it
    answers ["Processed"] the graph has run exactly once, under the sender
    of the message as thread, the first request was the blue ticks and the
    last one is the check mark on that message.  Any other answer with
    status 200 means that the graph has not run. *)
Theorem webhook_footprint (request_json : outcome json) (net : Net) :
  forall response net',
    whatsapp_message_handler request_json net = (response, net') ->
    exists reqs runs,
      grew net net' reqs runs
      /\ length runs <= 1
      /\ (runs <> [] -> 2 <= length reqs)
      /\ (status_code response = 200
          \/ response = mkResponse (Some "Internal Error") 500)
      /\ (response = PROCESSED ->
          exists from_number message_id content,
            runs = [(from_number, content)]
            /\ head reqs = Some (read_request net message_id)
            /\ last reqs
               = Some (reaction_request net from_number message_id "✅"))
      /\ (status_code response = 200 -> response <> PROCESSED -> runs = []).
Proof.
  intros response net'. unfold whatsapp_message_handler.
  destruct (handle_webhook request_json net) as [r n] eqn:E.
  apply handle_webhook_any in E as [[-> Hst]|(m & f & i & t & E)].
  - intros H.
    assert (Hs : status_code response = 200 /\ response <> PROCESSED
                 \/ response = mkResponse (Some "Internal Error") 500).
    { destruct r as [resp|e]; [left|right].
      - injection H as <- _. exact (Hst resp eq_refl).
      - now injection H as <- _. }
    assert (net' = net) as -> by (destruct r; now injection H).
    exists [], []. split; [apply grew_refl|].
    split; [cbn; lia|]. split; [congruence|].
    split; [destruct Hs as [[? _]| ->]; auto|].
    split; [|reflexivity].
    intros ->. destruct Hs as [[_ Hn]|Hn]; [now destruct Hn|discriminate].
  - apply handle_message_any in E as (reqs & runs & G & Hruns & Hdone).
    intros H.
    assert (n = net') as -> by (destruct r; now injection H).
    exists (read_request net i :: reqs), runs.
    split; [exact G|].
    split; [destruct Hruns as [->|[[c ->] _]]; cbn; lia|].
    split.
    { intros Hne. destruct Hruns as [->|[_ Hl]]; [congruence|]. cbn. lia. }
    destruct r as [resp|e]; injection H as <-.
    + destruct (Hdone _ eq_refl) as [(-> & [c ->] & Hl)|[-> ->]].
      * split; [now left|]. split; [|intros _ Hn; now destruct Hn].
        intros _. exists f, i, c. split; [reflexivity|].
        split; [reflexivity|].
        change (read_request net i :: reqs)
          with ([read_request net i] ++ reqs)%list.
        now apply last_app_Some.
      * split; [now left|]. split; [discriminate|reflexivity].
    + split; [now right|]. split; [discriminate|].
      cbn [status_code]. discriminate.
Qed.

End Companion.
(** * The properties at work on the small world *)

(** C3 at an assistant message. *)
Lemma C3_skip_witness :
  extract_and_store_memories demo_encode demo_cosine demo_hash demo_format
    (mkMessage "ai" "you study at MIT, nice")
    (demo_world {[COLLECTION_NAME := demo_store]} [] (important "Studies at MIT"))
  = (Ok tt,
     demo_world {[COLLECTION_NAME := demo_store]} [] (important "Studies at MIT")).
Proof.
  apply C3_skip_non_human_or_empty. left. simpl. discriminate.
Defined.

(** C4 at a classifier that times out. *)
Lemma C4_fail_open_witness :
  fst (_analyze_memory demo_format (content demo_message)
         (demo_world ∅ [] (ReplyRaise (OtherException "timeout"))))
  = Ok (mkAnalysis false None)
  /\ exists w',
       extract_and_store_memories demo_encode demo_cosine demo_hash
         demo_format demo_message
         (demo_world ∅ [] (ReplyRaise (OtherException "timeout")))
       = (Ok tt, w')
       /\ collections w' = ∅.
Proof.
  destruct (C4_analysis_failure_fails_open demo_encode demo_cosine demo_hash
              demo_format demo_message
              (demo_world ∅ [] (ReplyRaise (OtherException "timeout"))))
    as (Ha & (w' & Hrun & Hcs & _) & _).
  - left. exists (OtherException "timeout"). reflexivity.
  - split; [exact Ha|]. exists w'. split; [exact Hrun|exact Hcs].
Defined.

(** C1 at "Studied at MIT." (similarity 0.9 to the stored fact) and at
    "Lives in Karachi" (similarity 0.8). *)
Lemma C1_near_duplicate_witness :
  (exists w',
     extract_and_store_memories demo_encode demo_cosine demo_hash
       demo_format demo_message
       (demo_world {[COLLECTION_NAME := demo_store]} []
                   (important "Studied at MIT."))
     = (Ok tt, w')
     /\ points w' = Some demo_store)
  /\ (exists w',
        store_memory demo_encode demo_cosine demo_hash
          "Studied at MIT." (demo_md "id-2")
          (demo_world {[COLLECTION_NAME := demo_store]} []
                      (important "Studied at MIT."))
        = (Ok (<["id" := "id-1"]> (demo_md "id-2")), w')
        /\ stored_text w' "id-1" = Some "Studied at MIT.")
  /\ (exists w',
        extract_and_store_memories demo_encode demo_cosine demo_hash
          demo_format demo_message
          (demo_world {[COLLECTION_NAME := demo_store]} []
                      (important "Lives in Karachi"))
        = (Ok tt, w')
        /\ size (pts w') = 2
        /\ stored_text w' "uuid-0" = Some "Lives in Karachi"
        /\ stored_text w' "id-1" = Some "Studies at MIT").
Proof.
  destruct (C1_near_duplicate_policy demo_encode demo_cosine demo_hash
              demo_format
              (demo_world {[COLLECTION_NAME := demo_store]} []
                          (important "Studied at MIT."))
              demo_store "Studies at MIT" "Studied at MIT." "id-1"
              (demo_md "id-1") (demo_md "id-2") demo_message)
    as [Hge _];
    try (vm_compute; reflexivity); try discriminate.
  destruct (C1_near_duplicate_policy demo_encode demo_cosine demo_hash
              demo_format
              (demo_world {[COLLECTION_NAME := demo_store]} []
                          (important "Lives in Karachi"))
              demo_store "Studies at MIT" "Lives in Karachi" "id-1"
              (demo_md "id-1") (demo_md "id-2") demo_message)
    as [_ Hlt];
    try (vm_compute; reflexivity); try discriminate.
  destruct Hge as [(w1 & Hskip & Hsame & _) Hstore];
    [vm_compute; discriminate|].
  destruct Hstore as (w2 & Hrun2 & _ & Htxt & _);
    [vm_compute; reflexivity|discriminate|].
  destruct Hlt as (w3 & Hrun3 & Hpts & Hnew); [vm_compute; reflexivity|].
  destruct Hnew as (_ & Hsize & _); [vm_compute; reflexivity|].
  split; [|split].
  - exists w1. split; [exact Hskip|exact Hsame].
  - exists w2. split; [exact Hrun2|]. apply Htxt. vm_compute. reflexivity.
  - exists w3. split; [exact Hrun3|].
    split.
    { unfold pts. rewrite Hpts. cbn [from_option id]. rewrite Hsize.
      vm_compute. reflexivity. }
    unfold stored_text. rewrite Hpts. vm_compute. split; reflexivity.
Defined.

(** The claim of C1 fails for the memory manager: "Studied at MIT." is a
    near-duplicate of the stored "Studies at MIT", and after
    [extract_and_store_memories] the record still carries the old text.  The
    conditions of the corrected statement are needed as well.  When the first
    fact was stored without an id in its metadata, [store_memory] finds the
    near-duplicate but no id to reuse, and a second record appears.  When
    the embedding fails once, the manager's own check finds nothing and the
    near-duplicate is overwritten instead of skipped.  And when [uuid4] hands
    back an id in use, a fact below the threshold replaces the record stored
    under that id. *)
Lemma C1_overwrite_counterexample :
  (SIMILARITY_THRESHOLD
   <= demo_cosine (demo_encode "Studied at MIT.") (demo_encode "Studies at MIT"))%Q
  /\ (let run :=
        extract_and_store_memories demo_encode demo_cosine demo_hash
          demo_format demo_message
          (demo_world {[COLLECTION_NAME := demo_store]} []
                      (important "Studied at MIT.")) in
      fst run = Ok tt
      /\ stored_text (snd run) "id-1" = Some "Studies at MIT"
      /\ stored_text (snd run) "id-1" <> Some "Studied at MIT.")
  /\ (let run1 :=
        store_memory demo_encode demo_cosine demo_hash "Studies at MIT" ∅
          (demo_world {[COLLECTION_NAME := ∅]} [] ReplyOther) in
      let run2 :=
        store_memory demo_encode demo_cosine demo_hash "Studied at MIT."
          (demo_md "id-2") (snd run1) in
      size (pts (snd run1)) = 1
      /\ size (pts (snd run2)) = 2
      /\ stored_text (snd run2) "14" = Some "Studies at MIT"
      /\ stored_text (snd run2) "id-2" = Some "Studied at MIT.")
  /\ (let run :=
        extract_and_store_memories demo_encode demo_cosine demo_hash
          demo_format demo_message
          (demo_world {[COLLECTION_NAME := demo_store]}
             [None; Some (OtherException "timeout")]
             (important "Studied at MIT.")) in
      fst run = Ok tt
      /\ stored_text (snd run) "id-1" = Some "Studied at MIT.")
  /\ (demo_cosine (demo_encode "Lives in Karachi")
                  (demo_encode "Studies at MIT") < SIMILARITY_THRESHOLD)%Q
  /\ (let run :=
        extract_and_store_memories demo_encode demo_cosine demo_hash
          demo_format demo_message
          (mkWorld {[COLLECTION_NAME := demo_store]} []
                   (demo_llm (important "Lives in Karachi"))
                   (fun _ => "id-1") (fun n => "2026-01-0" ++ pretty n)
                   0 []) in
      fst run = Ok tt
      /\ size (pts (snd run)) = 1
      /\ stored_text (snd run) "id-1" = Some "Lives in Karachi").
Proof.
  split; [vm_compute; discriminate|].
  split; [vm_compute; repeat split; discriminate|].
  split; [vm_compute; repeat split; reflexivity|].
  split; [vm_compute; repeat split; reflexivity|].
  split; [vm_compute; reflexivity|].
  vm_compute. repeat split; reflexivity.
Qed.

(** C5 on the small world, with [MEMORY_TOP_K = 5], and on a server without
    the collection. *)
Lemma C5_retrieval_witness :
  fst (get_relevant_memories demo_encode demo_cosine 5 "where do I study?"
         (demo_world {[COLLECTION_NAME := demo_store]} [] ReplyOther))
  = Ok ["Studies at MIT"]
  /\ fst (get_relevant_memories demo_encode demo_cosine 5 "where do I study?"
            (demo_world ∅ [] ReplyOther))
     = Ok [].
Proof.
  destruct (C5_get_relevant_memories demo_encode demo_cosine 5
              "where do I study?"
              (demo_world {[COLLECTION_NAME := demo_store]} [] ReplyOther))
    as (_ & _ & _ & _ & _ & Hok).
  destruct (C5_get_relevant_memories demo_encode demo_cosine 5
              "where do I study?" (demo_world ∅ [] ReplyOther))
    as (_ & _ & Hmissing & _).
  split.
  - destruct (Hok demo_store) as [Hrun _].
    + reflexivity.
    + vm_compute. reflexivity.
    + intros k p Hk. unfold demo_store in Hk.
      apply lookup_singleton_Some in Hk as [_ <-]. simpl. eauto.
    + rewrite Hrun. vm_compute. reflexivity.
  - apply Hmissing. vm_compute. reflexivity.
Defined.

(** C6 on a server that cannot be reached three times in a row, and on one
    where the collection is missing and cannot be created. *)
Lemma C6_probe_witness :
  (exists w',
     _collection_exists (demo_world ∅ [rhe; rhe; rhe] ReplyOther)
     = (Ok false, w')
     /\ probes (trace w') = 3
     /\ retry_delays (trace w') = [2; 4]
     /\ sleeps (trace w') = [2; 4; 6])
  /\ (exists w',
        store_memory demo_encode demo_cosine demo_hash
          "Studies at MIT" (demo_md "id-1")
          (demo_world ∅ [None; None; Some (OtherException "403 forbidden")]
                      ReplyOther)
        = (Ok (demo_md "id-1"), w')
        /\ collections w' = ∅).
Proof.
  split.
  - destruct (C6_probe_retries_and_skip demo_encode demo_cosine demo_hash
                (demo_world ∅ [rhe; rhe; rhe] ReplyOther))
      as (_ & Hdown & _).
    destruct (Hdown []) as (w' & Hrun & Htr); [reflexivity|].
    exists w'. split; [exact Hrun|]. rewrite Htr.
    repeat split; reflexivity.
  - destruct (C6_probe_retries_and_skip demo_encode demo_cosine demo_hash
                (demo_world ∅ [None; None; Some (OtherException "403 forbidden")]
                            ReplyOther))
      as (_ & _ & Hskip).
    edestruct (Hskip "Studies at MIT" (demo_md "id-1")) as (Hrun & Hcs & _).
    + vm_compute. reflexivity.
    + vm_compute. reflexivity.
    + eexists. split; [exact Hrun|exact Hcs].
Defined.

(** C7 with the renderer down, and with the chains down. *)
Lemma C7_image_witness :
  image_turn "a calm landscape" renderer_down demo_history ""
  = Ok (mkImageTurn "watching the sunset" "a calm landscape" None)
  /\ (exists msg,
        generate_image renderer_down "a sunset over the sea" ""
        = Raise (TextToImageError msg))
  /\ generate_image chains_down "a sunset over the sea" "" = Ok "PNG".
Proof.
  destruct (C7_image_failures renderer_down "a calm landscape"
              "a sunset over the sea" "" demo_history (Some demo_history))
    as ((sc & enhanced & Hsc & He & Hturn & _) & Hrender & _).
  destruct (C7_image_failures chains_down "a calm landscape"
              "a sunset over the sea" "" demo_history (Some demo_history))
    as (_ & _ & _ & _ & Hgo).
  vm_compute in Hsc. injection Hsc as <-.
  vm_compute in He. injection He as <-.
  split; [|split].
  - apply (Hturn eq_refl (HTTPError "503 Service Unavailable")).
    reflexivity.
  - apply (Hrender eq_refl
             "a sunset over the sea, golden hour, 50mm"
             (HTTPError "503 Service Unavailable")); reflexivity.
  - apply Hgo; [reflexivity| |reflexivity].
    exists (OtherException "rate limit"). reflexivity.
Defined.

(** White space beyond ASCII: a no-break space, an ideographic space, an em
    space and a next-line character are stripped like a blank, a zero-width
    space is not; a prompt of no-break spaces is an empty prompt. *)
Lemma strip_beyond_ascii :
  is_blank (utf8 [194; 160; 32; 227; 128; 128; 226; 128; 131; 194; 133]) = true
  /\ strip (utf8 [194; 160] ++ "a b" ++ utf8 [227; 128; 128; 10]) = "a b"
  /\ is_blank (utf8 [226; 128; 139]) = false
  /\ strip (utf8 [226; 128; 139; 32]) = utf8 [226; 128; 139]
  /\ generate_image renderer_down (utf8 [194; 160; 194; 160]) ""
     = Raise (ValueError "Prompt cannot be empty").
Proof. repeat split; reflexivity. Qed.

(** With the renderer down [generate_image] itself hands back no image and
    tries no other prompt. *)
Lemma generate_image_renderer_down :
  generate_image renderer_down "a sunset over the sea" ""
  = Raise (TextToImageError
             "Failed to generate image: HTTP error - 503 Service Unavailable").
Proof. reflexivity. Qed.

Lemma demo_store_ids fs reply :
  ids_present (pts (demo_world {[COLLECTION_NAME := demo_store]} fs reply)).
Proof.
  assert (E : pts (demo_world {[COLLECTION_NAME := demo_store]} fs reply)
              = demo_store)
    by (unfold pts, points; cbn [demo_world collections];
        now rewrite lookup_singleton_eq).
  rewrite E. intros k p Hk. unfold demo_store in Hk.
  apply lookup_singleton_Some in Hk as [<- <-].
  eexists. split; [reflexivity|]. split; [reflexivity|discriminate].
Qed.

(** C8 on the small world.  "Lives in Karachi" has no near-duplicate: written
    twice under [id-2], it leaves two records, the old one and one under
    [id-2].  "Studied at MIT." has one, stored under [id-1]: written twice
    under [id-2], it leaves one record, under [id-1]. *)
Lemma C8_repeated_write_witness :
  let w := demo_world {[COLLECTION_NAME := demo_store]} [] ReplyOther in
  (exists w1 md2 w2,
     store_memory demo_encode demo_cosine demo_hash
       "Lives in Karachi" (demo_md "id-2") w = (Ok (demo_md "id-2"), w1)
     /\ store_memory demo_encode demo_cosine demo_hash
          "Lives in Karachi" (demo_md "id-2") w1 = (Ok md2, w2)
     /\ size (pts w1) = 2 /\ size (pts w2) = 2
     /\ is_Some (pts w2 !! "id-2"))
  /\ (exists md1 w1 md2 w2,
        store_memory demo_encode demo_cosine demo_hash
          "Studied at MIT." (demo_md "id-2") w = (Ok md1, w1)
        /\ md1 !! "id" = Some "id-1"
        /\ store_memory demo_encode demo_cosine demo_hash
             "Studied at MIT." (demo_md "id-2") w1 = (Ok md2, w2)
        /\ size (pts w1) = 1 /\ size (pts w2) = 1
        /\ is_Some (pts w2 !! "id-1")).
Proof.
  intros w. split.
  - destruct (C8_repeated_write_replaces demo_encode demo_cosine demo_hash
                w "Lives in Karachi" "id-2" (demo_md "id-2"))
      as (pid & md1 & w1 & Hrun & _ & (sm & Hsm & Hcase) & Hps1 & Hagain).
    + reflexivity.
    + apply demo_store_ids.
    + reflexivity.
    + vm_compute. discriminate.
    + vm_compute in Hsm. injection Hsm as <-. destruct Hcase as [-> ->].
      destruct (Hagain (demo_md "id-2") (or_introl eq_refl))
        as (md2 & w2 & Hrun2 & Hsize & _ & md' & Hp & _).
      exists w1, md2, w2. split; [exact Hrun|]. split; [exact Hrun2|].
      rewrite Hsize, Hp, Hps1. split; [reflexivity|]. split; [reflexivity|].
      eauto.
  - destruct (C8_repeated_write_replaces demo_encode demo_cosine demo_hash
                w "Studied at MIT." "id-2" (demo_md "id-2"))
      as (pid & md1 & w1 & Hrun & Hmd1 & (sm & Hsm & Hcase) & Hps1 & Hagain).
    + reflexivity.
    + apply demo_store_ids.
    + reflexivity.
    + vm_compute. discriminate.
    + vm_compute in Hsm. injection Hsm as <-. destruct Hcase as [Hpid _].
      vm_compute in Hpid. injection Hpid as <-.
      destruct (Hagain (demo_md "id-2") (or_introl eq_refl))
        as (md2 & w2 & Hrun2 & Hsize & _ & md' & Hp & _).
      exists md1, w1, md2, w2. split; [exact Hrun|]. split; [exact Hmd1|].
      split; [exact Hrun2|].
      rewrite Hsize, Hp, Hps1. split; [reflexivity|]. split; [reflexivity|].
      eauto.
Defined.

(** The claim of C8 read for the id that was passed in: "Studied at MIT."
    written twice with the id [id-2] ends up under [id-1], the id of its
    near-duplicate, and no record has the id [id-2].  The conditions of the
    corrected statement are needed as well.  When the near-duplicate was
    stored without an id in its metadata, the write finds it but no id to
    reuse, and lands under [id-2] beside it.  When the search of the second
    write fails, that write finds nothing and adds a record under [id-2] to
    the one the first write left under [id-1].  And under a score for which
    the embedding of the text does not reach the threshold against itself,
    the second write does not find what the first one wrote, and adds a
    record as well. *)
Lemma C8_supplied_id_counterexample :
  (let w := demo_world {[COLLECTION_NAME := demo_store]} [] ReplyOther in
   let run1 := store_memory demo_encode demo_cosine demo_hash
                 "Studied at MIT." (demo_md "id-2") w in
   let run2 := store_memory demo_encode demo_cosine demo_hash
                 "Studied at MIT." (demo_md "id-2") (snd run1) in
   is_ok (fst run1) = true /\ is_ok (fst run2) = true
   /\ (ps ← points (snd run2); ps !! "id-2") = None
   /\ stored_text (snd run2) "id-1" = Some "Studied at MIT.")
  /\ (let run0 :=
        store_memory demo_encode demo_cosine demo_hash "Studies at MIT" ∅
          (demo_world {[COLLECTION_NAME := ∅]} [] ReplyOther) in
      let run1 := store_memory demo_encode demo_cosine demo_hash
                    "Studied at MIT." (demo_md "id-2") (snd run0) in
      let run2 := store_memory demo_encode demo_cosine demo_hash
                    "Studied at MIT." (demo_md "id-2") (snd run1) in
      match similar_of demo_cosine (pts (snd run0))
              (demo_encode "Studied at MIT.") with
      | Ok (Some m) => Memory_id m = None
      | _ => False
      end
      /\ size (pts (snd run0)) = 1
      /\ size (pts (snd run2)) = 2
      /\ stored_text (snd run2) "14" = Some "Studies at MIT"
      /\ stored_text (snd run2) "id-2" = Some "Studied at MIT.")
  /\ (let w := demo_world {[COLLECTION_NAME := demo_store]}
                 [None; None; None; None; None; None;
                  None; None; None; Some (OtherException "timeout")]
                 ReplyOther in
      let run1 := store_memory demo_encode demo_cosine demo_hash
                    "Studied at MIT." (demo_md "id-2") w in
      let run2 := store_memory demo_encode demo_cosine demo_hash
                    "Studied at MIT." (demo_md "id-2") (snd run1) in
      is_ok (fst run1) = true /\ is_ok (fst run2) = true
      /\ size (pts (snd run1)) = 1
      /\ size (pts (snd run2)) = 2
      /\ stored_text (snd run2) "id-1" = Some "Studied at MIT."
      /\ stored_text (snd run2) "id-2" = Some "Studied at MIT.")
  /\ (let score (a b : Vector) : Q :=
        match a, b with
        | [x], [y] => if Qeq_bool x y then 0%Q else 1%Q
        | _, _ => 0%Q
        end in
      let w := demo_world {[COLLECTION_NAME := demo_store]} [] ReplyOther in
      let run1 := store_memory demo_encode score demo_hash
                    "Studied at MIT." (demo_md "id-2") w in
      let run2 := store_memory demo_encode score demo_hash
                    "Studied at MIT." (demo_md "id-2") (snd run1) in
      is_ok (fst run1) = true /\ is_ok (fst run2) = true
      /\ size (pts (snd run1)) = 1
      /\ size (pts (snd run2)) = 2
      /\ stored_text (snd run2) "id-1" = Some "Studied at MIT."
      /\ stored_text (snd run2) "id-2" = Some "Studied at MIT.").
Proof.
  split; [vm_compute; repeat split; reflexivity|].
  split; [vm_compute; repeat split; reflexivity|].
  split; [vm_compute; repeat split; reflexivity|].
  vm_compute. repeat split; reflexivity.
Qed.

(** The generator of the small world counts its ids. *)
Lemma demo_uuid_unique cs fs reply : uuid_unique (demo_world cs fs reply).
Proof.
  intros m n E. cbn [demo_world uuid_src] in E.
  apply (inj (String.app "uuid-")) in E. now apply (inj pretty) in E.
Qed.

Lemma demo_uuid_unused fs reply :
  uuid_unused (demo_world {[COLLECTION_NAME := demo_store]} fs reply).
Proof.
  intros ps n Hps _.
  assert (E : points (demo_world {[COLLECTION_NAME := demo_store]} fs reply)
              = Some demo_store) by apply lookup_singleton_eq.
  rewrite E in Hps. injection Hps as <-.
  cbn [demo_world uuid_src]. apply lookup_singleton_ne. discriminate.
Qed.

(** C9 at scenario A of the specification, on a server that has no
    collection yet; at a second fact beside a stored one; and at metadata
    without an id. *)
Lemma C9_new_record_witness :
  (exists w',
     extract_and_store_memories demo_encode demo_cosine demo_hash demo_format
       demo_message (demo_world ∅ [] (important "Studies at MIT"))
     = (Ok tt, w')
     /\ stored_text w' "uuid-0" = Some "Studies at MIT")
  /\ (exists w',
        extract_and_store_memories demo_encode demo_cosine demo_hash
          demo_format demo_message
          (demo_world {[COLLECTION_NAME := demo_store]} []
                      (important "Lives in Karachi"))
        = (Ok tt, w')
        /\ size (pts w') = 2
        /\ stored_text w' "uuid-0" = Some "Lives in Karachi"
        /\ stored_text w' "id-1" = Some "Studies at MIT"
        /\ uuid_unused w')
  /\ (exists w',
        store_memory demo_encode demo_cosine demo_hash "Lives in Karachi" ∅
          (demo_world {[COLLECTION_NAME := demo_store]} [] ReplyOther)
        = (Ok ∅, w')
        /\ stored_text w' "16" = Some "Lives in Karachi"
        /\ stored_text w' "id-1" = Some "Studies at MIT").
Proof.
  split; [|split].
  - destruct (C9_id_of_a_new_record demo_encode demo_cosine demo_hash
                demo_format (demo_world ∅ [] (important "Studies at MIT"))
                demo_message "Studies at MIT" "Studies at MIT" ∅)
      as [Hnew _]; [reflexivity|].
    destruct Hnew as (memory_id & ts & w' & -> & _ & Hrun & Hpts & _);
      [reflexivity|discriminate|discriminate|reflexivity| |].
    + intros ps Hps. vm_compute in Hps. discriminate.
    + exists w'. split; [exact Hrun|].
      unfold stored_text. rewrite Hpts. vm_compute. reflexivity.
  - destruct (C9_id_of_a_new_record demo_encode demo_cosine demo_hash
                demo_format
                (demo_world {[COLLECTION_NAME := demo_store]} []
                            (important "Lives in Karachi"))
                demo_message "Lives in Karachi" "Lives in Karachi" ∅)
      as [Hnew _]; [reflexivity|].
    destruct Hnew
      as (memory_id & ts & w' & -> & _ & Hrun & Hpts & _ & _ & _ & _ & _
          & Hfresh & Hkeep);
      [reflexivity|discriminate|discriminate|reflexivity| |].
    + intros ps Hps. vm_compute in Hps. injection Hps as <-.
      vm_compute. reflexivity.
    + destruct (Hfresh (demo_uuid_unused _ _)) as (_ & Hsize & _).
      destruct (Hkeep (demo_uuid_unique _ _ _) (demo_uuid_unused _ _))
        as [_ Hun].
      exists w'. split; [exact Hrun|]. split; [exact Hsize|].
      unfold stored_text. rewrite Hpts.
      split; [vm_compute; reflexivity|].
      split; [vm_compute; reflexivity|exact Hun].
  - destruct (C9_id_of_a_new_record demo_encode demo_cosine demo_hash
                demo_format
                (demo_world {[COLLECTION_NAME := demo_store]} [] ReplyOther)
                demo_message "Lives in Karachi" "Lives in Karachi" ∅)
      as [_ Hhash]; [reflexivity|].
    destruct Hhash as (w' & Hrun & Hpts & _); [vm_compute; reflexivity| |].
    + intros ps Hps. vm_compute in Hps. injection Hps as <-.
      vm_compute. reflexivity.
    + exists w'. split; [exact Hrun|].
      unfold stored_text. rewrite Hpts. vm_compute. split; reflexivity.
Defined.


(** C2 at scenario B of the specification, with a classifier stub that
    answers [image]. *)
Lemma C2_image_turn_witness :
  classify (fun _ => Ok "image") demo_history = conversation.
Proof.
  apply (C2_image_turn_is_conversation _ _
           (mkMessage "human"
              (whatsapp_image_content "what is this?"
                 (Ok "a laptop screen showing an error")))).
  - vm_compute. reflexivity.
  - left. apply whatsapp_image_content_marked.
Defined.

(** * The further properties at work on the small world *)

Arguments Done {A} a.
Arguments Fail {A} e.

(** Retrieval on a server whose first answer is lost. *)
Lemma retrieval_only_reads_witness :
  let run :=
    search_memories demo_encode demo_cosine "where do I study?" 3
      (demo_world {[COLLECTION_NAME := demo_store]} [rhe] ReplyOther) in
  collections (snd run) = {[COLLECTION_NAME := demo_store]}
  /\ forall ms, fst run = Ok ms -> length ms <= 3.
Proof.
  cbv zeta.
  destruct (search_memories demo_encode demo_cosine "where do I study?" 3
              (demo_world {[COLLECTION_NAME := demo_store]} [rhe] ReplyOther))
    as [r w'] eqn:E.
  cbn [fst snd].
  destruct (retrieval_only_reads demo_encode demo_cosine 5
              "where do I study?" "where do I study?" 3
              (demo_world {[COLLECTION_NAME := demo_store]} [rhe] ReplyOther))
    as [Hs _].
  destruct (Hs r w' E) as (Hc & _ & Hms).
  split; [exact Hc|]. intros ms Hr. exact (proj1 (Hms ms Hr)).
Defined.

(** The duplicate found for "Studied at MIT." scores at least 0.9. *)
Lemma find_similar_memory_sound_witness :
  let run :=
    find_similar_memory demo_encode demo_cosine "Studied at MIT."
      (demo_world {[COLLECTION_NAME := demo_store]} [] ReplyOther) in
  collections (snd run) = {[COLLECTION_NAME := demo_store]}
  /\ forall m, fst run = Ok (Some m) ->
       exists s, score m = Some s /\ (SIMILARITY_THRESHOLD <= s)%Q.
Proof.
  cbv zeta.
  destruct (find_similar_memory demo_encode demo_cosine "Studied at MIT."
              (demo_world {[COLLECTION_NAME := demo_store]} [] ReplyOther))
    as [r w'] eqn:E.
  cbn [fst snd].
  destruct (find_similar_memory_sound demo_encode demo_cosine
              "Studied at MIT."
              (demo_world {[COLLECTION_NAME := demo_store]} [] ReplyOther)
              r w' E) as (Hc & _ & Hm).
  split; [exact Hc|exact Hm].
Defined.

(** A write whose upsert the server refuses. *)
Lemma store_memory_footprint_witness :
  let w := demo_world {[COLLECTION_NAME := demo_store]}
             [None; None; None; Some (OtherException "disk full")]
             ReplyOther in
  let run :=
    store_memory demo_encode demo_cosine demo_hash
      "Lives in Karachi" (demo_md "id-2") w in
  exists evs,
    ran w (snd run) evs /\ upserts evs <= 1 /\ creates evs <= 1
    /\ llm_calls evs = 0.
Proof.
  cbv zeta.
  destruct (store_memory demo_encode demo_cosine demo_hash
              "Lives in Karachi" (demo_md "id-2")
              (demo_world {[COLLECTION_NAME := demo_store]}
                 [None; None; None; Some (OtherException "disk full")]
                 ReplyOther)) as [r w'] eqn:E.
  cbn [fst snd].
  destruct (store_memory_footprint demo_encode demo_cosine demo_hash
              "Lives in Karachi" (demo_md "id-2")
              (demo_world {[COLLECTION_NAME := demo_store]}
                 [None; None; None; Some (OtherException "disk full")]
                 ReplyOther) r w' E)
    as (evs & Hran & Hu & Hcr & Hl & _).
  exists evs. split; [exact Hran|]. split; [exact Hu|].
  split; [exact Hcr|exact Hl].
Defined.

(** One message, at most one classifier call and one write. *)
Lemma extract_and_store_memories_footprint_witness :
  let w := demo_world {[COLLECTION_NAME := demo_store]} []
             (important "Lives in Karachi") in
  let run :=
    extract_and_store_memories demo_encode demo_cosine demo_hash demo_format
      demo_message w in
  fst run = Ok tt
  /\ exists evs,
       ran w (snd run) evs /\ llm_calls evs <= 1 /\ upserts evs <= 1.
Proof.
  cbv zeta.
  destruct (extract_and_store_memories demo_encode demo_cosine demo_hash
              demo_format demo_message
              (demo_world {[COLLECTION_NAME := demo_store]} []
                 (important "Lives in Karachi"))) as [r w'] eqn:E.
  cbn [fst snd].
  destruct (extract_and_store_memories_footprint demo_encode demo_cosine
              demo_hash demo_format demo_message
              (demo_world {[COLLECTION_NAME := demo_store]} []
                 (important "Lives in Karachi")) r w' E)
    as (Hr & evs & Hran & Hl & Hu & _).
  split; [exact Hr|]. exists evs. split; [exact Hran|]. split; [exact Hl|exact Hu].
Defined.

(** "Lives in Karachi" is stored beside "Studies at MIT" and comes back from
    the next search with its metadata. *)
Lemma store_then_search_round_trip_witness :
  exists w1 w2 ms,
    store_memory demo_encode demo_cosine demo_hash
      "Lives in Karachi" (demo_md "id-2")
      (demo_world {[COLLECTION_NAME := demo_store]} [] ReplyOther)
    = (Ok (demo_md "id-2"), w1)
    /\ search_memories demo_encode demo_cosine "where do I live?" 5 w1
       = (Ok ms, w2)
    /\ mkMemory "Lives in Karachi" (demo_md "id-2")
         (Some (demo_cosine (demo_encode "where do I live?")
                            (demo_encode "Lives in Karachi"))) ∈ ms.
Proof.
  destruct (store_then_search_round_trip demo_encode demo_cosine demo_hash
              (demo_world {[COLLECTION_NAME := demo_store]} [] ReplyOther)
              demo_store "Lives in Karachi" "where do I live?"
              (demo_md "id-2") None 5)
    as (w1 & w2 & ms & Hst & Hse & _ & _ & Hin).
  - reflexivity.
  - vm_compute. reflexivity.
  - intros k p Hk. unfold demo_store in Hk.
    apply lookup_singleton_Some in Hk as [_ <-]. simpl. eauto.
  - vm_compute. reflexivity.
  - vm_compute. lia.
  - exists w1, w2, ms. split; [exact Hst|]. split; [exact Hse|].
    apply Hin. vm_compute. reflexivity.
Defined.

(** Two memories, two lines. *)
Lemma format_memories_for_prompt_lines_witness :
  split_on LF
    (format_memories_for_prompt ["Studies at MIT"; "Lives in Karachi"])
  = ["- Studies at MIT"; "- Lives in Karachi"].
Proof.
  destruct (format_memories_for_prompt_lines
              ["Studies at MIT"; "Lives in Karachi"]) as [_ H].
  apply H; [discriminate|]. repeat constructor.
Defined.

(** A prompt with reserved characters. *)
Lemma image_url_is_safe_and_faithful_witness :
  has_char "+"%char (quote "1+1=2 & more?") = false
  /\ has_char "&"%char (quote "1+1=2 & more?") = false
  /\ "1+1=2 & more?" = "1+1=2 & more?".
Proof.
  destruct (image_url_is_safe_and_faithful "1+1=2 & more?" "1+1=2 & more?")
    as (Hsafe & _ & Hamp & _ & _ & _ & Hinj & _).
  split; [|split].
  - apply Hsafe; [reflexivity|discriminate].
  - exact Hamp.
  - apply Hinj. reflexivity.
Defined.

(** A blank prompt, and a prompt the renderer serves although the enhancing
    chain is down. *)
Lemma generate_image_outcomes_witness :
  generate_image chains_down "   " ""
  = Raise (ValueError "Prompt cannot be empty")
  /\ exists enhanced,
       enhance_prompt chains_down "a sunset over the sea" = Ok enhanced
       /\ http_get chains_down (image_url enhanced) = Ok "PNG".
Proof.
  destruct (generate_image_outcomes chains_down "   " "") as (Hblank & _).
  destruct (generate_image_outcomes chains_down "a sunset over the sea" "")
    as (_ & Hok & _).
  split; [apply Hblank; reflexivity|].
  destruct (Hok "PNG") as (_ & enhanced & He & Hg & _); [reflexivity|].
  exists enhanced. split; [exact He|exact Hg].
Defined.

(** A history of nine messages: the first four do not reach the chain. *)
Lemma create_scenario_last_five_witness :
  create_scenario renderer_down
    (Some (demo_history
             ++ (demo_history ++ [mkMessage "human" "draw it"]))%list)
  = create_scenario renderer_down
      (Some (last_five (demo_history ++ [mkMessage "human" "draw it"])%list)).
Proof.
  destruct (create_scenario_last_five renderer_down demo_history
              (demo_history ++ [mkMessage "human" "draw it"])%list)
    as (H & _).
  - simpl. lia.
  - exact H.
Defined.

(** A file that is not there. *)
Lemma analyze_image_failures_witness :
  analyze_image demo_vision (ImagePath "dog.png") ""
  = Fail (PyImageToTextError
            "Failed to analyze image: Image file not found: dog.png").
Proof.
  destruct (analyze_image_failures demo_vision (ImagePath "dog.png") "")
    as (_ & _ & Hmissing & _).
  apply (Hmissing "dog.png"). reflexivity.
Defined.

(** The answer for the file that is there, without the blanks of the
    model. *)
Lemma analyze_image_answer_witness :
  analyze_image demo_vision (ImagePath "cat.png") "" = Done "a cat on a sofa"
  /\ exists raw rest,
       vision_chat demo_vision DEFAULT_VISION_PROMPT
         (data_url (b64encode demo_vision "PNGDATA"))
       = Done (Some raw :: rest)
       /\ "a cat on a sofa" = strip raw.
Proof.
  assert (E : analyze_image demo_vision (ImagePath "cat.png") ""
              = Done "a cat on a sofa") by (vm_compute; reflexivity).
  split; [exact E|].
  destruct (analyze_image_answer demo_vision (ImagePath "cat.png") ""
              "a cat on a sofa" E)
    as (bytes & raw & rest & Hb & _ & Hv & _ & Hd & _).
  vm_compute in Hb. injection Hb as <-.
  exists raw, rest. split; [exact Hv|exact Hd].
Defined.

(** A handshake with the configured token, and one on a server without
    configuration. *)
Lemma whatsapp_verification_decides_witness :
  status_code
    (whatsapp_verification
       (<["hub.mode" := "subscribe"]>
          (<["hub.verify_token" := "s3cret"]>
             (<["hub.challenge" := "42"]> ∅)))
       (<["WHATSAPP_VERIFY_TOKEN" := "s3cret"]> ∅)) = 200
  /\ whatsapp_verification
       (<["hub.mode" := "subscribe"]> (<["hub.challenge" := "42"]> ∅)) ∅
     = mkResponse (Some "42") 200.
Proof.
  destruct (whatsapp_verification_decides
              (<["hub.mode" := "subscribe"]>
                 (<["hub.verify_token" := "s3cret"]>
                    (<["hub.challenge" := "42"]> ∅)))
              (<["WHATSAPP_VERIFY_TOKEN" := "s3cret"]> ∅))
    as (_ & _ & _ & Htok & _).
  destruct (whatsapp_verification_decides
              (<["hub.mode" := "subscribe"]> (<["hub.challenge" := "42"]> ∅))
              ∅)
    as (_ & _ & _ & _ & Hnone).
  split.
  - apply (Htok "s3cret"); [vm_compute; reflexivity|discriminate|].
    split; vm_compute; reflexivity.
  - rewrite Hnone; try (vm_compute; reflexivity).
Defined.

(** A Chainlit message without text and with one image. *)
Lemma chainlit_content_shape_witness :
  match chainlit_content demo_vision ""
          [OtherElement; ImageElement "cat.png"] with
  | Done out =>
      String.prefix (USER_SENT_IMAGE ++ " ") out = true
      /\ contains IMAGE_ANALYSIS out = true
  | Fail _ => False
  end.
Proof.
  destruct (chainlit_content_shape demo_vision ""
              [OtherElement; ImageElement "cat.png"]) as (H & _).
  destruct (chainlit_content demo_vision ""
              [OtherElement; ImageElement "cat.png"]) as [out|e] eqn:E;
    [|vm_compute in E; discriminate].
  destruct (H out eq_refl) as [[Hno _]|(_ & Hp & Hc & _)];
    [vm_compute in Hno; discriminate|].
  split; [exact Hp|exact Hc].
Defined.


(** A text that WhatsApp rejects with 401 is sent and forgotten; an image
    whose upload is rejected is not posted. *)
Lemma send_message_wire_witness :
  fst (send_message (JStr "4915100000000") "hi" "text"
         (demo_net 401 (Done JNull) (Done (demo_state None))))
  = Done tt
  /\ send_message (JStr "4915100000000") "PNG" "image"
       (demo_net 401 (Done JNull) (Done (demo_state None)))
     = (Fail (PyHTTPStatusError 401),
        sent (upload_request
                (demo_net 401 (Done JNull) (Done (demo_state None)))
                "PNG" "image/png")
             (demo_net 401 (Done JNull) (Done (demo_state None)))).
Proof.
  destruct (send_message_wire (JStr "4915100000000") "hi" "text"
              (demo_net 401 (Done JNull) (Done (demo_state None))))
    as (Htext & _).
  destruct (send_message_wire (JStr "4915100000000") "PNG" "image"
              (demo_net 401 (Done JNull) (Done (demo_state None))))
    as (_ & _ & Hmedia).
  split.
  - destruct (Htext eq_refl) as (_ & Hok & _).
    apply (Hok (mkHttpResponse 401 (Done JNull) "BYTES")). reflexivity.
  - destruct (Hmedia (or_intror eq_refl)) as (_ & Hres).
    destruct (Hres (mkHttpResponse 401 (Done JNull) "BYTES") eq_refl)
      as (Hbad & _).
    apply Hbad. right. cbn. lia.
Defined.

(** A delivery receipt. *)
Lemma webhook_ignores_non_messages_witness :
  whatsapp_message_handler
    (Done (webhook_payload
             (JObj [("statuses", JArr [JObj [("status", JStr "read")]])])))
    (demo_net 200 (Done JNull) (Done (demo_state None)))
  = (mkResponse (Some "Status received") 200,
     demo_net 200 (Done JNull) (Done (demo_state None))).
Proof.
  destruct (webhook_ignores_non_messages
              (webhook_payload
                 (JObj [("statuses", JArr [JObj [("status", JStr "read")]])]))
              (demo_net 200 (Done JNull) (Done (demo_state None))))
    as (_ & _ & Hst & _).
  apply (Hst [("statuses", JArr [JObj [("status", JStr "read")]])]).
  - do 5 eexists. repeat split; reflexivity.
  - eexists. reflexivity.
Defined.

(** "hi" on a server that rejects every post with 401, and on one whose
    graph is down. *)
Lemma webhook_text_turn_witness :
  (exists net',
     whatsapp_message_handler
       (Done (webhook_payload (demo_change demo_text_message)))
       (demo_net 401 (Done JNull) (Done (demo_state None)))
     = (mkResponse (Some "Processed") 200, net')
     /\ length (wire net') = 4
     /\ invoked net' = [(JStr "4915100000000", JStr "hi")])
  /\ (exists net',
        whatsapp_message_handler
          (Done (webhook_payload (demo_change demo_text_message)))
          (demo_net 200 (Done JNull) (Fail (PyException "graph down")))
        = (mkResponse (Some "Internal Error") 500, net')
        /\ length (wire net') = 2).
Proof.
  split.
  - destruct (webhook_text_turn
                (webhook_payload (demo_change demo_text_message))
                demo_text_message [("body", JStr "hi")]
                (JStr "4915100000000") (JStr "wamid.1") (JStr "hi")
                (demo_net 401 (Done JNull) (Done (demo_state None))))
      as (Hok & _).
    + eexists _, _. split; [do 5 eexists; repeat split; reflexivity|].
      repeat split; reflexivity.
    + reflexivity.
    + reflexivity.
    + intros n req. eexists. reflexivity.
    + destruct (Hok (demo_state None) "hey, what's up")
        as (net' & Hrun & Hw & Hi); try reflexivity; try discriminate.
      exists net'. split; [exact Hrun|]. rewrite Hw, Hi.
      split; reflexivity.
  - destruct (webhook_text_turn
                (webhook_payload (demo_change demo_text_message))
                demo_text_message [("body", JStr "hi")]
                (JStr "4915100000000") (JStr "wamid.1") (JStr "hi")
                (demo_net 200 (Done JNull) (Fail (PyException "graph down"))))
      as (_ & Hdown).
    + eexists _, _. split; [do 5 eexists; repeat split; reflexivity|].
      repeat split; reflexivity.
    + reflexivity.
    + reflexivity.
    + intros n req. eexists. reflexivity.
    + destruct (Hdown (PyException "graph down"))
        as (net' & Hrun & Hw & _); [reflexivity|].
      exists net'. split; [exact Hrun|]. rewrite Hw. reflexivity.
Defined.

(** A sticker. *)
Lemma webhook_unsupported_type_witness :
  exists net',
    whatsapp_message_handler
      (Done (webhook_payload (demo_change demo_sticker_message)))
      (demo_net 200 (Done JNull) (Done (demo_state None)))
    = (mkResponse (Some "Unsupported type") 200, net')
    /\ length (wire net') = 3
    /\ invoked net' = [].
Proof.
  destruct (webhook_unsupported_type
              (webhook_payload (demo_change demo_sticker_message))
              demo_sticker_message
              (JStr "4915100000000") (JStr "wamid.4") (JStr "sticker")
              (demo_net 200 (Done JNull) (Done (demo_state None))))
    as (net' & Hrun & Hw & Hi); try discriminate.
  - eexists _, _. split; [do 5 eexists; repeat split; reflexivity|].
    repeat split; reflexivity.
  - intros n req. eexists. reflexivity.
  - exists net'. split; [exact Hrun|]. rewrite Hw, Hi. split; reflexivity.
Defined.

(** A picture without caption. *)
Lemma webhook_image_turn_witness :
  exists net',
    whatsapp_message_handler
      (Done (webhook_payload (demo_change demo_image_message)))
      (demo_net 200 (Done demo_media_json) (Done (demo_state None)))
    = (mkResponse (Some "Processed") 200, net')
    /\ length (wire net') = 6
    /\ invoked net'
       = [(JStr "4915100000000",
           JStr ("[USER_SENT_IMAGE] What is this?" ++ newline ++ newline
                   ++ "[Image Analysis: a cat on a sofa]"))].
Proof.
  destruct (webhook_image_turn
              (webhook_payload (demo_change demo_image_message))
              demo_image_message
              [("id", JStr "media-1"); ("mime_type", JStr "image/jpeg")]
              (JStr "4915100000000") (JStr "wamid.2")
              "media-1" "https://lookaside.example/m" "BYTES" ""
              (demo_state None) "hey, what's up"
              (demo_net 200 (Done demo_media_json) (Done (demo_state None))))
    as ((net' & Hrun & Hw & Hi) & _); try reflexivity; try discriminate.
  - eexists _, _. split; [do 5 eexists; repeat split; reflexivity|].
    repeat split; reflexivity.
  - left. split; reflexivity.
  - intros n req. eexists. reflexivity.
  - intros n. split; eexists; (split; [reflexivity|]);
      (split; [|reflexivity]); unfold success; cbn; lia.
  - exists net'. split; [exact Hrun|]. rewrite Hw, Hi.
    split; [reflexivity|]. vm_compute. reflexivity.
Defined.

(** A voice note, and one that cannot be transcribed. *)
Lemma webhook_voice_turn_witness :
  exists net',
    whatsapp_message_handler
      (Done (webhook_payload (demo_change demo_voice_message)))
      (demo_net 200 (Done demo_media_json) (Done (demo_state None)))
    = (mkResponse (Some "Processed") 200, net')
    /\ length (wire net') = 6
    /\ invoked net' = [(JStr "4915100000000", JStr "hello there")].
Proof.
  destruct (webhook_voice_turn
              (webhook_payload (demo_change demo_voice_message))
              demo_voice_message [("id", JStr "media-2")]
              (JStr "4915100000000") (JStr "wamid.3")
              "media-2" "https://lookaside.example/m" "BYTES"
              (demo_net 200 (Done demo_media_json) (Done (demo_state None))))
    as (Hok & _); try reflexivity.
  - eexists _, _. split; [do 5 eexists; repeat split; reflexivity|].
    repeat split; reflexivity.
  - intros n req. eexists. reflexivity.
  - intros n. split; eexists; (split; [reflexivity|]);
      (split; [|reflexivity]); unfold success; cbn; lia.
  - destruct (Hok "hello there" (demo_state None) "hey, what's up")
      as (net' & Hrun & Hw & Hi); try reflexivity; try discriminate.
    exists net'. split; [exact Hrun|]. rewrite Hw, Hi. split; reflexivity.
Defined.

(** "hi" answered with an image and a caption. *)
Lemma webhook_media_reply_witness :
  exists net',
    whatsapp_message_handler
      (Done (webhook_payload (demo_change demo_text_message)))
      (demo_net 200 (Done demo_media_json) (Done (demo_state (Some "image"))))
    = (mkResponse (Some "Processed") 200, net')
    /\ length (wire net') = 6.
Proof.
  destruct (webhook_media_reply
              (webhook_payload (demo_change demo_text_message))
              demo_text_message [("body", JStr "hi")]
              (JStr "4915100000000") (JStr "wamid.1") (JStr "hi")
              (demo_state (Some "image")) "hey, what's up"
              (demo_net 200 (Done demo_media_json)
                        (Done (demo_state (Some "image")))))
    as (Himg & _); try reflexivity.
  - eexists _, _. split; [do 5 eexists; repeat split; reflexivity|].
    repeat split; reflexivity.
  - intros n req. eexists. reflexivity.
  - destruct (Himg (JStr "media-9") "generated/image.png" "PNG")
      as (net' & Hrun & Hw); try reflexivity.
    + intros n c m. eexists. split; [reflexivity|].
      split; [unfold success; cbn; lia|reflexivity].
    + exists net'. split; [exact Hrun|]. rewrite Hw. reflexivity.
Defined.

(** One call, at most one run of the graph. *)
Lemma webhook_footprint_witness :
  let net := demo_net 503 (Done JNull) (Done (demo_state (Some "audio"))) in
  let run :=
    whatsapp_message_handler
      (Done (webhook_payload (demo_change demo_text_message))) net in
  exists reqs runs,
    grew net (snd run) reqs runs /\ length runs <= 1
    /\ (status_code (fst run) = 200
        \/ fst run = mkResponse (Some "Internal Error") 500).
Proof.
  cbv zeta.
  destruct (whatsapp_message_handler
              (Done (webhook_payload (demo_change demo_text_message)))
              (demo_net 503 (Done JNull) (Done (demo_state (Some "audio")))))
    as [response net'] eqn:E.
  cbn [fst snd].
  destruct (webhook_footprint
              (Done (webhook_payload (demo_change demo_text_message)))
              (demo_net 503 (Done JNull) (Done (demo_state (Some "audio"))))
              response net' E)
    as (reqs & runs & G & Hl & _ & Hs & _).
  exists reqs, runs. split; [exact G|]. split; [exact Hl|exact Hs].
Defined.
